(** * Resume analyzer: scoring, confidence and ranking engine

    A shallow embedding of the scoring code of the resume analyzer
    ([src/core], [src/models], [src/services]) together with the
    properties its specification states about it.

    Modelling conventions.
    - A Python [float] is a real number ([R]): arithmetic is exact, so the
      results below speak about the formulas of the code, not about
      rounding in the last binary digit.
    - A Python [str] is a [string] whose characters are code points below
      256; [dict]s are association lists in insertion order.
    - A call that may raise returns an [option]; [None] is the raised
      exception, and [try/except] is a [match] on it.
    - Time stamps and log output are not part of the model. *)

From Stdlib Require Import Reals Lra Lia ZArith List String Ascii Bool Arith.
From Stdlib Require Import Permutation Sorted.
From Stdlib.Reals Require Import Zfloor.
Import ListNotations.

Local Open Scope string_scope.
Local Open Scope list_scope.
Local Open Scope R_scope.

(** ** Python built-ins used by the code *)

Module Py.

(** [dict]: association list, first binding wins, insertion order kept. *)
Definition dict (V : Type) : Type := list (string * V).

Fixpoint get {V} (d : dict V) (k : string) : option V :=
  match d with
  | [] => None
  | (k', v) :: d' => if String.eqb k' k then Some v else get d' k
  end.

Definition contains_key {V} (d : dict V) (k : string) : bool :=
  match get d k with Some _ => true | None => false end.

(** [d[k] = v]: overwrite in place, or append a new key at the end. *)
Fixpoint set {V} (d : dict V) (k : string) (v : V) : dict V :=
  match d with
  | [] => [(k, v)]
  | (k', v') :: d' =>
      if String.eqb k' k then (k', v) :: d' else (k', v') :: set d' k v
  end.

Definition keys {V} (d : dict V) : list string := map fst d.
Definition values {V} (d : dict V) : list V := map snd d.

(** [sum(l)], [min(a, b)], [max(a, b)] on floats. *)
Definition sum (l : list R) : R := fold_right Rplus 0 l.

Fixpoint maximum (x : R) (l : list R) : R :=
  match l with
  | [] => x
  | y :: l' => maximum (Rmax x y) l'
  end.

Fixpoint minimum (x : R) (l : list R) : R :=
  match l with
  | [] => x
  | y :: l' => minimum (Rmin x y) l'
  end.

(** [numpy.mean] and [numpy.var] (population variance, [ddof = 0]). *)
Definition np_mean (l : list R) : R := sum l / INR (List.length l).

Definition np_var (l : list R) : R :=
  let m := np_mean l in
  np_mean (map (fun x => (x - m) * (x - m)) l).

(** [round(x, ndigits)]: nearest multiple of [10^-ndigits], ties to the
    even one. *)
Definition round_half_even (x : R) : Z :=
  let f := Zfloor x in
  let r := x - IZR f in
  if Rlt_dec r (1 / 2) then f
  else if Rlt_dec (1 / 2) r then (f + 1)%Z
  else if Z.even f then f else (f + 1)%Z.

Definition round (x : R) (ndigits : nat) : R :=
  IZR (round_half_even (x * 10 ^ ndigits)) / 10 ^ ndigits.

(** [l[:n]] for an arbitrary integer [n]: a negative [n] counts from the
    end. *)
Definition slice_to {A} (l : list A) (n : Z) : list A :=
  if (0 <=? n)%Z then firstn (Z.to_nat n) l
  else firstn (List.length l - Z.to_nat (- n)) l.

(** [str]: white space as [str.isspace] sees it below code point 256. *)
Definition isspace (c : ascii) : bool :=
  let n := nat_of_ascii c in
  ((9 <=? n) && (n <=? 13) || (28 <=? n) && (n <=? 32)
   || (n =? 133) || (n =? 160))%nat.

Definition lower_char (c : ascii) : ascii :=
  let n := nat_of_ascii c in
  if ((65 <=? n) && (n <=? 90)
      || (192 <=? n) && (n <=? 222) && negb (n =? 215))%nat
  then ascii_of_nat (n + 32) else c.

Fixpoint lower (s : string) : string :=
  match s with
  | EmptyString => EmptyString
  | String c r => String (lower_char c) (lower r)
  end.

Fixpoint lstrip (s : string) : string :=
  match s with
  | EmptyString => EmptyString
  | String c r => if isspace c then lstrip r else s
  end.

Fixpoint rstrip (s : string) : string :=
  match s with
  | EmptyString => EmptyString
  | String c r =>
      match rstrip r with
      | EmptyString => if isspace c then EmptyString else String c EmptyString
      | r' => String c r'
      end
  end.

Definition strip (s : string) : string := rstrip (lstrip s).

(** Truth value of a string and of a list: non-empty. *)
Definition truthy (s : string) : bool :=
  match s with EmptyString => false | _ => true end.

Definition nonempty {A} (l : list A) : bool :=
  match l with [] => false | _ => true end.

Fixpoint startswith (p s : string) : bool :=
  match p, s with
  | EmptyString, _ => true
  | String a p', String b s' => Ascii.eqb a b && startswith p' s'
  | String _ _, EmptyString => false
  end.

(** [needle in hay] *)
Fixpoint contains (needle hay : string) : bool :=
  startswith needle hay ||
  match hay with
  | EmptyString => false
  | String _ r => contains needle r
  end.

(** [any(p in s for p in patterns)] *)
Definition any_in (patterns : list string) (s : string) : bool :=
  existsb (fun p => contains p s) patterns.

(** [s.split(sep)] for a one-character separator. *)
Fixpoint split (sep : ascii) (s : string) : list string :=
  match s with
  | EmptyString => [EmptyString]
  | String c r =>
      if Ascii.eqb c sep then EmptyString :: split sep r
      else match split sep r with
           | [] => [String c EmptyString]
           | h :: t => String c h :: t
           end
  end.

Definition newline : ascii := "010"%char.
Definition nl : string := String newline EmptyString.

(** [sep.join(l)] *)
Definition join (sep : string) (l : list string) : string :=
  String.concat sep l.

(** [s[:n]] for a non-negative [n]. *)
Definition str_prefix (n : nat) (s : string) : string := substring 0 n s.

(** [os.path.basename] and the root part of [os.path.splitext] on a
    name that holds no ['/'] (POSIX rules: dots that lead the name do
    not start an extension). *)
Definition basename (p : string) : string :=
  last (split "/"%char p) EmptyString.

Fixpoint before_last_dot (s : string) : option string :=
  match s with
  | EmptyString => None
  | String c r =>
      match before_last_dot r with
      | Some pre => Some (String c pre)
      | None => if Ascii.eqb c "."%char then Some EmptyString else None
      end
  end.

Fixpoint all_dots (s : string) : bool :=
  match s with
  | EmptyString => true
  | String c r => Ascii.eqb c "."%char && all_dots r
  end.

Definition splitext_root (name : string) : string :=
  match before_last_dot name with
  | Some pre => if all_dots pre then name else pre
  | None => name
  end.

(** Monadic traversal for loops whose body may raise. *)
Fixpoint traverse {A B} (f : A -> option B) (l : list A) : option (list B) :=
  match l with
  | [] => Some []
  | x :: l' =>
      match f x with
      | None => None
      | Some y =>
          match traverse f l' with
          | None => None
          | Some ys => Some (y :: ys)
          end
      end
  end.

(** [numpy.median]: middle of the sorted values. *)
Fixpoint insert_sorted (x : R) (l : list R) : list R :=
  match l with
  | [] => [x]
  | y :: l' => if Rle_dec x y then x :: l else y :: insert_sorted x l'
  end.

Definition sorted (l : list R) : list R := fold_right insert_sorted [] l.

Definition np_median (l : list R) : R :=
  let s := sorted l in
  let n := List.length l in
  if Nat.even n then (nth (n / 2 - 1) s 0 + nth (n / 2) s 0) / 2
  else nth (n / 2) s 0.

(** [sum(1 for x in l if p x)] *)
Definition count {A} (p : A -> bool) (l : list A) : nat :=
  List.length (filter p l).

(** [s.split()]: the words between runs of white space. *)
Fixpoint split_ws (s : string) : list string :=
  match s with
  | EmptyString => []
  | String c r =>
      if isspace c then split_ws r
      else match r with
           | EmptyString => [String c EmptyString]
           | String c' _ =>
               if isspace c' then String c EmptyString :: split_ws r
               else match split_ws r with
                    | w :: ws => String c w :: ws
                    | [] => [String c EmptyString]
                    end
           end
  end.

(** [s.replace(c, '')] for a one-character [c]. *)
Fixpoint remove_char (c : ascii) (s : string) : string :=
  match s with
  | EmptyString => EmptyString
  | String a r =>
      if Ascii.eqb a c then remove_char c r else String a (remove_char c r)
  end.

(** [str.isdigit] below code point 256: the ten digits and the
    superscripts one, two, three. *)
Definition isdigit (c : ascii) : bool :=
  let n := nat_of_ascii c in
  ((48 <=? n) && (n <=? 57) || (n =? 178) || (n =? 179) || (n =? 185))%nat.

(** [any(p(char) for char in s)] *)
Fixpoint any_char (p : ascii -> bool) (s : string) : bool :=
  match s with
  | EmptyString => false
  | String c r => p c || any_char p r
  end.

(** [s.title()] on ASCII text: a letter that follows a letter is put in
    lower case, any other letter in upper case. *)
Definition is_ascii_letter (c : ascii) : bool :=
  let n := nat_of_ascii c in
  ((65 <=? n) && (n <=? 90) || (97 <=? n) && (n <=? 122))%nat.

Definition upper_ascii (c : ascii) : ascii :=
  let n := nat_of_ascii c in
  if ((97 <=? n) && (n <=? 122))%nat then ascii_of_nat (n - 32) else c.

Fixpoint title_from (previous_is_cased : bool) (s : string) : string :=
  match s with
  | EmptyString => EmptyString
  | String c r =>
      String (if previous_is_cased then lower_char c else upper_ascii c)
             (title_from (is_ascii_letter c) r)
  end.

Definition title (s : string) : string := title_from false s.

End Py.

(** ** [src/models/analysis_result.py] *)

Record SimilarityScore : Type := mkSimilarityScore {
  overall_score : R;
  section_scores : Py.dict R;
  confidence : R;
  reasoning : string
}.

Definition get_score_percentage (self : SimilarityScore) : R :=
  Py.round (overall_score self * 100) 2.

Definition get_grade (self : SimilarityScore) : string :=
  let score_pct := get_score_percentage self in
  if Rge_dec score_pct 80 then "A"
  else if Rge_dec score_pct 70 then "B"
  else if Rge_dec score_pct 60 then "C"
  else if Rge_dec score_pct 50 then "D"
  else "F".

(** ** [src/core/similarity_calculator.py] *)

Definition enhance_similarity_score (raw_score : R) : R :=
  if Rlt_dec raw_score 0.15 then raw_score * 2
  else if Rlt_dec raw_score 0.3 then 0.3 + (raw_score - 0.15) * 2
  else if Rlt_dec raw_score 0.6 then 0.45 + (raw_score - 0.3) * 1.5
  else 0.9 + (raw_score - 0.6) * 0.25.

(** [math.sqrt] raises [ValueError] on a negative argument. *)
Definition math_sqrt (x : R) : option R :=
  if Rlt_dec x 0 then None else Some (sqrt x).

Definition apply_final_score_boost (score : R) : option R :=
  match math_sqrt score with
  | None => None
  | Some root =>
      let boosted := root * 0.85 + score * 0.15 in
      let boosted :=
        if Rgt_dec boosted 0.25 then boosted * 1.2 else boosted in
      Some (Rmin 1.0 boosted)
  end.

(** ** [src/services/batch_processor.py]: the batch transform *)

Definition _enhance_batch_score (raw_score : R) : R :=
  if Rlt_dec raw_score 0.2 then raw_score * 1.5
  else if Rlt_dec raw_score 0.4 then 0.35 + (raw_score - 0.2) * 2.0
  else if Rlt_dec raw_score 0.6 then 0.65 + (raw_score - 0.4) * 1.25
  else 0.85 + (raw_score - 0.6) * 0.375.

(** ** [src/models/resume_model.py], [src/models/job_description_model.py] *)

Record ResumeDocument : Type := mkResumeDocument {
  id : string;
  file_path : string;
  content : string;
  sections : Py.dict string;
  metadata : Py.dict string;
  embedding : option (list R)
}.

Definition has_section (self : ResumeDocument) (section : string) : bool :=
  match Py.get (sections self) section with
  | Some text => Py.truthy (Py.strip text)
  | None => false
  end.

Record ResumeCollection : Type := mkResumeCollection {
  resumes : list ResumeDocument;
  batch_size : nat;
  processed_count : nat
}.

(** [next((r for r in self.resumes if r.id == resume_id), None)]; the
    identifier comes from [dict.get] and may be [None]. *)
Definition get_resume_by_id (self : ResumeCollection)
  (resume_id : option string) : option ResumeDocument :=
  match resume_id with
  | None => None
  | Some i => find (fun r => String.eqb (id r) i) (resumes self)
  end.

Record JobDescription : Type := mkJobDescription {
  job_id : string;
  job_title : string;
  job_content : string;
  job_sections : Py.dict string;
  job_requirements : list string
}.

Record CandidateRanking : Type := mkCandidateRanking {
  rank : nat;
  resume_id : string;
  candidate_name : option string;
  similarity_score : SimilarityScore;
  key_highlights : list string
}.

(** The summary mapping of a batch: either the single key ["error"] or
    the statistics. *)
Inductive BatchSummary : Type :=
| SummaryError (message : string)
| SummaryStats (total_processed total_candidates : nat)
    (average_score median_score max_score min_score : R)
    (score_distribution : Py.dict nat).

Record BatchAnalysisResult : Type := mkBatchAnalysisResult {
  job_description_id : string;
  total_candidates : nat;
  top_n_requested : Z;
  rankings : list CandidateRanking;
  analysis_summary : BatchSummary
}.

(** ** [src/core/document_processor.py] *)

Definition common_sections : list string :=
  ["summary"; "objective"; "skills"; "experience"; "education";
   "projects"; "certifications"; "awards"; "references"].

(** The loop of [_extract_section_by_patterns] over the remaining lines,
    with its two variables [in_section] and [section_content]. *)
Fixpoint scan_lines (patterns : list string) (content_lines : list string)
  (in_section : bool) (section_content : list string) : list string :=
  match content_lines with
  | [] => section_content
  | line :: rest =>
      let line_lower := Py.strip (Py.lower line) in
      if Py.any_in patterns line_lower then
        scan_lines patterns rest true section_content
      else if in_section && Py.any_in common_sections line_lower
              && negb (Py.any_in patterns line_lower) then
        section_content
      else if in_section && Py.truthy (Py.strip line) then
        scan_lines patterns rest in_section (section_content ++ [line])
      else
        scan_lines patterns rest in_section section_content
  end.

Definition _extract_section_by_patterns (content : string)
  (patterns : list string) : string :=
  let content_lines := Py.split Py.newline content in
  Py.strip (Py.join Py.nl (scan_lines patterns content_lines false [])).

Definition skills_patterns : list string :=
  ["skills"; "technical skills"; "competencies"; "technologies"].
Definition exp_patterns : list string :=
  ["experience"; "work experience"; "employment";
   "professional experience"].
Definition edu_patterns : list string :=
  ["education"; "academic"; "qualifications"; "degrees"].

Definition extract_key_sections (content : string) : Py.dict string :=
  let sections :=
    [("skills", EmptyString); ("experience", EmptyString);
     ("education", EmptyString); ("summary", EmptyString);
     ("full_content", content)] in
  let sections :=
    Py.set sections "skills"
      (_extract_section_by_patterns content skills_patterns) in
  let sections :=
    Py.set sections "experience"
      (_extract_section_by_patterns content exp_patterns) in
  let sections :=
    Py.set sections "education"
      (_extract_section_by_patterns content edu_patterns) in
  sections.

(** ** External collaborators

    [load_pdf]: the pages of a file after extraction and cleaning, or
    an exception. [generate_single_embedding]: the vector of a text, or
    an exception. [sklearn_cosine_similarity]: the cosine routine of the
    numeric library, or an exception. [uuid4 k]: the identifier drawn
    by the [k]-th task. [as_completed]: the order in which the worker
    pool hands back its tasks, some rearrangement of the order of
    submission. *)

Class Collaborators : Type := {
  load_pdf : string -> option (list string);
  generate_single_embedding : string -> option (list R);
  sklearn_cosine_similarity : list R -> list R -> option R;
  uuid4 : nat -> string;
  as_completed : forall A : Type, list A -> list A
}.

Class CollaboratorLaws (C : Collaborators) : Prop := {
  as_completed_perm : forall A (l : list A), Permutation (as_completed A l) l
}.

(** The nearest-neighbour index: its state, the three calls the code
    makes, and the entries a state holds. *)

Record QueryHit : Type := mkQueryHit {
  hit_document : string;
  hit_distance : R;
  hit_metadata : Py.dict string
}.

Record IndexEntry : Type := mkIndexEntry {
  entry_id : string;
  entry_document : string;
  entry_embedding : list R;
  entry_metadata : Py.dict string
}.

Class VectorIndex : Type := {
  index_state : Type;
  index_clear : index_state -> option index_state;
  index_add : list string -> list (list R) -> list (Py.dict string) ->
              list string -> index_state -> option index_state;
  index_query : list R -> nat -> index_state -> option (list QueryHit);
  index_entries : index_state -> list IndexEntry
}.

(** What the code relies on: a cleared index is empty, an accepted
    insertion received lists of one length and adds exactly those
    entries, and a query answers with stored entries only. *)
Class VectorIndexLaws (V : VectorIndex) : Prop := {
  index_clear_spec : forall s s',
    index_clear s = Some s' -> index_entries s' = [];
  index_add_spec : forall docs embs metas ids s s',
    index_add docs embs metas ids s = Some s' ->
    List.length docs = List.length ids /\
    List.length embs = List.length ids /\
    List.length metas = List.length ids /\
    index_entries s' =
      index_entries s ++
      map (fun x => let '(i, (d, (e, m))) := x in mkIndexEntry i d e m)
          (combine ids (combine docs (combine embs metas)));
  index_query_spec : forall q k s hits,
    index_query q k s = Some hits ->
    forall h, In h hits ->
    exists e, In e (index_entries s) /\
              entry_document e = hit_document h /\
              entry_metadata e = hit_metadata h;
  index_query_bound : forall q k s hits,
    index_query q k s = Some hits -> (List.length hits <= k)%nat
}.

(** An index without outage: it can always be cleared, it accepts lists
    of one length, and a query for [k > 0] neighbours answers with the
    [k] nearest entries (all of them when fewer are stored), at
    non-negative distances. *)
Class ReliableIndex (V : VectorIndex) : Prop := {
  index_clear_total : forall s, index_clear s <> None;
  index_add_total : forall docs embs metas ids s,
    List.length docs = List.length ids ->
    List.length embs = List.length ids ->
    List.length metas = List.length ids ->
    index_add docs embs metas ids s <> None;
  index_query_total : forall q k s,
    (0 < k)%nat ->
    exists hits,
      index_query q k s = Some hits /\
      List.length hits = Nat.min k (List.length (index_entries s)) /\
      Forall (fun h => 0 <= hit_distance h) hits
}.

(** An embedding model without outage: every text gets a non-empty
    vector. *)
Class ReliableEmbedding (C : Collaborators) : Prop := {
  embedding_total : forall text,
    exists e, generate_single_embedding text = Some e /\ e <> []
}.

(** ** [src/core/similarity_calculator.py]: the weighted score *)

Section Calculator.
Context {C : Collaborators}.

(** The numeric routine runs inside [try]; any error gives [0.0]. *)
Definition cosine_similarity_score (embedding1 embedding2 : list R) : R :=
  match sklearn_cosine_similarity embedding1 embedding2 with
  | Some similarity => similarity
  | None => 0.0
  end.

Definition default_section_weights : Py.dict R :=
  [("skills", 0.35); ("experience", 0.30); ("education", 0.25);
   ("summary", 0.10)].

(** One round of the loop over [resume_sections.items()]; the state is
    [(total_score, section_scores)]. *)
Definition weighted_step (job_embedding : list R) (section_weights : Py.dict R)
  (acc : R * Py.dict R) (item : string * list R) : R * Py.dict R :=
  let '(total_score, section_scores) := acc in
  let '(section, embedding) := item in
  match Py.get section_weights section with
  | Some weight =>
      if Py.nonempty embedding then
        let raw_similarity := cosine_similarity_score job_embedding embedding in
        let enhanced_similarity := enhance_similarity_score raw_similarity in
        let weighted_score := enhanced_similarity * weight in
        (total_score + weighted_score,
         Py.set section_scores section enhanced_similarity)
      else acc
  | None => acc
  end.

Definition weighted_similarity_score (job_embedding : list R)
  (resume_sections : Py.dict (list R)) (section_weights : option (Py.dict R))
  : R * Py.dict R :=
  let section_weights :=
    match section_weights with
    | None => default_section_weights
    | Some w => w
    end in
  let '(total_score, section_scores) :=
    fold_left (weighted_step job_embedding section_weights)
              resume_sections (0.0, []) in
  match apply_final_score_boost total_score with
  | Some final_score => (final_score, section_scores)
  | None => (0.0, [])
  end.

End Calculator.

(** ** [src/services/resume_analyzer.py] *)

Section Analyzer.
Context {C : Collaborators}.

Definition _process_resume_file (file_path : string) : option ResumeDocument :=
  match load_pdf file_path with
  | None => None
  | Some documents =>
      let full_content := Py.join Py.nl documents in
      let sections := extract_key_sections full_content in
      Some (mkResumeDocument (uuid4 0) file_path full_content sections
              [("source", file_path); ("type", "resume")] None)
  end.

(** Only the sections with text are embedded; a failing embedding call
    aborts the loop. *)
Fixpoint embed_sections (items : Py.dict string) (section_embeddings : Py.dict (list R))
  : option (Py.dict (list R)) :=
  match items with
  | [] => Some section_embeddings
  | (section_name, section_content) :: rest =>
      if Py.truthy (Py.strip section_content) then
        match generate_single_embedding section_content with
        | None => None
        | Some e => embed_sections rest (Py.set section_embeddings section_name e)
        end
      else embed_sections rest section_embeddings
  end.

Definition _generate_section_embeddings (resume_doc : ResumeDocument)
  : option (Py.dict (list R)) :=
  embed_sections (sections resume_doc) [].

Definition _calculate_confidence (section_scores : Py.dict R)
  (resume_doc : ResumeDocument) : R :=
  let available_sections :=
    Py.count (has_section resume_doc)
             ["skills"; "experience"; "education"] in
  let section_coverage := INR available_sections / 3.0 in
  let consistency_factor :=
    if (1 <? List.length section_scores)%nat then
      let scores := Py.values section_scores in
      let score_variance :=
        if (1 <? List.length scores)%nat then Py.np_var scores else 0 in
      Rmax 0 (1 - score_variance)
    else 0.5 in
  let confidence := section_coverage * 0.6 + consistency_factor * 0.4 in
  Rmin 1.0 (Rmax 0.1 confidence).

Definition _generate_reasoning (section_scores : Py.dict R) (overall_score : R)
  : string :=
  let reasoning_parts :=
    [ if Rge_dec overall_score 0.8 then
        "Excellent match with strong alignment across multiple areas."
      else if Rge_dec overall_score 0.6 then
        "Good match with solid qualifications."
      else if Rge_dec overall_score 0.4 then
        "Moderate match with some relevant qualifications."
      else "Limited match with few relevant qualifications." ] in
  let reasoning_parts :=
    match Py.get section_scores "skills" with
    | Some skills_score =>
        reasoning_parts ++
        [ if Rge_dec skills_score 0.7 then "Strong technical skill alignment."
          else if Rge_dec skills_score 0.4 then "Moderate technical skill match."
          else "Limited technical skill overlap." ]
    | None => reasoning_parts
    end in
  let reasoning_parts :=
    match Py.get section_scores "experience" with
    | Some exp_score =>
        reasoning_parts ++
        [ if Rge_dec exp_score 0.7 then "Relevant work experience demonstrated."
          else if Rge_dec exp_score 0.4 then "Some relevant work experience."
          else "Limited relevant work experience." ]
    | None => reasoning_parts
    end in
  Py.join " " reasoning_parts.

Definition comprehensive_section_weights : Py.dict R :=
  [("skills", 0.35); ("experience", 0.30); ("full_content", 0.25);
   ("education", 0.10)].

Definition _calculate_comprehensive_similarity (job_desc : JobDescription)
  (resume_doc : ResumeDocument) (resume_embeddings : Py.dict (list R))
  : option SimilarityScore :=
  match generate_single_embedding (job_content job_desc) with
  | None => None
  | Some job_embedding =>
      let '(overall_score, section_scores) :=
        weighted_similarity_score job_embedding resume_embeddings
          (Some comprehensive_section_weights) in
      let confidence := _calculate_confidence section_scores resume_doc in
      let reasoning := _generate_reasoning section_scores overall_score in
      Some (mkSimilarityScore overall_score section_scores confidence reasoning)
  end.

(** The scoring part of [analyze_single_resume]: sections, embeddings,
    score. *)
Definition analyze_single_resume_score (resume_path : string)
  (job_description : JobDescription) : option (ResumeDocument * SimilarityScore) :=
  match _process_resume_file resume_path with
  | None => None
  | Some resume_doc =>
      match _generate_section_embeddings resume_doc with
      | None => None
      | Some resume_section_embeddings =>
          match _calculate_comprehensive_similarity job_description resume_doc
                  resume_section_embeddings with
          | None => None
          | Some similarity_score => Some (resume_doc, similarity_score)
          end
      end
  end.

End Analyzer.

(** ** [src/core/vector_store.py] *)

Section VectorStoreManager.
Context {V : VectorIndex}.

Definition clear_collection (s : index_state) : option index_state :=
  index_clear s.

Definition add_documents (documents : list string) (embeddings : list (list R))
  (metadata : list (Py.dict string)) (ids : list string) (s : index_state)
  : option (list string * index_state) :=
  match index_add documents embeddings metadata ids s with
  | None => None
  | Some s' => Some (ids, s')
  end.

(** [1 / (1 + distance)]; a zero divisor raises. *)
Definition similarity_of_distance (distance : R) : option R :=
  if Req_dec_T (1 + distance) 0 then None else Some (1 / (1 + distance)).

Definition similarity_search (query_embedding : list R) (top_k : nat)
  (s : index_state) : option (list string * list R * list (Py.dict string)) :=
  match index_query query_embedding top_k s with
  | None => None
  | Some results =>
      let documents := map hit_document results in
      let distances := map hit_distance results in
      let metadatas := map hit_metadata results in
      match Py.traverse similarity_of_distance distances with
      | None => None
      | Some similarity_scores => Some (documents, similarity_scores, metadatas)
      end
  end.

End VectorStoreManager.

(** ** [src/services/batch_processor.py] *)

Section BatchProcessor.
Context {C : Collaborators} {V : VectorIndex}.

(** The [k]-th submitted task; any exception inside gives [None]. *)
Definition _process_single_resume (k : nat) (file_path : string)
  : option ResumeDocument :=
  match load_pdf file_path with
  | None => None
  | Some documents =>
      let full_content := Py.join Py.nl documents in
      let sections := extract_key_sections full_content in
      match generate_single_embedding full_content with
      | None => None
      | Some embedding =>
          Some (mkResumeDocument (uuid4 k) file_path full_content sections
                  [("source", file_path); ("type", "resume")]
                  (Some embedding))
      end
  end.

(** Tasks are submitted in the order of the paths and collected in the
    order in which they complete; a task without a document is dropped. *)
Fixpoint submit_all (k : nat) (resume_paths : list string)
  : list (string * option ResumeDocument) :=
  match resume_paths with
  | [] => []
  | path :: rest => (path, _process_single_resume k path) :: submit_all (S k) rest
  end.

Fixpoint collect (futures : list (string * option ResumeDocument))
  : list ResumeDocument :=
  match futures with
  | [] => []
  | (_, Some resume_doc) :: rest => resume_doc :: collect rest
  | (_, None) :: rest => collect rest
  end.

Definition _process_resume_batch (resume_paths : list string) : ResumeCollection :=
  let resumes := collect (as_completed _ (submit_all 0 resume_paths)) in
  mkResumeCollection resumes (List.length resume_paths) (List.length resumes).

Definition section_prefix (resume : ResumeDocument) (name : string) : string :=
  Py.str_prefix 500
    (match Py.get (sections resume) name with
     | Some text => text
     | None => EmptyString
     end).

Definition index_metadata (resume : ResumeDocument) : Py.dict string :=
  [("resume_id", id resume);
   ("file_path", file_path resume);
   ("skills", section_prefix resume "skills");
   ("experience", section_prefix resume "experience");
   ("education", section_prefix resume "education");
   ("summary", section_prefix resume "summary")].

Definition has_embedding (resume : ResumeDocument) : bool :=
  match embedding resume with
  | Some e => Py.nonempty e
  | None => false
  end.

(** The four lists prepared for the index. Only a resume with an
    embedding adds a document, an embedding and a metadata mapping;
    every resume adds its identifier. *)
Definition index_documents (rc : ResumeCollection) : list string :=
  map content (filter has_embedding (resumes rc)).
Definition index_embeddings (rc : ResumeCollection) : list (list R) :=
  map (fun r => match embedding r with Some e => e | None => [] end)
      (filter has_embedding (resumes rc)).
Definition index_metadatas (rc : ResumeCollection) : list (Py.dict string) :=
  map index_metadata (filter has_embedding (resumes rc)).
Definition index_ids (rc : ResumeCollection) : list string :=
  map id (resumes rc).

Definition _index_resumes_in_vector_store (resume_collection : ResumeCollection)
  (s : index_state) : option index_state :=
  match clear_collection s with
  | None => None
  | Some s1 =>
      let documents := index_documents resume_collection in
      if Py.nonempty documents then
        match add_documents documents (index_embeddings resume_collection)
                (index_metadatas resume_collection)
                (index_ids resume_collection) s1 with
        | None => None
        | Some (_, s2) => Some s2
        end
      else Some s1
  end.

Definition _get_exact_filename (file_path : string) : string :=
  let filename := Py.basename file_path in
  let name_without_ext := Py.splitext_root filename in
  name_without_ext.

Definition batch_section_scores (job_embedding : list R)
  : Py.dict string -> Py.dict R -> option (Py.dict R) :=
  fix loop (items : Py.dict string) (section_scores : Py.dict R) :=
    match items with
    | [] => Some section_scores
    | (section_name, section_content) :: rest =>
        if Py.truthy (Py.strip section_content) then
          match generate_single_embedding section_content with
          | None => None
          | Some section_embedding =>
              let raw_similarity :=
                cosine_similarity_score job_embedding section_embedding in
              let enhanced_similarity := _enhance_batch_score raw_similarity in
              loop rest (Py.set section_scores section_name enhanced_similarity)
          end
        else loop rest section_scores
    end.

Definition _generate_positive_reasoning (score : R) (section_scores : Py.dict R)
  : string :=
  if Rge_dec score 0.75 then
    "Excellent candidate with strong qualifications and experience alignment."
  else if Rge_dec score 0.60 then
    "Strong candidate with relevant skills and good potential fit."
  else if Rge_dec score 0.45 then
    "Promising candidate with applicable experience and transferable skills."
  else if Rge_dec score 0.30 then
    "Potential candidate worth considering with some relevant background."
  else "Candidate may have hidden potential - recommend manual review.".

Definition _calculate_detailed_similarity_score (job_desc : JobDescription)
  (resume_doc : ResumeDocument) (base_score : R) : option SimilarityScore :=
  match generate_single_embedding (job_content job_desc) with
  | None => None
  | Some job_embedding =>
      match batch_section_scores job_embedding (sections resume_doc) [] with
      | None => None
      | Some section_scores =>
          let enhanced_base_score := _enhance_batch_score base_score in
          let confidence := Rmin 1.0 (enhanced_base_score + 0.1) in
          let reasoning :=
            _generate_positive_reasoning enhanced_base_score section_scores in
          Some (mkSimilarityScore enhanced_base_score section_scores
                  confidence reasoning)
      end
  end.

Definition _generate_candidate_highlights (resume_doc : ResumeDocument)
  (job_desc : JobDescription) : list string :=
  let content_lower := Py.lower (content resume_doc) in
  let highlights :=
    if Py.contains "year" content_lower
    then ["Demonstrated work experience"] else [] in
  let highlights :=
    if has_section resume_doc "education"
    then highlights ++ ["Relevant educational background"]
    else highlights in
  let highlights :=
    if has_section resume_doc "skills"
    then highlights ++ ["Technical skills listed"] else highlights in
  let highlights :=
    if (2000 <? String.length (content resume_doc))%nat
    then highlights ++ ["Comprehensive resume with detailed experience"]
    else highlights in
  firstn 3 highlights.

(** The loop of [_rank_candidates] over
    [enumerate(zip(documents, similarity_scores, metadatas))], from
    index [i] on. *)
Fixpoint rank_loop (resume_collection : ResumeCollection)
  (job_description : JobDescription) (i : nat)
  (hits : list (string * (R * Py.dict string)))
  (rankings : list CandidateRanking) : option (list CandidateRanking) :=
  match hits with
  | [] => Some rankings
  | (doc, (score, metadata)) :: rest =>
      let resume_id := Py.get metadata "resume_id" in
      match get_resume_by_id resume_collection resume_id with
      | Some resume_doc =>
          let exact_file_name := _get_exact_filename (file_path resume_doc) in
          match _calculate_detailed_similarity_score job_description
                  resume_doc score with
          | None => None
          | Some detailed_score =>
              let highlights :=
                _generate_candidate_highlights resume_doc job_description in
              let ranking :=
                mkCandidateRanking (i + 1) exact_file_name
                  (Some exact_file_name) detailed_score highlights in
              rank_loop resume_collection job_description (S i) rest
                (rankings ++ [ranking])
          end
      | None =>
          rank_loop resume_collection job_description (S i) rest rankings
      end
  end.

(** The body of the [try] block of [_rank_candidates]. *)
Definition rank_candidates_body (resume_collection : ResumeCollection)
  (job_description : JobDescription) (top_n : Z) (s : index_state)
  : option (list CandidateRanking) :=
  match generate_single_embedding (job_content job_description) with
  | None => None
  | Some job_embedding =>
      match similarity_search job_embedding
              (List.length (resumes resume_collection)) s with
      | None => None
      | Some (documents, similarity_scores, metadatas) =>
          match rank_loop resume_collection job_description 0
                  (combine documents (combine similarity_scores metadatas))
                  [] with
          | None => None
          | Some rankings => Some (Py.slice_to rankings top_n)
          end
      end
  end.

Definition _rank_candidates (resume_collection : ResumeCollection)
  (job_description : JobDescription) (top_n : Z) (s : index_state)
  : list CandidateRanking :=
  match rank_candidates_body resume_collection job_description top_n s with
  | Some rankings => rankings
  | None => []
  end.

Definition _generate_batch_summary (rankings : list CandidateRanking)
  (total_candidates : nat) : BatchSummary :=
  match rankings with
  | [] => SummaryError "No rankings generated"
  | first :: others =>
      let scores :=
        map (fun ranking => overall_score (similarity_score ranking)) rankings in
      let score_of r := overall_score (similarity_score r) in
      SummaryStats
        (List.length rankings)
        total_candidates
        (Py.np_mean scores)
        (Py.np_median scores)
        (Py.maximum (score_of first) (map score_of others))
        (Py.minimum (score_of first) (map score_of others))
        [("excellent (>0.8)",
          Py.count (fun s => if Rgt_dec s 0.8 then true else false) scores);
         ("good (0.6-0.8)",
          Py.count (fun s => if Rle_dec 0.65 s
                             then if Rle_dec s 0.8 then true else false
                             else false) scores);
         ("fair (0.4-0.6)",
          Py.count (fun s => if Rle_dec 0.5 s
                             then if Rlt_dec s 0.65 then true else false
                             else false) scores);
         ("poor (<0.4)",
          Py.count (fun s => if Rlt_dec s 0.5 then true else false) scores)
        ]
  end.

Definition process_batch_resumes (resume_paths : list string)
  (job_description : JobDescription) (top_n : Z) (s : index_state)
  : option (BatchAnalysisResult * index_state) :=
  let resume_collection := _process_resume_batch resume_paths in
  match _index_resumes_in_vector_store resume_collection s with
  | None => None
  | Some s' =>
      let rankings := _rank_candidates resume_collection job_description top_n s' in
      let analysis_summary :=
        _generate_batch_summary rankings (List.length resume_paths) in
      Some (mkBatchAnalysisResult (job_id job_description)
              (List.length resume_paths) top_n rankings analysis_summary,
            s')
  end.

End BatchProcessor.

(** ** The formulas of the specification, in its own words *)

(** BOOST: [sqrt(total) * 0.85 + total * 0.15], times 1.2 above 0.25,
    clamped at 1. *)
Definition boost_formula (total : R) : R :=
  let boosted := sqrt total * 0.85 + total * 0.15 in
  let boosted := if Rgt_dec boosted 0.25 then boosted * 1.2 else boosted in
  Rmin 1 boosted.

(** The fraction of skills, experience and education that hold text. *)
Definition section_coverage (resume_doc : ResumeDocument) : R :=
  INR (Py.count (has_section resume_doc) ["skills"; "experience"; "education"])
  / 3.

(** Confidence as the specification words it: coverage and variance only. *)
Definition confidence_formula (section_scores : Py.dict R)
  (resume_doc : ResumeDocument) : R :=
  let raw :=
    0.6 * section_coverage resume_doc
    + 0.4 * Rmax 0 (1 - Py.np_var (Py.values section_scores)) in
  Rmin 1 (Rmax 0.1 raw).

(** Confidence with the consistency term the code uses when fewer than
    two section scores exist. *)
Definition confidence_formula_guarded (section_scores : Py.dict R)
  (resume_doc : ResumeDocument) : R :=
  let consistency :=
    if (2 <=? List.length section_scores)%nat
    then Rmax 0 (1 - Py.np_var (Py.values section_scores))
    else 0.5 in
  let raw := 0.6 * section_coverage resume_doc + 0.4 * consistency in
  Rmin 1 (Rmax 0.1 raw).

(** A score record holding just an overall score. *)
Definition score_with_overall (overall : R) : SimilarityScore :=
  mkSimilarityScore overall [] 0.1 EmptyString.

(** A resume without any section heading: one line of text. *)
Definition plain_resume : ResumeDocument :=
  mkResumeDocument "r0" "plain.pdf" "Ten years of plumbing"
    (extract_key_sections "Ten years of plumbing") [] None.

(** A heading that names two sections, followed by one line of text. *)
Definition two_heading_resume : string :=
  String.append "Skills and Experience" (String.append Py.nl "Python").

(** The normal form in which a line is compared with the patterns. *)
Definition line_key (line : string) : string := Py.strip (Py.lower line).

(** ** A small environment on which the code can be run

    Every file whose name does not start with [missing] is readable and
    its text is its name; every text has the same embedding; results are
    collected in reverse order of submission. The index is a list; a
    query answers with the first [k] entries at distances 0, 1, 2, ... and
    refuses [k = 0]. *)

Definition example_collaborators : Collaborators := {|
  load_pdf := fun path =>
    if Py.startswith "missing" path then None else Some [path];
  generate_single_embedding := fun _ => Some [1; 0];
  sklearn_cosine_similarity := fun _ _ => Some 0.5;
  uuid4 := fun k => String (ascii_of_nat (48 + k)) EmptyString;
  as_completed := fun A l => rev l
|}.

Definition entry_of (x : string * (string * (list R * Py.dict string)))
  : IndexEntry :=
  let '(i, (d, (e, m))) := x in mkIndexEntry i d e m.

Definition hit_of (x : nat * IndexEntry) : QueryHit :=
  mkQueryHit (entry_document (snd x)) (INR (fst x)) (entry_metadata (snd x)).

Definition example_index : VectorIndex := {|
  index_state := list IndexEntry;
  index_clear := fun _ => Some [];
  index_add := fun docs embs metas ids s =>
    if ((List.length docs =? List.length ids)
        && (List.length embs =? List.length ids)
        && (List.length metas =? List.length ids))%nat
    then Some (s ++ map entry_of (combine ids (combine docs (combine embs metas))))
    else None;
  index_query := fun _ k s =>
    if (k =? 0)%nat then None
    else Some (firstn k (map hit_of (combine (seq 0 (List.length s)) s)));
  index_entries := fun s => s
|}.

Definition example_job : JobDescription :=
  mkJobDescription "job-1" "Plumber" "Plumber with ten years of experience"
    [] [].

Definition ten_paths : list string :=
  ["a.pdf"; "b.pdf"; "c.pdf"; "d.pdf"; "e.pdf";
   "f.pdf"; "g.pdf"; "h.pdf"; "i.pdf"; "j.pdf"].

Definition missing_paths : list string :=
  ["missing-1.pdf"; "missing-2.pdf"].

(** The ranking built from one answer of the index: the resume the
    answer names, and the overall score from the distance of the
    answer. *)
Definition ranking_of_hit (rc : ResumeCollection) (hit : QueryHit)
  (r : CandidateRanking) : Prop :=
  exists resume_doc similarity,
    get_resume_by_id rc (Py.get (hit_metadata hit) "resume_id")
      = Some resume_doc /\
    similarity_of_distance (hit_distance hit) = Some similarity /\
    resume_id r = _get_exact_filename (file_path resume_doc) /\
    overall_score (similarity_score r) = _enhance_batch_score similarity.

(** How one ranking relates to the triple (document, similarity,
    metadata) it was built from, and when a triple names a resume of
    the collection. *)
Definition built_from (rc : ResumeCollection)
  (h : string * (R * Py.dict string)) (r : CandidateRanking) : Prop :=
  exists resume_doc,
    get_resume_by_id rc (Py.get (snd (snd h)) "resume_id") = Some resume_doc /\
    resume_id r = _get_exact_filename (file_path resume_doc) /\
    overall_score (similarity_score r) = _enhance_batch_score (fst (snd h)).

Definition resolves (rc : ResumeCollection)
  (h : string * (R * Py.dict string)) : Prop :=
  get_resume_by_id rc (Py.get (snd (snd h)) "resume_id") <> None.

(** The same collaborators with another cosine routine, and a ranking
    without the section scores that the detailed pass computes with it. *)
Definition with_cosine (C : Collaborators)
  (cosine : list R -> list R -> option R) : Collaborators := {|
  load_pdf := @load_pdf C;
  generate_single_embedding := @generate_single_embedding C;
  sklearn_cosine_similarity := cosine;
  uuid4 := @uuid4 C;
  as_completed := @as_completed C
|}.

Definition without_section_scores (r : CandidateRanking) : CandidateRanking :=
  mkCandidateRanking (rank r) (resume_id r) (candidate_name r)
    (mkSimilarityScore (overall_score (similarity_score r)) []
       (confidence (similarity_score r)) (reasoning (similarity_score r)))
    (key_highlights r).

(** The tasks that produced a document. *)
Definition succeeded (futures : list (string * option ResumeDocument))
  : list (string * option ResumeDocument) :=
  filter (fun f => match snd f with Some _ => true | None => false end) futures.

(** ** Further functions of the source files

    The functions below complete the files cited above. *)

(** *** [src/core/similarity_calculator.py] *)

Definition normalize_scores (scores : list R) : list R :=
  if negb (Py.nonempty scores) || (List.length scores =? 1)%nat then scores
  else
    match scores with
    | [] => scores
    | first :: others =>
        let min_score := Py.minimum first others in
        let max_score := Py.maximum first others in
        if Req_dec_T max_score min_score then
          repeat 1.0 (List.length scores)
        else
          map (fun score => (score - min_score) / (max_score - min_score))
              scores
    end.

Definition calculate_percentile_rank (score : R) (all_scores : list R) : R :=
  if negb (Py.nonempty all_scores) then 0.0
  else
    let rank :=
      Py.count (fun s => if Rle_dec s score then true else false) all_scores in
    INR rank / INR (List.length all_scores) * 100.

(** *** [src/core/document_processor.py] *)

Definition _clean_text (text : string) : string :=
  let text := Py.join " " (Py.split_ws text) in
  let text := Py.remove_char "000"%char text in
  Py.strip text.

(** *** [src/models] *)

Definition get_section_content (self : ResumeDocument) (section : string)
  : string :=
  match Py.get (sections self) section with
  | Some text => text
  | None => EmptyString
  end.

Definition add_resume (self : ResumeCollection) (resume : ResumeDocument)
  : ResumeCollection :=
  mkResumeCollection (resumes self ++ [resume]) (batch_size self)
    (processed_count self).

Definition get_resume_count (self : ResumeCollection) : nat :=
  List.length (resumes self).

Definition job_get_section_content (self : JobDescription) (section : string)
  : string :=
  match Py.get (job_sections self) section with
  | Some text => text
  | None => EmptyString
  end.

Definition extract_requirements (self : JobDescription) : list string :=
  let req_section := job_get_section_content self "requirements" in
  if Py.truthy req_section then
    let requirements :=
      map Py.strip
          (filter (fun req => Py.truthy (Py.strip req))
                  (Py.split Py.newline req_section)) in
    filter (fun req => (10 <? String.length req)%nat) requirements
  else job_requirements self.

Definition get_top_candidates (self : BatchAnalysisResult) (n : Z)
  : list CandidateRanking :=
  Py.slice_to (rankings self)
    (Z.min n (Z.of_nat (List.length (rankings self)))).

Record SingleAnalysisResult : Type := mkSingleAnalysisResult {
  single_resume_id : string;
  single_job_description_id : string;
  single_similarity_score : SimilarityScore;
  key_matches : list string;
  missing_skills : list string;
  recommendations : list string
}.

(** *** [src/services/resume_analyzer.py] *)

Definition common_terms : list string :=
  ["python"; "java"; "javascript"; "machine learning"; "data science";
   "sql"; "aws"; "docker"; "kubernetes"; "react"; "angular"; "node.js";
   "project management"; "agile"; "scrum"; "leadership"; "communication"].

Definition _identify_key_matches (resume_doc : ResumeDocument)
  (job_desc : JobDescription) : list string :=
  let job_content_lower := Py.lower (job_content job_desc) in
  let resume_content_lower := Py.lower (content resume_doc) in
  let matches :=
    map (fun term => String.append "Relevant experience with " term)
        (filter (fun term => Py.contains term job_content_lower
                             && Py.contains term resume_content_lower)
                common_terms) in
  firstn 5 matches.

Definition potential_skills : list string :=
  ["python"; "java"; "javascript"; "react"; "angular"; "vue.js";
   "machine learning"; "deep learning"; "tensorflow"; "pytorch";
   "aws"; "azure"; "gcp"; "docker"; "kubernetes"; "jenkins";
   "sql"; "mongodb"; "postgresql"; "redis"; "elasticsearch"].

Definition _identify_missing_skills (resume_doc : ResumeDocument)
  (job_desc : JobDescription) : list string :=
  let job_content_lower := Py.lower (job_content job_desc) in
  let resume_content_lower := Py.lower (content resume_doc) in
  let missing :=
    map Py.title
        (filter (fun skill => Py.contains skill job_content_lower
                              && negb (Py.contains skill resume_content_lower))
                potential_skills) in
  firstn 5 missing.

(** [d[k] < x] guarded by [k in d]. *)
Definition section_below (section_scores : Py.dict R) (section : string)
  (x : R) : bool :=
  match Py.get section_scores section with
  | Some v => if Rlt_dec v x then true else false
  | None => false
  end.

Definition _generate_recommendations (similarity_score : SimilarityScore)
  (missing_skills : list string) : list string :=
  let overall_score := overall_score similarity_score in
  let recommendations :=
    if Rlt_dec overall_score 0.6 then
      ["Consider gaining more relevant experience in the required domain."]
    else [] in
  let recommendations :=
    if Py.nonempty missing_skills then
      recommendations ++
      [String.append "Consider developing skills in: "
         (Py.join ", " (firstn 3 missing_skills))]
    else recommendations in
  let recommendations :=
    if section_below (section_scores similarity_score) "skills" 0.5 then
      recommendations ++
      ["Enhance the technical skills section with more relevant technologies."]
    else recommendations in
  let recommendations :=
    if section_below (section_scores similarity_score) "experience" 0.5 then
      recommendations ++
      ["Highlight more relevant work experience and achievements."]
    else recommendations in
  let recommendations :=
    if Rge_dec overall_score 0.8 then
      recommendations ++
      ["Excellent candidate profile. Consider for immediate interview."]
    else if Rge_dec overall_score 0.6 then
      recommendations ++
      ["Good candidate profile. Suitable for further consideration."]
    else recommendations in
  firstn 3 recommendations.

Section AnalyzerRun.
Context {C : Collaborators}.

Definition analyze_single_resume (resume_path : string)
  (job_description : JobDescription) : option SingleAnalysisResult :=
  match analyze_single_resume_score resume_path job_description with
  | None => None
  | Some (resume_doc, similarity_score) =>
      let key_matches := _identify_key_matches resume_doc job_description in
      let missing_skills := _identify_missing_skills resume_doc job_description in
      let recommendations :=
        _generate_recommendations similarity_score missing_skills in
      Some (mkSingleAnalysisResult (id resume_doc) (job_id job_description)
              similarity_score key_matches missing_skills recommendations)
  end.

End AnalyzerRun.

(** *** [src/services/batch_processor.py] *)

Definition name_like (line : string) : bool :=
  Py.truthy line
  && (List.length (Py.split_ws line) <=? 4)%nat
  && negb (Py.any_char Py.isdigit line)
  && ((2 <=? List.length (Py.split_ws line))%nat
      && (List.length (Py.split_ws line) <=? 3)%nat).

Definition _extract_candidate_name (content : string) : option string :=
  let lines := firstn 5 (Py.split Py.newline content) in
  find name_like (map Py.strip lines).

(** *** Notions used in the statements *)

(** [sub] keeps some elements of [l], in their order. *)
Inductive subsequence {A : Type} : list A -> list A -> Prop :=
| subsequence_nil : subsequence [] []
| subsequence_skip : forall x sub l, subsequence sub l -> subsequence sub (x :: l)
| subsequence_keep : forall x sub l,
    subsequence sub l -> subsequence (x :: sub) (x :: l).

(** No white space at either end. *)
Definition stripped (s : string) : Prop :=
  Py.lstrip s = s /\ Py.rstrip s = s.

(** The scores of a summary fall into its four buckets. *)
Definition bucket_total (distribution : Py.dict nat) : nat :=
  fold_right Nat.add 0%nat (Py.values distribution).

(** The weighted total before the final boost. *)
Definition weighted_total {C : Collaborators} (job_embedding : list R)
  (resume_sections : Py.dict (list R)) (section_weights : Py.dict R) : R :=
  fst (fold_left (weighted_step job_embedding section_weights)
                 resume_sections (0.0, [])).

(** A character that cleaned text must not hold: NUL, or white space
    other than the plain space. *)
Definition unclean_char (c : ascii) : bool :=
  Ascii.eqb c "000"%char || (Py.isspace c && negb (Ascii.eqb c " "%char)).

Definition is_slash (c : ascii) : bool := Ascii.eqb c "/"%char.
Definition is_dot (c : ascii) : bool := Ascii.eqb c "."%char.

(** The example collaborators with an embedding model that refuses the
    text of the example job, and a collection of one resume. *)
Definition refusing_collaborators : Collaborators := {|
  load_pdf := @load_pdf example_collaborators;
  generate_single_embedding := fun text =>
    if String.eqb text (job_content example_job) then None else Some [1; 0];
  sklearn_cosine_similarity := @sklearn_cosine_similarity example_collaborators;
  uuid4 := @uuid4 example_collaborators;
  as_completed := @as_completed example_collaborators
|}.

Definition embedded_resume : ResumeDocument :=
  mkResumeDocument "r1" "cv/jane.pdf" "Ten years of plumbing"
    (extract_key_sections "Ten years of plumbing") [] (Some [1; 0]).

Definition stale_index : list IndexEntry :=
  [mkIndexEntry "old" "old text" [1] []; mkIndexEntry "older" "t" [1] []].

(** The shape of a ranking of a batch over the collection [rc]. *)
Definition wellformed_ranking (rc : ResumeCollection) (r : CandidateRanking)
  : Prop :=
  candidate_name r = Some (resume_id r) /\
  (List.length (key_highlights r) <= 3)%nat /\
  0 < overall_score (similarity_score r) <= 1 /\
  overall_score (similarity_score r) <= confidence (similarity_score r) /\
  confidence (similarity_score r) <= 1 /\
  exists resume_doc,
    In resume_doc (resumes rc) /\
    resume_id r = _get_exact_filename (file_path resume_doc).

(** * Properties of the scoring transforms *)

Ltac break_if :=
  match goal with
  | |- context [if ?c then _ else _] => destruct c
  | H : context [if ?c then _ else _] |- _ => destruct c
  end.

Ltac case_abs :=
  unfold Rabs in *;
  repeat match goal with
         | |- context [Rcase_abs ?x] => destruct (Rcase_abs x)
         | H : context [Rcase_abs ?x] |- _ => destruct (Rcase_abs x)
         end.

(** A function that is Lipschitz around a point is continuous there. *)
Lemma lipschitz_continuity_pt (f : R -> R) (x0 K d : R) :
  0 < K -> 0 < d ->
  (forall x, Rabs (x - x0) < d -> Rabs (f x - f x0) <= K * Rabs (x - x0)) ->
  continuity_pt f x0.
Proof.
  intros HK Hd Hlip eps Heps.
  exists (Rmin d (eps / K)). split.
  - apply Rmin_pos; [lra | apply Rdiv_lt_0_compat; lra].
  - intros x [_ Hx]. simpl in *. unfold R_dist in *.
    assert (Hd' : Rabs (x - x0) < d)
      by (eapply Rlt_le_trans; [exact Hx | apply Rmin_l]).
    assert (He : Rabs (x - x0) < eps / K)
      by (eapply Rlt_le_trans; [exact Hx | apply Rmin_r]).
    specialize (Hlip x Hd').
    apply Rle_lt_trans with (K * Rabs (x - x0)); [exact Hlip |].
    apply Rmult_lt_compat_l with (r := K) in He; [| lra].
    replace (K * (eps / K)) with eps in He by (field; lra).
    exact He.
Qed.

(** A function that stays a fixed gap away from its value at a point,
    arbitrarily close to the point, is not continuous there. *)
Lemma jump_not_continuity_pt (f : R -> R) (x0 gap : R) :
  0 < gap ->
  (forall d, 0 < d ->
     exists x, x <> x0 /\ Rabs (x - x0) < d /\ gap <= Rabs (f x - f x0)) ->
  ~ continuity_pt f x0.
Proof.
  intros Hgap Hjump Hcont.
  destruct (Hcont gap Hgap) as [alp [Halp Hlim]].
  destruct (Hjump alp Halp) as [x [Hne [Hclose Hfar]]].
  specialize (Hlim x). simpl in Hlim. unfold R_dist in Hlim.
  assert (Rabs (f x - f x0) < gap).
  { apply Hlim. split; [| exact Hclose].
    split; [exact I | congruence]. }
  lra.
Qed.

(** A point just left of [x0], closer than [d] and than [w]. *)
Lemma left_neighbour (x0 d w : R) :
  0 < d -> 0 < w ->
  exists x, x <> x0 /\ Rabs (x - x0) < d /\ x0 - w <= x /\ x < x0.
Proof.
  intros Hd Hw. exists (x0 - Rmin (d / 2) w).
  assert (Hm : 0 < Rmin (d / 2) w) by (apply Rmin_pos; lra).
  pose proof (Rmin_l (d / 2) w). pose proof (Rmin_r (d / 2) w).
  repeat split; try lra.
  case_abs; lra.
Qed.

Lemma enhance_continuous_at_015 : continuity_pt enhance_similarity_score 0.15.
Proof.
  apply lipschitz_continuity_pt with (K := 2) (d := 0.1); try lra.
  intros x Hx. unfold enhance_similarity_score.
  repeat break_if; case_abs; lra.
Qed.

Lemma enhance_continuous_at_06 : continuity_pt enhance_similarity_score 0.6.
Proof.
  apply lipschitz_continuity_pt with (K := 2) (d := 0.1); try lra.
  intros x Hx. unfold enhance_similarity_score.
  repeat break_if; case_abs; lra.
Qed.

Lemma enhance_jump_at_03 : ~ continuity_pt enhance_similarity_score 0.3.
Proof.
  apply jump_not_continuity_pt with (gap := 0.1); [lra |].
  intros d Hd.
  destruct (left_neighbour 0.3 d 0.01 Hd ltac:(lra)) as [x [Hne [Hc [Hlo Hhi]]]].
  exists x. repeat split; trivial.
  unfold enhance_similarity_score. repeat break_if; case_abs; lra.
Qed.

Lemma batch_jump_at_02 : ~ continuity_pt _enhance_batch_score 0.2.
Proof.
  apply jump_not_continuity_pt with (gap := 0.04); [lra |].
  intros d Hd.
  destruct (left_neighbour 0.2 d 0.001 Hd ltac:(lra)) as [x [Hne [Hc [Hlo Hhi]]]].
  exists x. repeat split; trivial.
  unfold _enhance_batch_score. repeat break_if; case_abs; lra.
Qed.

Lemma batch_jump_at_04 : ~ continuity_pt _enhance_batch_score 0.4.
Proof.
  apply jump_not_continuity_pt with (gap := 0.05); [lra |].
  intros d Hd.
  destruct (left_neighbour 0.4 d 0.01 Hd ltac:(lra)) as [x [Hne [Hc [Hlo Hhi]]]].
  exists x. repeat split; trivial.
  unfold _enhance_batch_score. repeat break_if; case_abs; lra.
Qed.

Lemma batch_jump_at_06 : ~ continuity_pt _enhance_batch_score 0.6.
Proof.
  apply jump_not_continuity_pt with (gap := 0.03); [lra |].
  intros d Hd.
  destruct (left_neighbour 0.6 d 0.01 Hd ltac:(lra)) as [x [Hne [Hc [Hlo Hhi]]]].
  exists x. repeat split; trivial.
  unfold _enhance_batch_score. repeat break_if; case_abs; lra.
Qed.

(** C1, as stated, fails: inside [0,1] the single-mode transform falls
    from 0.58 at 0.29 to 0.45 at 0.3, the batch transform falls from 0.73
    at 0.39 to 0.65 at 0.4 and from 0.8875 at 0.59 to 0.85 at 0.6, and
    neither is continuous at these breakpoints; the batch transform also
    jumps at 0.2. *)
Lemma enhance_transforms_counterexample :
  (0 <= 0.29 /\ 0.29 <= 0.3 /\ 0.3 <= 1 /\
   enhance_similarity_score 0.29 = 0.58 /\
   enhance_similarity_score 0.3 = 0.45) /\
  (0 <= 0.39 /\ 0.39 <= 0.4 /\ 0.4 <= 1 /\
   _enhance_batch_score 0.39 = 0.73 /\
   _enhance_batch_score 0.4 = 0.65) /\
  (_enhance_batch_score 0.59 = 0.8875 /\ _enhance_batch_score 0.6 = 0.85) /\
  ~ continuity_pt enhance_similarity_score 0.3 /\
  ~ continuity_pt _enhance_batch_score 0.2 /\
  ~ continuity_pt _enhance_batch_score 0.4 /\
  ~ continuity_pt _enhance_batch_score 0.6.
Proof.
  repeat split;
    try (unfold enhance_similarity_score, _enhance_batch_score;
         repeat break_if; lra).
  - exact enhance_jump_at_03.
  - exact batch_jump_at_02.
  - exact batch_jump_at_04.
  - exact batch_jump_at_06.
Qed.

(** C1, amended: both transforms map 0 to 0; the single-mode transform is
    continuous at 0.15 and at 0.6 and non-decreasing below 0.3 and from
    0.3 on; the batch transform is non-decreasing below 0.4, between 0.4
    and 0.6, and from 0.6 on. *)
Theorem enhance_transforms_piecewise_monotone :
  enhance_similarity_score 0 = 0 /\
  _enhance_batch_score 0 = 0 /\
  continuity_pt enhance_similarity_score 0.15 /\
  continuity_pt enhance_similarity_score 0.6 /\
  (forall x y, x <= y -> y < 0.3 \/ 0.3 <= x ->
     enhance_similarity_score x <= enhance_similarity_score y) /\
  (forall x y, x <= y -> y < 0.4 \/ (0.4 <= x /\ y < 0.6) \/ 0.6 <= x ->
     _enhance_batch_score x <= _enhance_batch_score y).
Proof.
  split; [| split; [| split; [| split; [| split]]]].
  - unfold enhance_similarity_score. repeat break_if; lra.
  - unfold _enhance_batch_score. repeat break_if; lra.
  - exact enhance_continuous_at_015.
  - exact enhance_continuous_at_06.
  - intros x y Hxy Hside. unfold enhance_similarity_score.
    repeat break_if; lra.
  - intros x y Hxy Hside. unfold _enhance_batch_score.
    repeat break_if; lra.
Qed.

(** C4: the final boost maps 0 to 0, is non-decreasing on [0,1], stays
    within [0,1] there, and computes [sqrt(score) * 0.85 + score * 0.15],
    times 1.2 above 0.25, clamped at 1. *)
Theorem boost_monotone_bounded (x y : R) :
  0 <= x -> x <= y -> y <= 1 ->
  apply_final_score_boost 0 = Some 0 /\
  exists bx b_y,
    apply_final_score_boost x = Some bx /\
    apply_final_score_boost y = Some b_y /\
    bx = boost_formula x /\ b_y = boost_formula y /\
    0 <= bx /\ bx <= b_y /\ b_y <= 1.
Proof.
  intros Hx Hxy Hy.
  pose proof (sqrt_pos x) as Hsx.
  pose proof (sqrt_le_1_alt x y Hxy) as Hsxy.
  split.
  - unfold apply_final_score_boost, math_sqrt.
    destruct (Rlt_dec 0 0); [lra |].
    rewrite sqrt_0. f_equal.
    break_if; unfold Rmin; break_if; lra.
  - unfold apply_final_score_boost, math_sqrt, boost_formula.
    destruct (Rlt_dec x 0); [lra |]. destruct (Rlt_dec y 0); [lra |].
    eexists; eexists.
    split; [reflexivity |]. split; [reflexivity |].
    split; [f_equal; lra |]. split; [f_equal; lra |].
    cbv zeta. generalize dependent (sqrt x). generalize dependent (sqrt y).
    intros sy sx Hsx Hsxy.
    unfold Rmin. repeat break_if; lra.
Qed.

Lemma boost_monotone_bounded_witness :
  apply_final_score_boost 0 = Some 0 /\
  exists bx b_y,
    apply_final_score_boost 0.25 = Some bx /\
    apply_final_score_boost 1 = Some b_y /\
    bx = boost_formula 0.25 /\ b_y = boost_formula 1 /\
    0 <= bx /\ bx <= b_y /\ b_y <= 1.
Proof. apply (boost_monotone_bounded 0.25 1); lra. Defined.

(** * Percentage and grade *)

Lemma round_half_even_IZR (n : Z) : Py.round_half_even (IZR n) = n.
Proof.
  unfold Py.round_half_even. rewrite ZfloorZ.
  destruct (Rlt_dec (IZR n - IZR n) (1 / 2)); [reflexivity | lra].
Qed.

Lemma percentage_of_hundredths (s : SimilarityScore) (n : Z) :
  overall_score s * 10000 = IZR n ->
  get_score_percentage s = IZR n / 100.
Proof.
  intros H. unfold get_score_percentage, Py.round.
  replace (overall_score s * 100 * 10 ^ 2) with (IZR n) by (simpl; lra).
  rewrite round_half_even_IZR. simpl. lra.
Qed.

Lemma grade_of_percentage (s : SimilarityScore) :
  let p := get_score_percentage s in
  (get_grade s = "A" <-> 80 <= p) /\
  (get_grade s = "B" <-> 70 <= p < 80) /\
  (get_grade s = "C" <-> 60 <= p < 70) /\
  (get_grade s = "D" <-> 50 <= p < 60) /\
  (get_grade s = "F" <-> p < 50).
Proof.
  unfold get_grade. generalize (get_score_percentage s). intros p. cbv zeta.
  repeat break_if;
    repeat split; intros; try discriminate; try reflexivity; lra.
Qed.

(** C7: the percentage is [round(overall * 100, 2)]; the grade is A from
    80, B from 70, C from 60, D from 50 and F below; percentage 80.0 gives
    A and 79.9 gives B, and 70, 60 and 50 belong to B, C and D. *)
Theorem grade_thresholds (s : SimilarityScore) :
  let p := get_score_percentage s in
  p = Py.round (overall_score s * 100) 2 /\
  ((get_grade s = "A" <-> 80 <= p) /\
   (get_grade s = "B" <-> 70 <= p < 80) /\
   (get_grade s = "C" <-> 60 <= p < 70) /\
   (get_grade s = "D" <-> 50 <= p < 60) /\
   (get_grade s = "F" <-> p < 50)) /\
  (get_score_percentage (score_with_overall 0.8) = 80.0 /\
   get_grade (score_with_overall 0.8) = "A") /\
  (get_score_percentage (score_with_overall 0.799) = 79.9 /\
   get_grade (score_with_overall 0.799) = "B") /\
  (get_grade (score_with_overall 0.7) = "B" /\
   get_grade (score_with_overall 0.6999) = "C") /\
  (get_grade (score_with_overall 0.6) = "C" /\
   get_grade (score_with_overall 0.5999) = "D") /\
  (get_grade (score_with_overall 0.5) = "D" /\
   get_grade (score_with_overall 0.4999) = "F").
Proof.
  assert (Hat : forall o n, o * 10000 = IZR n ->
            get_score_percentage (score_with_overall o) = IZR n / 100).
  { intros o n H. apply percentage_of_hundredths. exact H. }
  pose proof (Hat 0.8 8000%Z ltac:(lra)) as H80.
  pose proof (Hat 0.799 7990%Z ltac:(lra)) as H799.
  pose proof (Hat 0.7 7000%Z ltac:(lra)) as H70.
  pose proof (Hat 0.6999 6999%Z ltac:(lra)) as H6999.
  pose proof (Hat 0.6 6000%Z ltac:(lra)) as H60.
  pose proof (Hat 0.5999 5999%Z ltac:(lra)) as H5999.
  pose proof (Hat 0.5 5000%Z ltac:(lra)) as H50.
  pose proof (Hat 0.4999 4999%Z ltac:(lra)) as H4999.
  cbv zeta. split; [reflexivity |].
  split; [exact (grade_of_percentage s) |].
  repeat split; try lra;
    match goal with
    | |- get_grade ?t = _ =>
        destruct (grade_of_percentage t) as (HA & HB & HC & HD & HF);
        first [ apply HA | apply HB | apply HC | apply HD | apply HF ]; lra
    end.
Qed.

(** * Confidence *)

Lemma plain_resume_coverage :
  Py.count (has_section plain_resume) ["skills"; "experience"; "education"]
  = 0%nat.
Proof. reflexivity. Qed.

(** C5, as stated, fails: a resume without section headings has one
    section score (the full text); the code answers 0.2, the stated
    formula 0.4. *)
Lemma confidence_counterexample :
  _calculate_confidence [("full_content", 0.5)] plain_resume = 0.2 /\
  confidence_formula [("full_content", 0.5)] plain_resume = 0.4.
Proof.
  unfold _calculate_confidence, confidence_formula, section_coverage.
  rewrite plain_resume_coverage.
  unfold Py.np_var, Py.np_mean, Py.values, Py.sum. simpl.
  unfold Rmin, Rmax. split; repeat break_if; lra.
Qed.

(** C5, amended: the confidence is 0.6 times the fraction of skills,
    experience and education that hold text, plus 0.4 times a consistency
    term, clamped to [0.1, 1.0]; the consistency term is
    [max(0, 1 - variance)] of the section scores when there are at least
    two of them (then the stated formula holds as it is) and 0.5
    otherwise. *)
Theorem confidence_guarded (section_scores : Py.dict R)
  (resume_doc : ResumeDocument) :
  _calculate_confidence section_scores resume_doc
  = confidence_formula_guarded section_scores resume_doc /\
  0.1 <= _calculate_confidence section_scores resume_doc <= 1.0 /\
  ((2 <= List.length section_scores)%nat ->
   _calculate_confidence section_scores resume_doc
   = confidence_formula section_scores resume_doc).
Proof.
  assert (Heq : _calculate_confidence section_scores resume_doc
                = confidence_formula_guarded section_scores resume_doc).
  { unfold _calculate_confidence, confidence_formula_guarded,
      section_coverage, Py.values.
    rewrite length_map.
    destruct (Nat.ltb_spec 1 (List.length section_scores));
      destruct (Nat.leb_spec 2 (List.length section_scores)); try lia;
      f_equal; f_equal; lra. }
  split; [exact Heq |]. split.
  - unfold _calculate_confidence. cbv zeta.
    unfold Rmin, Rmax. repeat break_if; lra.
  - intros Hlen. rewrite Heq.
    unfold confidence_formula_guarded, confidence_formula.
    destruct (Nat.leb_spec 2 (List.length section_scores));
      [reflexivity | lia].
Qed.

(** Two section scores: the guarded and the stated formula agree. *)
Lemma confidence_guarded_witness :
  _calculate_confidence [("skills", 0.5); ("experience", 0.7)] plain_resume
  = confidence_formula [("skills", 0.5); ("experience", 0.7)] plain_resume.
Proof.
  apply (confidence_guarded [("skills", 0.5); ("experience", 0.7)] plain_resume).
  simpl. lia.
Defined.

(** * Dictionaries *)

Section DictFacts.
Context {V : Type}.
Implicit Types (d : Py.dict V) (k : string) (v : V).

Lemma get_None_iff d k : Py.get d k = None <-> ~ In k (Py.keys d).
Proof.
  induction d as [| [k' v'] d IH]; simpl.
  - tauto.
  - destruct (String.eqb_spec k' k) as [-> | Hne].
    + split; [discriminate | intros H; exfalso; apply H; now left].
    + rewrite IH. split.
      * intros H [Heq | Hin]; [congruence | tauto].
      * intros H Hin. apply H. now right.
Qed.

Lemma keys_set d k v k' :
  In k' (Py.keys (Py.set d k v)) <-> k' = k \/ In k' (Py.keys d).
Proof.
  induction d as [| [k0 v0] d IH]; simpl.
  - intuition congruence.
  - destruct (String.eqb_spec k0 k) as [-> | Hne]; simpl.
    + intuition congruence.
    + unfold Py.keys in IH. rewrite IH. intuition congruence.
Qed.

Lemma get_set_same d k v : Py.get (Py.set d k v) k = Some v.
Proof.
  induction d as [| [k0 v0] d IH]; simpl.
  - now rewrite String.eqb_refl.
  - destruct (String.eqb_spec k0 k) as [-> | Hne]; simpl.
    + now rewrite String.eqb_refl.
    + destruct (String.eqb_spec k0 k); [contradiction | exact IH].
Qed.

End DictFacts.

(** * Section extraction *)

Lemma extract_key_sections_eq (content : string) :
  extract_key_sections content =
  [("skills", _extract_section_by_patterns content skills_patterns);
   ("experience", _extract_section_by_patterns content exp_patterns);
   ("education", _extract_section_by_patterns content edu_patterns);
   ("summary", EmptyString);
   ("full_content", content)].
Proof. reflexivity. Qed.

(** A scan that never meets one of its patterns collects nothing. *)
Lemma scan_lines_unopened (patterns : list string) (content_lines : list string) :
  Forall (fun line => Py.any_in patterns (line_key line) = false) content_lines ->
  scan_lines patterns content_lines false [] = [].
Proof.
  induction 1 as [| line rest Hline _ IH]; simpl.
  - reflexivity.
  - unfold line_key in Hline. rewrite Hline. simpl. exact IH.
Qed.

Lemma extract_section_unopened (content : string) (patterns : list string) :
  Forall (fun line => Py.any_in patterns (line_key line) = false)
         (Py.split Py.newline content) ->
  _extract_section_by_patterns content patterns = EmptyString.
Proof.
  intros H. unfold _extract_section_by_patterns.
  rewrite scan_lines_unopened by exact H. reflexivity.
Qed.

(** A line that holds one of the patterns opens the section, whatever
    the state of the scan. *)
Lemma scan_lines_opens (patterns : list string) (line : string)
  (rest : list string) (in_section : bool) (acc : list string) :
  Py.any_in patterns (line_key line) = true ->
  scan_lines patterns (line :: rest) in_section acc
  = scan_lines patterns rest true acc.
Proof. unfold line_key. intros H. simpl. now rewrite H. Qed.

(** Inside an open section, lines without a pattern and without a
    section name are collected when they hold text. *)
Lemma scan_lines_collects (patterns : list string) (rest : list string) :
  Forall (fun line => Py.any_in patterns (line_key line) = false /\
                      Py.any_in common_sections (line_key line) = false) rest ->
  forall acc,
  scan_lines patterns rest true acc
  = acc ++ filter (fun line => Py.truthy (Py.strip line)) rest.
Proof.
  induction 1 as [| line rest [Hp Hc] _ IH]; intros acc; cbn [scan_lines].
  - now rewrite app_nil_r.
  - unfold line_key in Hp, Hc. rewrite Hp, Hc. cbn [andb negb filter].
    destruct (Py.truthy (Py.strip line)).
    + rewrite IH, <- app_assoc. reflexivity.
    + apply IH.
Qed.

(** C8: the extractor is a total function; its result has exactly the
    keys skills, experience, education, summary, full_content, in this
    order; full_content is the input; summary is empty; and a target
    section none of whose patterns occurs in any line is empty. *)
Theorem extract_key_sections_complete (content : string) :
  let sections := extract_key_sections content in
  let unmatched patterns :=
    Forall (fun line => Py.any_in patterns (line_key line) = false)
           (Py.split Py.newline content) in
  Py.keys sections
    = ["skills"; "experience"; "education"; "summary"; "full_content"] /\
  Py.get sections "full_content" = Some content /\
  Py.get sections "summary" = Some EmptyString /\
  (exists skills experience education,
     Py.get sections "skills" = Some skills /\
     Py.get sections "experience" = Some experience /\
     Py.get sections "education" = Some education) /\
  (unmatched skills_patterns -> Py.get sections "skills" = Some EmptyString) /\
  (unmatched exp_patterns -> Py.get sections "experience" = Some EmptyString) /\
  (unmatched edu_patterns -> Py.get sections "education" = Some EmptyString).
Proof.
  cbv zeta. rewrite extract_key_sections_eq.
  repeat split.
  - do 3 eexists. repeat split.
  - intros H. simpl. now rewrite extract_section_unopened.
  - intros H. simpl. now rewrite extract_section_unopened.
  - intros H. simpl. now rewrite extract_section_unopened.
Qed.

(** An input without any heading: every target section is empty. *)
Lemma extract_key_sections_complete_witness :
  Py.get (extract_key_sections "Ten years of plumbing") "skills"
    = Some EmptyString /\
  Py.get (extract_key_sections "Ten years of plumbing") "experience"
    = Some EmptyString /\
  Py.get (extract_key_sections "Ten years of plumbing") "education"
    = Some EmptyString.
Proof.
  destruct (extract_key_sections_complete "Ten years of plumbing")
    as (_ & _ & _ & _ & Hs & Hx & He).
  split; [apply Hs | split; [apply Hx | apply He]];
    repeat constructor.
Defined.

(** C6, as stated, fails: the first line of this input holds a skills
    pattern and an experience pattern; it opens the skills section and
    the experience section alike, and both collect the next line. *)
Lemma first_match_counterexample :
  Py.split Py.newline two_heading_resume
    = ["Skills and Experience"; "Python"] /\
  Py.any_in skills_patterns (line_key "Skills and Experience") = true /\
  Py.any_in exp_patterns (line_key "Skills and Experience") = true /\
  Py.any_in exp_patterns (line_key "Python") = false /\
  Py.get (extract_key_sections two_heading_resume) "skills" = Some "Python" /\
  Py.get (extract_key_sections two_heading_resume) "experience" = Some "Python".
Proof. repeat split. Qed.

(** C6, amended: the three target sections are extracted in the fixed
    order skills, experience, education, each by a scan of all lines
    that looks at its own keyword set only; a line that holds a keyword
    of a section opens that section whatever other keyword sets it
    matches, and the section then collects the following non-blank lines
    up to the next line that names another section. *)
Theorem sections_scanned_independently (content : string) :
  extract_key_sections content =
    [("skills", _extract_section_by_patterns content skills_patterns);
     ("experience", _extract_section_by_patterns content exp_patterns);
     ("education", _extract_section_by_patterns content edu_patterns);
     ("summary", EmptyString);
     ("full_content", content)] /\
  (forall patterns line rest in_section acc,
     Py.any_in patterns (line_key line) = true ->
     scan_lines patterns (line :: rest) in_section acc
     = scan_lines patterns rest true acc) /\
  (forall patterns line rest,
     Py.any_in patterns (line_key line) = true ->
     Forall (fun l => Py.any_in patterns (line_key l) = false /\
                      Py.any_in common_sections (line_key l) = false) rest ->
     scan_lines patterns (line :: rest) false []
     = filter (fun l => Py.truthy (Py.strip l)) rest).
Proof.
  split; [apply extract_key_sections_eq |].
  split.
  - intros. now apply scan_lines_opens.
  - intros patterns line rest Hopen Hrest.
    rewrite scan_lines_opens by exact Hopen.
    now rewrite scan_lines_collects.
Qed.

Lemma sections_scanned_independently_witness :
  scan_lines skills_patterns ["Skills and Experience"; "Python"] false []
    = ["Python"] /\
  scan_lines exp_patterns ["Skills and Experience"; "Python"] false []
    = ["Python"].
Proof.
  destruct (sections_scanned_independently EmptyString) as (_ & _ & H).
  split.
  - apply (H skills_patterns "Skills and Experience" ["Python"]);
      [reflexivity | repeat constructor].
  - apply (H exp_patterns "Skills and Experience" ["Python"]);
      [reflexivity | repeat constructor].
Defined.

(** * The summary section is never scored *)

Section SummaryFacts.
Context {C : Collaborators}.

(** The loops over the sections add keys of sections with text only. *)
Lemma embed_sections_keys (items : Py.dict string) :
  forall acc embs k,
  embed_sections items acc = Some embs ->
  In k (Py.keys embs) ->
  In k (Py.keys acc) \/
  exists text, In (k, text) items /\ Py.truthy (Py.strip text) = true.
Proof.
  induction items as [| [name text] items IH]; intros acc embs k Hrun Hin.
  - simpl in Hrun. injection Hrun as <-. now left.
  - simpl in Hrun.
    destruct (Py.truthy (Py.strip text)) eqn:Htext.
    + destruct (generate_single_embedding text) as [e |]; [| discriminate].
      destruct (IH _ _ _ Hrun Hin) as [Hacc | [t [Ht Hne]]].
      * apply keys_set in Hacc. destruct Hacc as [-> | Hacc].
        -- right. exists text. split; [now left | exact Htext].
        -- now left.
      * right. exists t. split; [now right | exact Hne].
    + destruct (IH _ _ _ Hrun Hin) as [Hacc | [t [Ht Hne]]].
      * now left.
      * right. exists t. split; [now right | exact Hne].
Qed.

Lemma enhance_sections_keys (job_embedding : list R) (items : Py.dict string) :
  forall acc scores k,
  batch_section_scores job_embedding items acc = Some scores ->
  In k (Py.keys scores) ->
  In k (Py.keys acc) \/
  exists text, In (k, text) items /\ Py.truthy (Py.strip text) = true.
Proof.
  induction items as [| [name text] items IH]; intros acc scores k Hrun Hin.
  - simpl in Hrun. injection Hrun as <-. now left.
  - simpl in Hrun.
    destruct (Py.truthy (Py.strip text)) eqn:Htext.
    + destruct (generate_single_embedding text) as [e |]; [| discriminate].
      destruct (IH _ _ _ Hrun Hin) as [Hacc | [t [Ht Hne]]].
      * apply keys_set in Hacc. destruct Hacc as [-> | Hacc].
        -- right. exists text. split; [now left | exact Htext].
        -- now left.
      * right. exists t. split; [now right | exact Hne].
    + destruct (IH _ _ _ Hrun Hin) as [Hacc | [t [Ht Hne]]].
      * now left.
      * right. exists t. split; [now right | exact Hne].
Qed.

(** The weighted score holds keys of embedded sections only. *)
Lemma weighted_fold_keys (job_embedding : list R) (weights : Py.dict R)
  (resume_sections : Py.dict (list R)) :
  forall acc k,
  In k (Py.keys (snd (fold_left (weighted_step job_embedding weights)
                                resume_sections acc))) ->
  In k (Py.keys (snd acc)) \/ In k (Py.keys resume_sections).
Proof.
  induction resume_sections as [| [name e] l IH]; intros [total scores] k Hin.
  - now left.
  - simpl in Hin. apply IH in Hin. destruct Hin as [Hin | Hin].
    + unfold weighted_step in Hin.
      destruct (Py.get weights name); [| now left].
      destruct (Py.nonempty e); [| now left].
      simpl in Hin. apply keys_set in Hin. destruct Hin as [-> | Hin].
      * right. now left.
      * now left.
    + right. now right.
Qed.

Lemma weighted_similarity_score_keys (job_embedding : list R)
  (resume_sections : Py.dict (list R)) (weights : option (Py.dict R)) (k : string) :
  In k (Py.keys (snd (weighted_similarity_score job_embedding
                        resume_sections weights))) ->
  In k (Py.keys resume_sections).
Proof.
  unfold weighted_similarity_score.
  set (w := match weights with None => _ | Some w0 => w0 end).
  pose proof (weighted_fold_keys job_embedding w resume_sections (0.0, []) k) as H.
  destruct (fold_left (weighted_step job_embedding w) resume_sections
              (0.0, [])) as [total scores].
  destruct (apply_final_score_boost total); simpl; intros Hin.
  - destruct (H Hin) as [[] | Hin']. exact Hin'.
  - destruct Hin.
Qed.

(** In the sections of the extractor the only text under [summary] is
    the empty one. *)
Lemma summary_text_empty (content text : string) :
  In ("summary", text) (extract_key_sections content) -> text = EmptyString.
Proof.
  rewrite extract_key_sections_eq. simpl.
  intros [H | [H | [H | [H | [H | []]]]]]; congruence.
Qed.

Lemma summary_not_scored_by (content : string) (keys : list string) :
  (forall k, In k keys ->
     exists text, In (k, text) (extract_key_sections content) /\
                  Py.truthy (Py.strip text) = true) ->
  ~ In "summary" keys.
Proof.
  intros H Hin. destruct (H _ Hin) as [text [Htext Hne]].
  apply summary_text_empty in Htext. subst text. discriminate.
Qed.

(** C10: the summary section of the extractor is always empty, so no
    summary embedding is made and neither the single-mode score nor the
    batch score of a document holds a summary entry. *)
Theorem summary_never_scored (content : string) (resume_doc : ResumeDocument)
  (job_desc : JobDescription) :
  sections resume_doc = extract_key_sections content ->
  Py.get (sections resume_doc) "summary" = Some EmptyString /\
  (forall embs score,
     _generate_section_embeddings resume_doc = Some embs ->
     _calculate_comprehensive_similarity job_desc resume_doc embs = Some score ->
     Py.get embs "summary" = None /\
     Py.get (section_scores score) "summary" = None) /\
  (forall base_score score,
     _calculate_detailed_similarity_score job_desc resume_doc base_score
       = Some score ->
     Py.get (section_scores score) "summary" = None).
Proof.
  intros Hsec. split; [| split].
  - rewrite Hsec. reflexivity.
  - intros embs score Hembs Hscore.
    assert (Hno : ~ In "summary" (Py.keys embs)).
    { apply (summary_not_scored_by content). intros k Hk.
      unfold _generate_section_embeddings in Hembs. rewrite Hsec in Hembs.
      destruct (embed_sections_keys _ _ _ _ Hembs Hk) as [[] | H]. exact H. }
    split; [now apply get_None_iff |].
    apply get_None_iff. intros Hin. apply Hno.
    unfold _calculate_comprehensive_similarity in Hscore.
    destruct (generate_single_embedding (job_content job_desc)) as [q |];
      [| discriminate].
    pose proof (weighted_similarity_score_keys q embs
                  (Some comprehensive_section_weights) "summary") as Hk.
    destruct (weighted_similarity_score q embs _) as [overall scores].
    injection Hscore as <-. simpl in Hin. exact (Hk Hin).
  - intros base_score score Hscore.
    apply get_None_iff. apply (summary_not_scored_by content). intros k Hk.
    unfold _calculate_detailed_similarity_score in Hscore.
    destruct (generate_single_embedding (job_content job_desc)) as [q |];
      [| discriminate].
    destruct (batch_section_scores q (sections resume_doc) []) as [scores |] eqn:Hs;
      [| discriminate].
    injection Hscore as <-. simpl in Hk. rewrite Hsec in Hs.
    destruct (enhance_sections_keys _ _ _ _ _ Hs Hk) as [[] | H]. exact H.
Qed.

End SummaryFacts.

Lemma summary_never_scored_witness :
  Py.get (sections plain_resume) "summary" = Some EmptyString /\
  exists embs score,
    _generate_section_embeddings (C := example_collaborators) plain_resume
      = Some embs /\
    _calculate_comprehensive_similarity (C := example_collaborators)
      example_job plain_resume embs = Some score /\
    Py.get embs "summary" = None /\
    Py.get (section_scores score) "summary" = None.
Proof.
  destruct (summary_never_scored (C := example_collaborators)
              "Ten years of plumbing" plain_resume example_job eq_refl)
    as (Hsum & Hsingle & _).
  split; [exact Hsum |].
  exists [("full_content", [1; 0])].
  destruct (_calculate_comprehensive_similarity (C := example_collaborators)
              example_job plain_resume [("full_content", [1; 0])])
    as [score |] eqn:Hscore.
  - exists score. split; [reflexivity |]. split; [reflexivity |].
    apply Hsingle; [reflexivity | exact Hscore].
  - exfalso. revert Hscore.
    unfold _calculate_comprehensive_similarity. simpl.
    destruct (weighted_similarity_score _ _ _). discriminate.
Defined.

(** * Lists, slices and traversals *)

Lemma firstn_seq_prefix (m start len : nat) :
  firstn m (seq start len) = seq start (Nat.min m len).
Proof.
  revert start len. induction m as [| m IH]; intros start [| len]; simpl;
    try reflexivity.
  now rewrite IH.
Qed.

Lemma slice_to_prefix {A} (l : list A) (n : Z) :
  exists m, Py.slice_to l n = firstn m l /\
            ((0 <= n)%Z -> m = Z.to_nat n).
Proof.
  unfold Py.slice_to. destruct (Z.leb_spec 0 n).
  - exists (Z.to_nat n). split; [reflexivity | trivial].
  - eexists. split; [reflexivity | lia].
Qed.

Lemma traverse_Forall2 {A B} (f : A -> option B) (l : list A) :
  forall l', Py.traverse f l = Some l' ->
  Forall2 (fun x y => f x = Some y) l l'.
Proof.
  induction l as [| x l IH]; simpl; intros l' H.
  - injection H as <-. constructor.
  - destruct (f x) as [y |] eqn:Hx; [| discriminate].
    destruct (Py.traverse f l) as [ys |]; [| discriminate].
    injection H as <-. constructor; [exact Hx | now apply IH].
Qed.

Lemma traverse_total {A B} (f : A -> option B) (l : list A) :
  Forall (fun x => f x <> None) l -> exists l', Py.traverse f l = Some l'.
Proof.
  induction 1 as [| x l Hx _ [l' IH]]; simpl.
  - now eexists.
  - destruct (f x); [| contradiction]. rewrite IH. now eexists.
Qed.

Lemma Forall2_firstn_prefix {A B} (P : A -> B -> Prop) (l1 : list A) (l2 : list B) :
  Forall2 P l1 l2 ->
  forall m, Forall2 P (firstn (List.length (firstn m l2)) l1) (firstn m l2).
Proof.
  induction 1 as [| x y l1 l2 Hxy _ IH]; intros [| m]; simpl;
    constructor; auto.
Qed.

(** * The ranking loop *)

Section RankingFacts.
Context {C : Collaborators} {V : VectorIndex}.
Variables (rc : ResumeCollection) (job : JobDescription).

Lemma detailed_score_overall (resume_doc : ResumeDocument) (base : R)
  (score : SimilarityScore) :
  _calculate_detailed_similarity_score job resume_doc base = Some score ->
  overall_score score = _enhance_batch_score base.
Proof.
  unfold _calculate_detailed_similarity_score.
  destruct (generate_single_embedding (job_content job)); [| discriminate].
  destruct (batch_section_scores _ _ _); [| discriminate].
  intros H. injection H as <-. reflexivity.
Qed.

(** When every triple names a resume of the collection, the loop adds
    one ranking per triple, in order, numbered from [i + 1] on. *)
Lemma rank_loop_spec (hits : list (string * (R * Py.dict string))) :
  forall i acc out,
  Forall (resolves rc) hits ->
  rank_loop rc job i hits acc = Some out ->
  exists new,
    out = acc ++ new /\
    map rank new = seq (i + 1) (List.length hits) /\
    Forall2 (built_from rc) hits new.
Proof.
  induction hits as [| [doc [score meta]] hits IH]; intros i acc out Hres Hrun.
  - simpl in Hrun. injection Hrun as <-. exists [].
    rewrite app_nil_r. repeat split. constructor.
  - inversion Hres as [| ? ? Hh Hrest]; subst.
    unfold resolves in Hh. cbn [snd] in Hh.
    cbn [rank_loop] in Hrun.
    destruct (get_resume_by_id rc (Py.get meta "resume_id"))
      as [resume_doc |] eqn:Hdoc; [| contradiction].
    destruct (_calculate_detailed_similarity_score job resume_doc score)
      as [detailed |] eqn:Hdet; [| discriminate].
    destruct (IH _ _ _ Hrest Hrun) as (new & Hout & Hranks & Hbuilt).
    eexists (_ :: new). split; [| split].
    + rewrite Hout, <- app_assoc. reflexivity.
    + cbn [map rank List.length seq]. f_equal.
      rewrite Hranks. reflexivity.
    + constructor; [| exact Hbuilt].
      exists resume_doc. cbn. repeat split; trivial.
      now apply detailed_score_overall with (resume_doc := resume_doc).
Qed.

(** Whatever the triples, the loop adds at most one ranking per triple. *)
Lemma rank_loop_length (hits : list (string * (R * Py.dict string))) :
  forall i acc out,
  rank_loop rc job i hits acc = Some out ->
  (List.length out <= List.length acc + List.length hits)%nat.
Proof.
  induction hits as [| [doc [score meta]] hits IH]; intros i acc out Hrun.
  - simpl in Hrun. injection Hrun as <-. lia.
  - cbn [rank_loop] in Hrun. cbn [List.length].
    destruct (get_resume_by_id rc (Py.get meta "resume_id")) as [resume_doc |].
    + destruct (_calculate_detailed_similarity_score job resume_doc score);
        [| discriminate].
      apply IH in Hrun. rewrite length_app in Hrun. simpl in Hrun. lia.
    + apply IH in Hrun. lia.
Qed.

(** With an empty collection no triple names a resume. *)
Lemma rank_loop_no_resumes (hits : list (string * (R * Py.dict string))) :
  resumes rc = [] ->
  forall i acc, rank_loop rc job i hits acc = Some acc.
Proof.
  intros Hempty.
  assert (Hnone : forall x, get_resume_by_id rc x = None).
  { intros [x |]; unfold get_resume_by_id; [now rewrite Hempty | reflexivity]. }
  induction hits as [| [doc [score meta]] hits IH]; intros i acc.
  - reflexivity.
  - cbn [rank_loop]. rewrite Hnone. apply IH.
Qed.

(** The loop completes when every triple names a resume and the
    embedding model answers. *)
Lemma rank_loop_total {RE : ReliableEmbedding C}
  (hits : list (string * (R * Py.dict string))) :
  Forall (resolves rc) hits ->
  forall i acc, exists out, rank_loop rc job i hits acc = Some out.
Proof.
  assert (Hsec : forall q items acc,
            exists scores, batch_section_scores q items acc = Some scores).
  { intros q items. induction items as [| [name text] items IH]; intros acc.
    - now eexists.
    - simpl. destruct (Py.truthy (Py.strip text)); [| apply IH].
      destruct (embedding_total text) as [e [-> _]]. apply IH. }
  induction 1 as [| [doc [score meta]] hits Hh _ IH]; intros i acc.
  - now eexists.
  - unfold resolves in Hh. cbn [snd] in Hh. cbn [rank_loop].
    destruct (get_resume_by_id rc (Py.get meta "resume_id"))
      as [resume_doc |]; [| contradiction].
    unfold _calculate_detailed_similarity_score.
    destruct (embedding_total (job_content job)) as [q [-> _]].
    destruct (Hsec q (sections resume_doc) []) as [scores ->].
    apply IH.
Qed.

(** The triples handed to the loop, seen from the answers of the index. *)
Lemma triples_of_hits (results : list QueryHit) (sims : list R) :
  Py.traverse similarity_of_distance (map hit_distance results) = Some sims ->
  Forall2 (fun hit t => snd (snd t) = hit_metadata hit /\
                        similarity_of_distance (hit_distance hit)
                          = Some (fst (snd t)))
    results
    (combine (map hit_document results)
             (combine sims (map hit_metadata results))).
Proof.
  revert sims. induction results as [| hit results IH]; intros sims H.
  - simpl in H. injection H as <-. constructor.
  - simpl in H.
    destruct (similarity_of_distance (hit_distance hit)) as [sim |] eqn:Hs;
      [| discriminate].
    destruct (Py.traverse similarity_of_distance (map hit_distance results))
      as [sims' |] eqn:Ht; [| discriminate].
    injection H as <-. simpl. constructor; [now split | now apply IH].
Qed.

Lemma Forall2_ranking_of_hit (results : list QueryHit)
  (triples : list (string * (R * Py.dict string)))
  (new : list CandidateRanking) :
  Forall2 (fun hit t => snd (snd t) = hit_metadata hit /\
                        similarity_of_distance (hit_distance hit)
                          = Some (fst (snd t))) results triples ->
  Forall2 (built_from rc) triples new ->
  Forall2 (ranking_of_hit rc) results new.
Proof.
  intros H. revert new.
  induction H as [| hit t results triples [Hm Hs] _ IH]; intros new Hb;
    inversion Hb as [| ? r ? new' Hr Hrest]; subst; constructor.
  - destruct Hr as (resume_doc & Hdoc & Hid & Hov).
    exists resume_doc, (fst (snd t)). rewrite <- Hm. repeat split; trivial.
  - now apply IH.
Qed.

(** What [_rank_candidates] returns on an index whose answers name
    resumes of the collection: ranks 1, 2, ... without gap, at most
    [top_n] of them, and the [k]-th ranking built from the [k]-th answer. *)
Lemma rank_candidates_spec (top_n : Z) (s : index_state) :
  (forall q k hits, index_query q k s = Some hits ->
     Forall (fun hit =>
               get_resume_by_id rc (Py.get (hit_metadata hit) "resume_id")
               <> None) hits) ->
  let rs := _rank_candidates rc job top_n s in
  map rank rs = seq 1 (List.length rs) /\
  ((0 <= top_n)%Z -> (Z.of_nat (List.length rs) <= top_n)%Z) /\
  (rs = [] \/
   exists q hits,
     generate_single_embedding (job_content job) = Some q /\
     index_query q (List.length (resumes rc)) s = Some hits /\
     Forall2 (ranking_of_hit rc) (firstn (List.length rs) hits) rs).
Proof.
  intros Hres. cbv zeta.
  unfold _rank_candidates, rank_candidates_body, similarity_search.
  assert (Hnil : map rank (@nil CandidateRanking) = seq 1 (List.length (@nil CandidateRanking)) /\
                 ((0 <= top_n)%Z -> (Z.of_nat (List.length (@nil CandidateRanking)) <= top_n)%Z) /\
                 (@nil CandidateRanking = [] \/
                  exists q hits,
                    generate_single_embedding (job_content job) = Some q /\
                    index_query q (List.length (resumes rc)) s = Some hits /\
                    Forall2 (ranking_of_hit rc)
                      (firstn (List.length (@nil CandidateRanking)) hits) [])).
  { simpl. repeat split; [lia | now left]. }
  destruct (generate_single_embedding (job_content job)) as [q |] eqn:Hq;
    [| exact Hnil].
  destruct (index_query q (List.length (resumes rc)) s) as [results |] eqn:Hquery;
    [| exact Hnil].
  destruct (Py.traverse similarity_of_distance (map hit_distance results))
    as [sims |] eqn:Hsims; [| exact Hnil].
  pose proof (triples_of_hits results sims Hsims) as Htriples.
  set (triples := combine (map hit_document results)
                    (combine sims (map hit_metadata results))) in *.
  destruct (rank_loop rc job 0 triples []) as [out |] eqn:Hloop;
    [| exact Hnil].
  clear Hnil.
  assert (Hresolves : Forall (resolves rc) triples).
  { specialize (Hres _ _ _ Hquery). clear - Hres Htriples.
    induction Htriples as [| hit t results triples [Hm _] _ IH];
      constructor; inversion Hres; subst.
    - unfold resolves. now rewrite Hm.
    - now apply IH. }
  destruct (rank_loop_spec triples 0 [] out Hresolves Hloop)
    as (new & Hout & Hranks & Hbuilt).
  simpl in Hout. subst new.
  destruct (slice_to_prefix out top_n) as (m & -> & Hm).
  split; [| split].
  - rewrite <- firstn_map, Hranks, firstn_seq_prefix, length_firstn.
    apply Forall2_length in Hbuilt. rewrite Hbuilt. reflexivity.
  - intros Hn. rewrite length_firstn, (Hm Hn). lia.
  - right. exists q, results. repeat split; trivial.
    apply Forall2_firstn_prefix.
    now apply Forall2_ranking_of_hit with (triples := triples).
Qed.

(** The number of rankings never exceeds the number of answers asked
    for, which is the size of the collection. *)
Lemma rank_candidates_length (top_n : Z) (s : index_state) :
  (forall q k hits, index_query q k s = Some hits -> (List.length hits <= k)%nat) ->
  (List.length (_rank_candidates rc job top_n s) <= List.length (resumes rc))%nat.
Proof.
  intros Hbound.
  unfold _rank_candidates, rank_candidates_body, similarity_search.
  destruct (generate_single_embedding (job_content job)) as [q |];
    [| simpl; lia].
  destruct (index_query q (List.length (resumes rc)) s) as [results |] eqn:Hquery;
    [| simpl; lia].
  destruct (Py.traverse similarity_of_distance (map hit_distance results))
    as [sims |]; [| simpl; lia].
  destruct (rank_loop rc job 0 _ []) as [out |] eqn:Hloop; [| simpl; lia].
  apply rank_loop_length in Hloop. apply Hbound in Hquery.
  rewrite length_combine, length_map in Hloop. simpl in Hloop.
  destruct (slice_to_prefix out top_n) as (m & -> & _).
  rewrite length_firstn. lia.
Qed.

End RankingFacts.

(** * The order does not depend on the detailed pass *)

Lemma slice_to_map {A B} (f : A -> B) (l : list A) (n : Z) :
  Py.slice_to (map f l) n = map f (Py.slice_to l n).
Proof.
  unfold Py.slice_to. rewrite length_map.
  destruct (0 <=? n)%Z; apply firstn_map.
Qed.

Section CosineFacts.
Context {C : Collaborators} {V : VectorIndex}.
Variable cosine : list R -> list R -> option R.
Variables (rc : ResumeCollection) (job : JobDescription).

Lemma enhance_sections_completes (q : list R) (items : Py.dict string) :
  forall acc acc',
  batch_section_scores (C := with_cosine C cosine) q items acc = None <->
  batch_section_scores (C := C) q items acc' = None.
Proof.
  induction items as [| [name text] items IH]; intros acc acc'; simpl.
  - split; discriminate.
  - destruct (Py.truthy (Py.strip text)); [| apply IH].
    destruct (generate_single_embedding text); [apply IH | tauto].
Qed.

Lemma detailed_score_without_sections (resume_doc : ResumeDocument) (base : R) :
  option_map (fun sc => (overall_score sc, confidence sc, reasoning sc))
    (_calculate_detailed_similarity_score (C := with_cosine C cosine)
       job resume_doc base)
  = option_map (fun sc => (overall_score sc, confidence sc, reasoning sc))
      (_calculate_detailed_similarity_score (C := C) job resume_doc base).
Proof.
  unfold _calculate_detailed_similarity_score. cbn [generate_single_embedding with_cosine].
  destruct (@generate_single_embedding C (job_content job)) as [q |];
    [| reflexivity].
  pose proof (enhance_sections_completes q (sections resume_doc) [] []) as H.
  destruct (batch_section_scores (C := with_cosine C cosine) q _ []);
    destruct (batch_section_scores (C := C) q _ []); simpl; trivial.
  - destruct H as [_ H]. now specialize (H eq_refl).
  - destruct H as [H _]. now specialize (H eq_refl).
Qed.

Lemma rank_loop_without_sections (hits : list (string * (R * Py.dict string))) :
  forall i acc acc',
  map without_section_scores acc = map without_section_scores acc' ->
  option_map (map without_section_scores)
    (rank_loop (C := with_cosine C cosine) rc job i hits acc)
  = option_map (map without_section_scores)
      (rank_loop (C := C) rc job i hits acc').
Proof.
  induction hits as [| [doc [score meta]] hits IH]; intros i acc acc' Hacc.
  - simpl. now rewrite Hacc.
  - cbn [rank_loop].
    destruct (get_resume_by_id rc (Py.get meta "resume_id"))
      as [resume_doc |]; [| now apply IH].
    pose proof (detailed_score_without_sections resume_doc score) as Hdet.
    destruct (_calculate_detailed_similarity_score (C := with_cosine C cosine)
                job resume_doc score) as [d1 |];
      destruct (_calculate_detailed_similarity_score (C := C)
                  job resume_doc score) as [d2 |];
      simpl in Hdet; try discriminate; [| reflexivity].
    injection Hdet as Ho Hc Hr.
    apply IH. rewrite !map_app, Hacc. simpl.
    unfold without_section_scores at 2 4. simpl.
    now rewrite Ho, Hc, Hr.
Qed.

Lemma rank_candidates_without_sections (top_n : Z) (s : index_state) :
  map without_section_scores
    (_rank_candidates (C := with_cosine C cosine) rc job top_n s)
  = map without_section_scores (_rank_candidates (C := C) rc job top_n s).
Proof.
  unfold _rank_candidates, rank_candidates_body.
  cbn [generate_single_embedding with_cosine].
  destruct (@generate_single_embedding C (job_content job)) as [q |];
    [| reflexivity].
  destruct (similarity_search q _ s) as [[[docs sims] metas] |];
    [| reflexivity].
  pose proof (rank_loop_without_sections
                (combine docs (combine sims metas)) 0 [] [] eq_refl) as H.
  destruct (rank_loop (C := with_cosine C cosine) rc job 0 _ []);
    destruct (rank_loop (C := C) rc job 0 _ []);
    simpl in H; try discriminate; [| reflexivity].
  injection H as H. now rewrite <- !slice_to_map, H.
Qed.

End CosineFacts.

(** * Collecting the tasks *)

Lemma collect_perm (l l' : list (string * option ResumeDocument)) :
  Permutation l l' -> Permutation (collect l) (collect l').
Proof.
  induction 1 as [| [p [d |]] l l' _ IH
                 | [p1 [d1 |]] [p2 [d2 |]] l
                 | l1 l2 l3 _ IH1 _ IH2]; simpl;
    try (now constructor); try reflexivity.
  - exact IH.
  - now transitivity (collect l2).
Qed.

Lemma collect_succeeded (l : list (string * option ResumeDocument)) :
  List.length (collect l) = List.length (succeeded l).
Proof.
  induction l as [| [p [d |]] l IH]; simpl; congruence.
Qed.

Lemma collect_none (l : list (string * option ResumeDocument)) :
  Forall (fun f => snd f = None) l -> collect l = [].
Proof.
  induction 1 as [| [p d] l Hd _ IH]; simpl; [reflexivity |].
  simpl in Hd. now subst d.
Qed.

Lemma collect_all (P : ResumeDocument -> Prop)
  (l : list (string * option ResumeDocument)) :
  Forall (fun f => exists d, snd f = Some d /\ P d) l ->
  List.length (collect l) = List.length l /\ Forall P (collect l).
Proof.
  induction 1 as [| [p d] l [d' [Hd HP]] _ [IHlen IHP]]; simpl.
  - split; [reflexivity | constructor].
  - simpl in Hd. subst d. simpl. split; [congruence | now constructor].
Qed.

Section BatchFacts.
Context {C : Collaborators} {V : VectorIndex}.

Lemma submit_all_length (paths : list string) :
  forall k, List.length (submit_all k paths) = List.length paths.
Proof. induction paths as [| p paths IH]; intros k; simpl; congruence. Qed.

Lemma submit_all_Forall (P : string * option ResumeDocument -> Prop)
  (paths : list string) :
  (forall k path, In path paths -> P (path, _process_single_resume k path)) ->
  forall k, Forall P (submit_all k paths).
Proof.
  induction paths as [| p paths IH]; intros H k; simpl; constructor.
  - apply H. now left.
  - apply IH. intros k' path Hin. apply H. now right.
Qed.

(** The collection holds exactly the documents of the tasks that
    succeeded. *)
Lemma processed_count_succeeded {CL : CollaboratorLaws C} (paths : list string) :
  List.length (resumes (_process_resume_batch paths))
  = List.length (succeeded (submit_all 0 paths)).
Proof.
  unfold _process_resume_batch. cbn [resumes].
  rewrite <- collect_succeeded.
  apply Permutation_length, collect_perm, as_completed_perm.
Qed.

Lemma succeeded_le (paths : list string) :
  (List.length (succeeded (submit_all 0 paths)) <= List.length paths)%nat.
Proof.
  unfold succeeded.
  rewrite <- (submit_all_length paths 0). apply filter_length_le.
Qed.

(** * Indexing *)

Context {VL : VectorIndexLaws V}.

(** After indexing, every entry of the index carries the metadata of a
    resume of the collection. *)
Lemma indexed_entries (rc : ResumeCollection) (s s' : index_state) :
  _index_resumes_in_vector_store rc s = Some s' ->
  forall e, In e (index_entries s') ->
  exists r, In r (resumes rc) /\ entry_metadata e = index_metadata r.
Proof.
  unfold _index_resumes_in_vector_store, clear_collection, add_documents.
  destruct (index_clear s) as [s1 |] eqn:Hclear; [| discriminate].
  apply index_clear_spec in Hclear.
  destruct (Py.nonempty (index_documents rc)).
  - destruct (index_add _ _ _ _ s1) as [s2 |] eqn:Hadd; [| discriminate].
    intros H. injection H as <-.
    apply index_add_spec in Hadd. destruct Hadd as (_ & _ & _ & Hentries).
    rewrite Hentries, Hclear. simpl. intros e He.
    apply in_map_iff in He. destruct He as ([i [d [em m]]] & <- & Hin).
    do 3 apply in_combine_r in Hin.
    unfold index_metadatas in Hin. apply in_map_iff in Hin.
    destruct Hin as (r & <- & Hr). apply filter_In in Hr.
    exists r. split; [tauto | reflexivity].
  - intros H. injection H as <-. rewrite Hclear. intros e [].
Qed.

(** Hence every answer of the index names a resume of the collection. *)
Lemma indexed_hits_resolve (rc : ResumeCollection) (s s' : index_state) :
  _index_resumes_in_vector_store rc s = Some s' ->
  forall q k hits, index_query q k s' = Some hits ->
  Forall (fun hit =>
            get_resume_by_id rc (Py.get (hit_metadata hit) "resume_id") <> None)
         hits.
Proof.
  intros Hindex q k hits Hquery. apply Forall_forall. intros hit Hhit.
  destruct (index_query_spec _ _ _ _ Hquery hit Hhit) as (e & He & _ & Hmeta).
  destruct (indexed_entries rc s s' Hindex e He) as (r & Hr & Hmr).
  rewrite <- Hmeta, Hmr. cbn [index_metadata Py.get].
  change (String.eqb "resume_id" "resume_id") with true. cbv iota.
  unfold get_resume_by_id. intros Hnone.
  apply find_none with (x := r) in Hnone; [| exact Hr].
  rewrite String.eqb_refl in Hnone. discriminate.
Qed.

Lemma process_resume_batch_with_cosine
  (cosine : list R -> list R -> option R) (resume_paths : list string) :
  _process_resume_batch (C := with_cosine C cosine) resume_paths
  = _process_resume_batch (C := C) resume_paths.
Proof. reflexivity. Qed.

(** C2: in every batch run that returns, the rankings carry the ranks
    1, 2, ..., up to their number, without gap; there are at most
    [top_n] of them (for a [top_n] that is not negative); the [k]-th
    ranking is built from the [k]-th answer of the index query, its
    overall score coming from [1 / (1 + distance)] of that answer; and
    with another cosine routine in the detailed pass the run returns the
    same rankings up to their section scores. *)
Theorem batch_ranks_follow_query (resume_paths : list string)
  (job_description : JobDescription) (top_n : Z) (s : index_state)
  (result : BatchAnalysisResult) (s' : index_state) :
  process_batch_resumes resume_paths job_description top_n s
    = Some (result, s') ->
  let rc := _process_resume_batch resume_paths in
  map rank (rankings result) = seq 1 (List.length (rankings result)) /\
  ((0 <= top_n)%Z -> (Z.of_nat (List.length (rankings result)) <= top_n)%Z) /\
  (rankings result = [] \/
   exists q hits,
     generate_single_embedding (job_content job_description) = Some q /\
     index_query q (List.length (resumes rc)) s' = Some hits /\
     Forall2 (ranking_of_hit rc)
       (firstn (List.length (rankings result)) hits) (rankings result)) /\
  (forall cosine, exists result',
     process_batch_resumes (C := with_cosine C cosine) resume_paths
       job_description top_n s = Some (result', s') /\
     map without_section_scores (rankings result')
     = map without_section_scores (rankings result)).
Proof.
  unfold process_batch_resumes.
  destruct (_index_resumes_in_vector_store _ s) as [s1 |] eqn:Hindex;
    [| discriminate].
  intros H. injection H as <- <-. cbn [rankings].
  rewrite <- !and_assoc. split.
  - rewrite !and_assoc. apply rank_candidates_spec.
    exact (indexed_hits_resolve _ _ _ Hindex).
  - intros cosine. rewrite process_resume_batch_with_cosine, Hindex.
    eexists. split; [reflexivity |]. cbn [rankings].
    apply rank_candidates_without_sections.
Qed.

(** C9: when no task produces a document and the index can be cleared,
    the run returns a result with an empty ranking list (and the error
    summary); nothing is raised. *)
Theorem all_failed_batch_is_empty {CL : CollaboratorLaws C}
  (resume_paths : list string) (job_description : JobDescription)
  (top_n : Z) (s s1 : index_state) :
  (forall k path, In path resume_paths ->
     _process_single_resume k path = None) ->
  index_clear s = Some s1 ->
  exists result,
    process_batch_resumes resume_paths job_description top_n s
      = Some (result, s1) /\
    rankings result = [] /\
    total_candidates result = List.length resume_paths /\
    analysis_summary result = SummaryError "No rankings generated".
Proof.
  intros Hfail Hclear.
  assert (Hempty : resumes (_process_resume_batch resume_paths) = []).
  { unfold _process_resume_batch. cbn [resumes]. apply collect_none.
    eapply Permutation_Forall.
    - symmetry. apply as_completed_perm.
    - apply submit_all_Forall. intros k path Hin. simpl. now apply Hfail. }
  assert (Hrank : _rank_candidates (_process_resume_batch resume_paths)
                    job_description top_n s1 = []).
  { unfold _rank_candidates, rank_candidates_body.
    destruct (generate_single_embedding _); [| reflexivity].
    destruct (similarity_search _ _ s1) as [[[docs sims] metas] |];
      [| reflexivity].
    rewrite rank_loop_no_resumes by exact Hempty.
    destruct (slice_to_prefix (@nil CandidateRanking) top_n) as (m & -> & _).
    now destruct m. }
  unfold process_batch_resumes, _index_resumes_in_vector_store,
    clear_collection.
  rewrite Hclear. unfold index_documents. rewrite Hempty. cbn [filter map Py.nonempty].
  rewrite Hrank. eexists. repeat split.
Qed.

End BatchFacts.

(** * Runs in which everything succeeds *)

Lemma In_firstn_inv {A} (x : A) (l : list A) :
  forall n, In x (firstn n l) -> In x l.
Proof.
  induction l as [| y l IH]; intros [| n]; simpl; try tauto.
  intros [H | H]; [now left | right; eauto].
Qed.

Lemma similarity_of_distance_total (d : R) :
  0 <= d -> similarity_of_distance d <> None.
Proof.
  intros Hd. unfold similarity_of_distance.
  destruct (Req_dec_T (1 + d) 0); [lra | discriminate].
Qed.

(** A larger distance gives a smaller query-stage similarity. *)
Lemma similarity_of_distance_antitone (d1 d2 s1 s2 : R) :
  0 <= d1 -> d1 <= d2 ->
  similarity_of_distance d1 = Some s1 ->
  similarity_of_distance d2 = Some s2 ->
  s2 <= s1.
Proof.
  intros H0 H12. unfold similarity_of_distance.
  destruct (Req_dec_T (1 + d1) 0); [discriminate |].
  destruct (Req_dec_T (1 + d2) 0); [discriminate |].
  intros E1 E2. injection E1 as <-. injection E2 as <-.
  unfold Rdiv. rewrite !Rmult_1_l. apply Rinv_le_contravar; lra.
Qed.

Section ReliableFacts.
Context {C : Collaborators} {V : VectorIndex}.
Context {CL : CollaboratorLaws C} {VL : VectorIndexLaws V}.
Context {RI : ReliableIndex V} {RE : ReliableEmbedding C}.

(** With a working embedding model, a readable file gives a document
    that carries an embedding. *)
Lemma readable_file_succeeds (k : nat) (path : string) :
  load_pdf path <> None ->
  exists d, _process_single_resume k path = Some d /\ has_embedding d = true.
Proof.
  intros Hload. unfold _process_single_resume.
  destruct (load_pdf path) as [docs |]; [| contradiction].
  destruct (embedding_total (Py.join Py.nl docs)) as (e & -> & Hne).
  eexists. split; [reflexivity |].
  unfold has_embedding. cbn [embedding]. now destruct e.
Qed.

Lemma all_readable_collection (paths : list string) :
  (forall path, In path paths -> load_pdf path <> None) ->
  let rc := _process_resume_batch paths in
  List.length (resumes rc) = List.length paths /\
  filter has_embedding (resumes rc) = resumes rc.
Proof.
  intros Hload. cbv zeta. unfold _process_resume_batch. cbn [resumes].
  assert (Hall : Forall (fun f => exists d, snd f = Some d /\ has_embedding d = true)
                   (as_completed _ (submit_all 0 paths))).
  { eapply Permutation_Forall.
    - symmetry. apply as_completed_perm.
    - apply submit_all_Forall. intros k path Hin. simpl.
      apply readable_file_succeeds. now apply Hload. }
  apply collect_all in Hall. destruct Hall as [Hlen Hemb]. split.
  - rewrite Hlen.
    rewrite (Permutation_length (as_completed_perm _ (submit_all 0 paths))).
    apply submit_all_length.
  - apply forallb_filter_id, forallb_forall.
    now apply Forall_forall.
Qed.

(** The index accepts the collection and then holds one entry per
    resume. *)
Lemma all_readable_indexed (paths : list string) (s : index_state) :
  (forall path, In path paths -> load_pdf path <> None) ->
  paths <> [] ->
  let rc := _process_resume_batch paths in
  exists s', _index_resumes_in_vector_store rc s = Some s' /\
             List.length (index_entries s') = List.length paths.
Proof.
  intros Hload Hne. cbv zeta.
  destruct (all_readable_collection paths Hload) as [Hlen Hfilter].
  set (rc := _process_resume_batch paths) in *.
  unfold _index_resumes_in_vector_store, clear_collection, add_documents.
  destruct (index_clear s) as [s1 |] eqn:Hclear;
    [| now apply index_clear_total in Hclear].
  apply index_clear_spec in Hclear.
  assert (Hdocs : List.length (index_documents rc) = List.length (index_ids rc)).
  { unfold index_documents, index_ids. now rewrite Hfilter, !length_map. }
  assert (Hembs : List.length (index_embeddings rc) = List.length (index_ids rc)).
  { unfold index_embeddings, index_ids. now rewrite Hfilter, !length_map. }
  assert (Hmetas : List.length (index_metadatas rc) = List.length (index_ids rc)).
  { unfold index_metadatas, index_ids. now rewrite Hfilter, !length_map. }
  assert (Hids : List.length (index_ids rc) = List.length paths).
  { unfold index_ids. now rewrite length_map. }
  destruct (index_documents rc) as [| d0 ds] eqn:Hd.
  { exfalso. simpl in Hdocs. rewrite Hids in Hdocs.
    destruct paths; [congruence | discriminate]. }
  cbn [Py.nonempty]. rewrite <- Hd in *.
  destruct (index_add _ _ _ _ s1) as [s2 |] eqn:Hadd;
    [| now apply index_add_total in Hadd].
  exists s2. split; [reflexivity |].
  apply index_add_spec in Hadd. destruct Hadd as (_ & _ & _ & ->).
  rewrite Hclear. cbn [app]. rewrite length_map, !length_combine. lia.
Qed.

(** The number of rankings when the index answers and every answer
    names a resume. *)
Lemma rank_candidates_count (rc : ResumeCollection) (job : JobDescription)
  (top_n : Z) (s : index_state) (q : list R) (hits : list QueryHit) :
  (0 <= top_n)%Z ->
  generate_single_embedding (job_content job) = Some q ->
  index_query q (List.length (resumes rc)) s = Some hits ->
  Forall (fun h => 0 <= hit_distance h) hits ->
  Forall (fun hit =>
            get_resume_by_id rc (Py.get (hit_metadata hit) "resume_id") <> None)
         hits ->
  List.length (_rank_candidates rc job top_n s)
  = Nat.min (Z.to_nat top_n) (List.length hits).
Proof.
  intros Hn Hq Hquery Hdist Hres.
  unfold _rank_candidates, rank_candidates_body, similarity_search.
  rewrite Hq, Hquery.
  destruct (traverse_total similarity_of_distance (map hit_distance hits))
    as [sims Hsims].
  { apply Forall_map. eapply Forall_impl; [| exact Hdist].
    intros h. apply similarity_of_distance_total. }
  rewrite Hsims.
  pose proof (triples_of_hits hits sims Hsims) as Htriples.
  set (triples := combine (map hit_document hits)
                    (combine sims (map hit_metadata hits))) in *.
  assert (Hresolves : Forall (resolves rc) triples).
  { clear - Hres Htriples.
    induction Htriples as [| hit t results triples [Hm _] _ IH];
      constructor; inversion Hres; subst.
    - unfold resolves. now rewrite Hm.
    - now apply IH. }
  destruct (rank_loop_total rc job triples Hresolves 0 []) as [out Hloop].
  rewrite Hloop.
  destruct (rank_loop_spec rc job triples 0 [] out Hresolves Hloop)
    as (new & Hout & _ & Hbuilt).
  simpl in Hout. subst new.
  destruct (slice_to_prefix out top_n) as (m & -> & Hm).
  rewrite length_firstn, (Hm Hn).
  apply Forall2_length in Hbuilt, Htriples. lia.
Qed.

End ReliableFacts.

(** * Counts of a batch *)

Section CountFacts.
Context {C : Collaborators} {V : VectorIndex}.
Context {CL : CollaboratorLaws C} {VL : VectorIndexLaws V}.

Lemma summary_counts (rs : list CandidateRanking) (n : nat) :
  match _generate_batch_summary rs n with
  | SummaryStats tp tc _ _ _ _ _ => tp = List.length rs /\ tc = n
  | SummaryError _ => rs = []
  end.
Proof. destruct rs; simpl; auto. Qed.

(** C3: the result counts every input path in [total_candidates]; the
    [total_processed] of the summary is the number of returned rankings,
    which never exceeds the number of documents that were extracted and
    embedded, so a failed document is not in it; and with a working index
    and embedding model, ten readable files and [top_n = 3] give exactly
    three rankings, ranked 1, 2, 3. *)
Theorem batch_counts (resume_paths : list string)
  (job_description : JobDescription) (top_n : Z) (s : index_state) :
  (forall result s',
     process_batch_resumes resume_paths job_description top_n s
       = Some (result, s') ->
     total_candidates result = List.length resume_paths /\
     (List.length (rankings result)
      <= List.length (succeeded (submit_all 0 resume_paths)))%nat /\
     (List.length (succeeded (submit_all 0 resume_paths))
      <= List.length resume_paths)%nat /\
     match analysis_summary result with
     | SummaryStats total_processed total_candidates _ _ _ _ _ =>
         total_processed = List.length (rankings result) /\
         total_candidates = List.length resume_paths
     | SummaryError _ => rankings result = []
     end) /\
  (ReliableIndex V -> ReliableEmbedding C ->
   (forall path, In path resume_paths -> load_pdf path <> None) ->
   List.length resume_paths = 10%nat -> top_n = 3%Z ->
   exists result s',
     process_batch_resumes resume_paths job_description top_n s
       = Some (result, s') /\
     map rank (rankings result) = [1; 2; 3]%nat /\
     exists average median highest lowest distribution,
       analysis_summary result
       = SummaryStats 3 10 average median highest lowest distribution).
Proof.
  split.
  - intros result s'. unfold process_batch_resumes.
    destruct (_index_resumes_in_vector_store _ s) as [s1 |] eqn:Hindex;
      [| discriminate].
    intros H. injection H as <- <-.
    cbn [total_candidates rankings analysis_summary].
    split; [reflexivity |]. split; [| split].
    + rewrite <- processed_count_succeeded.
      apply rank_candidates_length. intros q k hits.
      apply index_query_bound.
    + apply succeeded_le.
    + apply summary_counts.
  - intros RI RE Hload Hten ->.
    assert (Hne : resume_paths <> []) by (destruct resume_paths; easy).
    destruct (all_readable_indexed resume_paths s Hload Hne)
      as (s' & Hindex & Hentries).
    destruct (all_readable_collection resume_paths Hload) as [Hlen _].
    set (rc := _process_resume_batch resume_paths) in *.
    destruct (embedding_total (job_content job_description)) as (q & Hq & _).
    destruct (index_query_total q (List.length (resumes rc)) s')
      as (hits & Hquery & Hhits & Hdist); [lia |].
    pose proof (indexed_hits_resolve rc s s' Hindex) as Hres.
    pose proof (rank_candidates_count rc job_description 3 s' q hits
                  ltac:(lia) Hq Hquery Hdist (Hres _ _ _ Hquery)) as Hcount.
    destruct (rank_candidates_spec rc job_description 3 s' Hres)
      as (Hranks & _ & _).
    rewrite Hhits, Hentries, Hlen, Hten in Hcount. simpl in Hcount.
    rewrite Hcount in Hranks. simpl in Hranks.
    eexists. exists s'. split; [| split].
    + unfold process_batch_resumes. fold rc. rewrite Hindex. reflexivity.
    + exact Hranks.
    + cbn [analysis_summary].
      pose proof (summary_counts (_rank_candidates rc job_description 3 s')
                    (List.length resume_paths)) as Hsum.
      destruct (_generate_batch_summary _ _)
        as [msg | tp tc average median highest lowest distribution].
      * rewrite Hsum in Hcount. discriminate.
      * destruct Hsum as [-> ->]. rewrite Hcount, Hten.
        now exists average, median, highest, lowest, distribution.
Qed.

End CountFacts.

(** * The example environment satisfies the assumptions *)

Lemma example_collaborator_laws : CollaboratorLaws example_collaborators.
Proof.
  constructor. intros A l. simpl. symmetry. apply Permutation_rev.
Qed.

Lemma example_embedding_reliable : ReliableEmbedding example_collaborators.
Proof. constructor. intros text. simpl. eexists. split; [reflexivity | discriminate]. Qed.

Lemma example_index_laws : VectorIndexLaws example_index.
Proof.
  constructor; simpl.
  - intros s s' H. now injection H as <-.
  - intros docs embs metas ids s s' H.
    destruct (Nat.eqb_spec (List.length docs) (List.length ids));
      destruct (Nat.eqb_spec (List.length embs) (List.length ids));
      destruct (Nat.eqb_spec (List.length metas) (List.length ids));
      simpl in H; try discriminate.
    injection H as <-. repeat split; trivial.
  - intros q k s hits H h Hh.
    destruct (k =? 0)%nat; [discriminate |]. injection H as <-.
    apply In_firstn_inv in Hh. apply in_map_iff in Hh.
    destruct Hh as ([i e] & <- & Hin). apply in_combine_r in Hin.
    exists e. repeat split. exact Hin.
  - intros q k s hits H.
    destruct (k =? 0)%nat; [discriminate |]. injection H as <-.
    apply firstn_le_length.
Qed.

Lemma example_index_reliable : ReliableIndex example_index.
Proof.
  constructor; simpl.
  - discriminate.
  - intros docs embs metas ids s -> -> ->.
    rewrite Nat.eqb_refl. discriminate.
  - intros q k s Hk.
    destruct (Nat.eqb_spec k 0); [lia |].
    eexists. split; [reflexivity |]. split.
    + rewrite length_firstn, length_map, length_combine, length_seq. lia.
    + apply Forall_forall. intros h Hh.
      apply In_firstn_inv in Hh. apply in_map_iff in Hh.
      destruct Hh as ([i e] & <- & _). simpl. apply pos_INR.
Qed.

Lemma ten_paths_readable (path : string) :
  In path ten_paths -> load_pdf (Collaborators := example_collaborators) path <> None.
Proof.
  intros H. simpl in H.
  repeat (destruct H as [<- | H]; [discriminate |]). destruct H.
Qed.

(** * Runs of the example environment *)

Lemma batch_ranks_follow_query_witness :
  exists result s',
    process_batch_resumes (C := example_collaborators) (V := example_index)
      ten_paths example_job 4 [] = Some (result, s') /\
    map rank (rankings result) = seq 1 (List.length (rankings result)) /\
    (Z.of_nat (List.length (rankings result)) <= 4)%Z.
Proof.
  destruct (all_readable_indexed (CL := example_collaborator_laws)
              (VL := example_index_laws) (RI := example_index_reliable)
              (RE := example_embedding_reliable) ten_paths []
              ten_paths_readable ltac:(discriminate))
    as (s' & Hindex & _).
  destruct (process_batch_resumes (C := example_collaborators)
              (V := example_index) ten_paths example_job 4 [])
    as [[result s2] |] eqn:Hrun.
  - exists result, s2. split; [reflexivity |].
    destruct (batch_ranks_follow_query (VL := example_index_laws)
                ten_paths example_job 4 [] result s2 Hrun)
      as (Hranks & Hlen & _ & _).
    split; [exact Hranks | apply Hlen; lia].
  - exfalso. unfold process_batch_resumes in Hrun.
    rewrite Hindex in Hrun. discriminate.
Defined.

Lemma all_failed_batch_is_empty_witness :
  exists result,
    process_batch_resumes (C := example_collaborators) (V := example_index)
      missing_paths example_job 5 [] = Some (result, []) /\
    rankings result = [] /\
    total_candidates result = 2%nat /\
    analysis_summary result = SummaryError "No rankings generated".
Proof.
  apply (all_failed_batch_is_empty (C := example_collaborators)
           (V := example_index) (CL := example_collaborator_laws)
           missing_paths example_job 5
           (@nil IndexEntry : @index_state example_index)
           (@nil IndexEntry : @index_state example_index)).
  - intros k path [<- | [<- | []]]; reflexivity.
  - reflexivity.
Defined.

Lemma batch_counts_witness :
  exists result s',
    process_batch_resumes (C := example_collaborators) (V := example_index)
      ten_paths example_job 3 [] = Some (result, s') /\
    map rank (rankings result) = [1; 2; 3]%nat /\
    total_candidates result = 10%nat /\
    exists average median highest lowest distribution,
      analysis_summary result
      = SummaryStats 3 10 average median highest lowest distribution.
Proof.
  destruct (batch_counts (C := example_collaborators) (V := example_index)
              (CL := example_collaborator_laws)
              (VL := example_index_laws) ten_paths example_job 3
              (@nil IndexEntry : @index_state example_index))
    as [Hany Hten].
  destruct (Hten example_index_reliable example_embedding_reliable
              ten_paths_readable eq_refl eq_refl)
    as (result & s' & Hrun & Hranks & Hsummary).
  exists result, s'. split; [exact Hrun |]. split; [exact Hranks |].
  split; [| exact Hsummary].
  now destruct (Hany result s' Hrun) as [-> _].
Defined.

(** * Further properties: the transforms as maps of [0,1] *)

Lemma enhance_never_lowers_bounds (x : R) :
  0 <= x -> x <= 1 ->
  x <= _enhance_batch_score x /\ _enhance_batch_score x <= 1.
Proof.
  intros H0 H1. unfold _enhance_batch_score. repeat break_if; lra.
Qed.

(** X1: on [0,1] neither transform lowers a score or leaves [0,1], and
    both keep 1 at 1. *)
Theorem enhance_never_lowers (x : R) :
  0 <= x -> x <= 1 ->
  (x <= enhance_similarity_score x /\ enhance_similarity_score x <= 1) /\
  (x <= _enhance_batch_score x /\ _enhance_batch_score x <= 1) /\
  enhance_similarity_score 1 = 1 /\ _enhance_batch_score 1 = 1.
Proof.
  intros H0 H1. unfold enhance_similarity_score, _enhance_batch_score.
  repeat split; repeat break_if; lra.
Qed.

Lemma enhance_never_lowers_witness :
  (0.5 <= enhance_similarity_score 0.5 /\ enhance_similarity_score 0.5 <= 1) /\
  (0.5 <= _enhance_batch_score 0.5 /\ _enhance_batch_score 0.5 <= 1) /\
  enhance_similarity_score 1 = 1 /\ _enhance_batch_score 1 = 1.
Proof. apply (enhance_never_lowers 0.5); lra. Defined.

Lemma sqrt_above_unit (x : R) : 0 <= x -> x <= 1 -> x <= sqrt x.
Proof.
  intros H0 H1.
  pose proof (sqrt_pos x) as Hpos.
  pose proof (sqrt_sqrt x H0) as Hsq.
  pose proof (sqrt_le_1_alt x 1 H1) as Hle. rewrite sqrt_1 in Hle.
  nra.
Qed.

(** X2: the final boost raises [ValueError] (from the square root) on a
    negative total; on [0,1] it never lowers the total, and it maps 1 to
    1. *)
Theorem boost_never_lowers (x : R) :
  (x < 0 -> apply_final_score_boost x = None) /\
  (0 <= x -> x <= 1 ->
   exists b, apply_final_score_boost x = Some b /\ x <= b) /\
  apply_final_score_boost 1 = Some 1.
Proof.
  unfold apply_final_score_boost, math_sqrt. split; [| split].
  - intros H. destruct (Rlt_dec x 0); [reflexivity | lra].
  - intros H0 H1. destruct (Rlt_dec x 0); [lra |].
    eexists. split; [reflexivity |].
    pose proof (sqrt_above_unit x H0 H1).
    unfold Rmin. repeat break_if; lra.
  - destruct (Rlt_dec 1 0); [lra |]. rewrite sqrt_1. f_equal.
    unfold Rmin. repeat break_if; lra.
Qed.

Lemma boost_never_lowers_witness :
  apply_final_score_boost (-1) = None /\
  exists b, apply_final_score_boost 0.25 = Some b /\ 0.25 <= b.
Proof.
  split.
  - apply (boost_never_lowers (-1)). lra.
  - apply (boost_never_lowers 0.25); lra.
Defined.

(** * Further properties: normalisation and percentile rank *)

Lemma minimum_spec (l : list R) :
  forall x,
  Py.minimum x l <= x /\ Forall (fun y => Py.minimum x l <= y) l /\
  (Py.minimum x l = x \/ In (Py.minimum x l) l).
Proof.
  induction l as [| y l IH]; intros x; simpl.
  - repeat split; [lra | constructor | now left].
  - destruct (IH (Rmin x y)) as (Hle & Hall & Hin).
    pose proof (Rmin_l x y). pose proof (Rmin_r x y).
    repeat split.
    + lra.
    + constructor; [lra | exact Hall].
    + destruct Hin as [Heq | Hin]; [| right; now right].
      rewrite Heq. unfold Rmin. destruct (Rle_dec x y); [now left | right; now left].
Qed.

Lemma maximum_spec (l : list R) :
  forall x,
  x <= Py.maximum x l /\ Forall (fun y => y <= Py.maximum x l) l /\
  (Py.maximum x l = x \/ In (Py.maximum x l) l).
Proof.
  induction l as [| y l IH]; intros x; simpl.
  - repeat split; [lra | constructor | now left].
  - destruct (IH (Rmax x y)) as (Hle & Hall & Hin).
    pose proof (Rmax_l x y). pose proof (Rmax_r x y).
    repeat split.
    + lra.
    + constructor; [lra | exact Hall].
    + destruct Hin as [Heq | Hin]; [| right; now right].
      rewrite Heq. unfold Rmax. destruct (Rle_dec x y); [right; now left | now left].
Qed.

(** X3: normalisation keeps the length; the empty list and a single
    score come back unchanged (a single score is not brought into
    [0,1]); two or more equal scores all become 1.0. *)
Theorem normalize_scores_degenerate (scores : list R) (x : R) :
  List.length (normalize_scores scores) = List.length scores /\
  normalize_scores [] = [] /\
  normalize_scores [x] = [x] /\
  ((2 <= List.length scores)%nat -> Forall (fun s => s = x) scores ->
   normalize_scores scores = repeat 1 (List.length scores)).
Proof.
  split; [| split; [reflexivity | split; [reflexivity |]]].
  - unfold normalize_scores.
    destruct scores as [| a [| b l]]; try reflexivity.
    cbn [Py.nonempty negb orb List.length Nat.eqb].
    destruct (Req_dec_T _ _); [now rewrite repeat_length | now rewrite length_map].
  - intros Hlen Hall. unfold normalize_scores.
    destruct scores as [| a [| b l]]; simpl in Hlen; try lia.
    cbn [Py.nonempty negb orb List.length Nat.eqb].
    destruct (maximum_spec (b :: l) a) as (_ & _ & Hmax).
    destruct (minimum_spec (b :: l) a) as (_ & _ & Hmin).
    assert (Hx : forall y, y = a \/ In y (b :: l) -> y = x).
    { intros y [-> | Hy].
      - now inversion Hall.
      - inversion Hall as [| ? ? _ Hrest]; subst.
        now apply (proj1 (Forall_forall _ _) Hrest). }
    apply Hx in Hmax, Hmin.
    destruct (Req_dec_T _ _) as [_ | Hne]; [| congruence].
    f_equal. lra.
Qed.

Lemma normalize_scores_degenerate_witness :
  normalize_scores [5; 5; 5] = repeat 1 3.
Proof.
  apply (normalize_scores_degenerate [5; 5; 5] 5).
  - simpl. lia.
  - repeat constructor.
Defined.

(** X4: for two or more scores that are not all equal, normalisation
    maps every score [s] to [(s - lo) / (hi - lo)] with [lo] the
    smallest and [hi] the largest score: the results lie in [0,1], 0 and
    1 are both reached, and the order of the scores is kept. *)
Theorem normalize_scores_range (scores : list R) (a b : R) :
  In a scores -> In b scores -> a < b ->
  exists lo hi,
    In lo scores /\ In hi scores /\ lo < hi /\
    Forall (fun s => lo <= s <= hi) scores /\
    normalize_scores scores
      = map (fun s => (s - lo) / (hi - lo)) scores /\
    Forall (fun v => 0 <= v <= 1) (normalize_scores scores) /\
    In 0 (normalize_scores scores) /\ In 1 (normalize_scores scores) /\
    (forall s t, s <= t -> (s - lo) / (hi - lo) <= (t - lo) / (hi - lo)).
Proof.
  intros Ha Hb Hab. unfold normalize_scores.
  destruct scores as [| x [| y l]]; [destruct Ha | |].
  { destruct Ha as [<- | []]. destruct Hb as [<- | []]. lra. }
  cbn [Py.nonempty negb orb List.length Nat.eqb].
  set (rest := y :: l) in *.
  destruct (minimum_spec rest x) as (Hlx & Hlall & Hlin).
  destruct (maximum_spec rest x) as (Hhx & Hhall & Hhin).
  set (lo := Py.minimum x rest) in *. set (hi := Py.maximum x rest) in *.
  assert (Hbounds : Forall (fun s => lo <= s <= hi) (x :: rest)).
  { constructor; [lra |]. apply Forall_forall. intros s Hs.
    split; [exact (proj1 (Forall_forall _ _) Hlall s Hs)
           | exact (proj1 (Forall_forall _ _) Hhall s Hs)]. }
  assert (Hlohi : lo < hi).
  { pose proof (proj1 (Forall_forall _ _) Hbounds a Ha).
    pose proof (proj1 (Forall_forall _ _) Hbounds b Hb). lra. }
  assert (Hlo : In lo (x :: rest)).
  { destruct Hlin as [-> | H]; [now left | now right]. }
  assert (Hhi : In hi (x :: rest)).
  { destruct Hhin as [-> | H]; [now left | now right]. }
  destruct (Req_dec_T hi lo) as [Heq | _]; [lra |].
  exists lo, hi. split; [exact Hlo |]. split; [exact Hhi |].
  split; [exact Hlohi |]. split; [exact Hbounds |]. split; [reflexivity |].
  assert (Hmono : forall s t, s <= t ->
            (s - lo) / (hi - lo) <= (t - lo) / (hi - lo)).
  { intros s t Hst. unfold Rdiv. apply Rmult_le_compat_r; [| lra].
    left. apply Rinv_0_lt_compat. lra. }
  assert (H0 : (lo - lo) / (hi - lo) = 0) by (field; lra).
  assert (H1 : (hi - lo) / (hi - lo) = 1) by (field; lra).
  split; [| split; [| split; [| exact Hmono]]].
  - apply Forall_map. eapply Forall_impl; [| exact Hbounds].
    intros s [Hs1 Hs2]. cbv beta.
    pose proof (Hmono lo s Hs1). pose proof (Hmono s hi Hs2). lra.
  - apply in_map_iff. exists lo. split; [exact H0 | exact Hlo].
  - apply in_map_iff. exists hi. split; [exact H1 | exact Hhi].
Qed.

Lemma normalize_scores_range_witness :
  exists lo hi,
    In lo [2; 4; 3] /\ In hi [2; 4; 3] /\ lo < hi /\
    Forall (fun s => lo <= s <= hi) [2; 4; 3] /\
    normalize_scores [2; 4; 3]
      = map (fun s => (s - lo) / (hi - lo)) [2; 4; 3] /\
    Forall (fun v => 0 <= v <= 1) (normalize_scores [2; 4; 3]) /\
    In 0 (normalize_scores [2; 4; 3]) /\ In 1 (normalize_scores [2; 4; 3]) /\
    (forall s t, s <= t -> (s - lo) / (hi - lo) <= (t - lo) / (hi - lo)).
Proof.
  apply (normalize_scores_range [2; 4; 3] 2 4); simpl; try tauto. lra.
Defined.

Lemma count_le {A} (p : A -> bool) (l : list A) :
  (Py.count p l <= List.length l)%nat.
Proof. unfold Py.count. apply filter_length_le. Qed.

Lemma count_mono {A} (p q : A -> bool) (l : list A) :
  (forall x, p x = true -> q x = true) ->
  (Py.count p l <= Py.count q l)%nat.
Proof.
  intros Hpq. unfold Py.count. induction l as [| x l IH]; simpl; [lia |].
  destruct (p x) eqn:Hp.
  - rewrite (Hpq x Hp). simpl. lia.
  - destruct (q x); simpl; lia.
Qed.

Lemma count_all {A} (p : A -> bool) (l : list A) :
  Forall (fun x => p x = true) l -> Py.count p l = List.length l.
Proof.
  unfold Py.count. induction 1 as [| x l Hx _ IH]; simpl; [reflexivity |].
  rewrite Hx. simpl. now rewrite IH.
Qed.

Lemma count_none {A} (p : A -> bool) (l : list A) :
  Forall (fun x => p x = false) l -> Py.count p l = 0%nat.
Proof.
  unfold Py.count. induction 1 as [| x l Hx _ IH]; simpl; [reflexivity |].
  now rewrite Hx.
Qed.

(** X5: the percentile rank of a score is 0.0 in an empty population;
    otherwise it lies in [0,100], grows with the score, is 100 for a
    score that no member exceeds and 0 for a score below every member. *)
Theorem percentile_rank_range (score score' : R) (all_scores : list R) :
  calculate_percentile_rank score [] = 0 /\
  0 <= calculate_percentile_rank score all_scores <= 100 /\
  (score <= score' ->
   calculate_percentile_rank score all_scores
   <= calculate_percentile_rank score' all_scores) /\
  (all_scores <> [] -> Forall (fun s => s <= score) all_scores ->
   calculate_percentile_rank score all_scores = 100) /\
  (Forall (fun s => score < s) all_scores ->
   calculate_percentile_rank score all_scores = 0).
Proof.
  unfold calculate_percentile_rank.
  split; [simpl; lra |].
  destruct all_scores as [| x l]; [simpl; repeat split; try lra; congruence |].
  cbn [Py.nonempty negb].
  set (pop := x :: l).
  assert (Hn : 0 < INR (List.length pop)) by (apply lt_0_INR; simpl; lia).
  assert (Hdiv : forall c c' : nat, (c <= c')%nat ->
            INR c / INR (List.length pop) * 100
            <= INR c' / INR (List.length pop) * 100).
  { intros c c' Hc. apply le_INR in Hc. unfold Rdiv.
    apply Rmult_le_compat_r; [lra |].
    apply Rmult_le_compat_r; [| exact Hc].
    left. now apply Rinv_0_lt_compat. }
  assert (Hfull : INR (List.length pop) / INR (List.length pop) * 100 = 100)
    by (field; lra).
  assert (Hzero : INR 0 / INR (List.length pop) * 100 = 0)
    by (change (INR 0) with 0; unfold Rdiv; ring).
  split; [| split; [| split]].
  - split.
    + eapply Rle_trans; [right; symmetry; exact Hzero | apply Hdiv; lia].
    + eapply Rle_trans; [apply Hdiv, count_le | right; exact Hfull].
  - intros Hss. apply Hdiv. apply count_mono.
    intros s. repeat break_if; try reflexivity; try discriminate; lra.
  - intros _ Hall. rewrite count_all; [exact Hfull |].
    eapply Forall_impl; [| exact Hall]. intros s Hs. cbv beta.
    destruct (Rle_dec s score); [reflexivity | lra].
  - intros Hall. rewrite count_none; [exact Hzero |].
    eapply Forall_impl; [| exact Hall]. intros s Hs. cbv beta.
    destruct (Rle_dec s score); [lra | reflexivity].
Qed.

Lemma percentile_rank_range_witness :
  calculate_percentile_rank 1 [1; 2; 3]
  <= calculate_percentile_rank 2 [1; 2; 3] /\
  calculate_percentile_rank 3 [1; 2; 3] = 100 /\
  calculate_percentile_rank 0 [1; 2; 3] = 0.
Proof.
  destruct (percentile_rank_range 1 2 [1; 2; 3]) as (_ & _ & Hm & _ & _).
  destruct (percentile_rank_range 3 3 [1; 2; 3]) as (_ & _ & _ & Hf & _).
  destruct (percentile_rank_range 0 0 [1; 2; 3]) as (_ & _ & _ & _ & Hz).
  split; [apply Hm; lra |]. split.
  - apply Hf; [discriminate | repeat constructor; lra].
  - apply Hz. repeat constructor; lra.
Defined.

(** * Further properties: the weighted score *)

Section WeightedFacts.
Context {C : Collaborators}.

Lemma weighted_fold_weight_keys (job_embedding : list R) (weights : Py.dict R)
  (resume_sections : Py.dict (list R)) :
  forall acc k,
  In k (Py.keys (snd (fold_left (weighted_step job_embedding weights)
                                resume_sections acc))) ->
  In k (Py.keys (snd acc)) \/ In k (Py.keys weights).
Proof.
  induction resume_sections as [| [name e] l IH]; intros [total scores] k Hin.
  - now left.
  - simpl in Hin. apply IH in Hin. destruct Hin as [Hin | Hin]; [| now right].
    unfold weighted_step in Hin.
    destruct (Py.get weights name) eqn:Hw; [| now left].
    destruct (Py.nonempty e); [| now left].
    simpl in Hin. apply keys_set in Hin. destruct Hin as [-> | Hin]; [| now left].
    right. destruct (in_dec string_dec name (Py.keys weights)) as [Hy | Hn];
      [exact Hy |].
    apply get_None_iff in Hn. congruence.
Qed.

(** X6: whatever the cosine routine answers, the weighted score is a
    number in [0,1]; its per-section scores are kept only for sections
    that have both an embedding and a weight; and a negative weighted
    total (the square root raises) gives score 0.0 and no section scores
    at all. *)
Theorem weighted_similarity_score_range (job_embedding : list R)
  (resume_sections : Py.dict (list R)) (weights : Py.dict R) :
  let result :=
    weighted_similarity_score job_embedding resume_sections (Some weights) in
  0 <= fst result <= 1 /\
  (forall k, In k (Py.keys (snd result)) ->
     In k (Py.keys resume_sections) /\ In k (Py.keys weights)) /\
  (weighted_total job_embedding resume_sections weights < 0 ->
   result = (0, [])).
Proof.
  cbv zeta. split; [| split].
  - unfold weighted_similarity_score.
    destruct (fold_left (weighted_step job_embedding weights)
                resume_sections (0.0, [])) as [total scores].
    unfold apply_final_score_boost, math_sqrt.
    destruct (Rlt_dec total 0); [simpl; lra |].
    cbn [fst]. pose proof (sqrt_pos total).
    unfold Rmin. repeat break_if; lra.
  - intros k Hk. split.
    + now apply weighted_similarity_score_keys in Hk.
    + unfold weighted_similarity_score in Hk.
      pose proof (weighted_fold_weight_keys job_embedding weights
                    resume_sections (0.0, []) k) as H.
      destruct (fold_left (weighted_step job_embedding weights)
                  resume_sections (0.0, [])) as [total scores].
      destruct (apply_final_score_boost total); simpl in Hk; [| destruct Hk].
      destruct (H Hk) as [[] | Hw]. exact Hw.
  - unfold weighted_total, weighted_similarity_score.
    destruct (fold_left (weighted_step job_embedding weights)
                resume_sections (0.0, [])) as [total scores].
    cbn [fst]. intros Hneg.
    unfold apply_final_score_boost, math_sqrt.
    destruct (Rlt_dec total 0); [| lra]. f_equal. lra.
Qed.

End WeightedFacts.

(** A cosine routine that finds every section opposed to the job. *)
Lemma weighted_similarity_score_range_witness :
  weighted_similarity_score
    (C := with_cosine example_collaborators (fun _ _ => Some (-0.5)))
    [1; 0] [("skills", [0; 1])] (Some comprehensive_section_weights)
  = (0, []).
Proof.
  apply (weighted_similarity_score_range
           (C := with_cosine example_collaborators (fun _ _ => Some (-0.5)))
           [1; 0] [("skills", [0; 1])] comprehensive_section_weights).
  unfold weighted_total. cbn.
  unfold enhance_similarity_score. repeat break_if; lra.
Defined.

(** * Further properties: the batch score of one candidate *)

Section DetailedFacts.
Context {C : Collaborators}.

(** X7: in batch mode the overall score is the transformed query
    similarity alone; for a similarity in [0,1] it lies in [0,1], the
    confidence is the overall score plus 0.1 capped at 1, hence never
    below the score and within [0.1,1]; section scores exist only for
    sections that hold text. *)
Theorem detailed_score_bounds (job_desc : JobDescription)
  (resume_doc : ResumeDocument) (base_score : R) (score : SimilarityScore) :
  0 <= base_score -> base_score <= 1 ->
  _calculate_detailed_similarity_score job_desc resume_doc base_score
    = Some score ->
  overall_score score = _enhance_batch_score base_score /\
  0 <= overall_score score <= 1 /\
  confidence score = Rmin 1 (overall_score score + 0.1) /\
  overall_score score <= confidence score /\
  0.1 <= confidence score <= 1 /\
  reasoning score = _generate_positive_reasoning (overall_score score) [] /\
  (forall k, In k (Py.keys (section_scores score)) ->
     exists text, In (k, text) (sections resume_doc) /\
                  Py.truthy (Py.strip text) = true).
Proof.
  intros H0 H1 Hrun.
  unfold _calculate_detailed_similarity_score in Hrun.
  destruct (generate_single_embedding (job_content job_desc)) as [q |];
    [| discriminate].
  destruct (batch_section_scores q (sections resume_doc) []) as [scores |] eqn:Hs;
    [| discriminate].
  injection Hrun as <-. cbn [overall_score confidence reasoning section_scores].
  destruct (enhance_never_lowers_bounds base_score H0 H1) as [Hlo Hhi].
  split; [reflexivity |]. split; [lra |]. split; [f_equal; lra |].
  split; [unfold Rmin; break_if; lra |].
  split; [unfold Rmin; break_if; lra |].
  split; [reflexivity |].
  intros k Hk.
  destruct (enhance_sections_keys _ _ _ _ _ Hs Hk) as [[] | H]. exact H.
Qed.

End DetailedFacts.

Lemma detailed_score_bounds_witness :
  exists score,
    _calculate_detailed_similarity_score (C := example_collaborators)
      example_job plain_resume 0.5 = Some score /\
    0 <= overall_score score <= 1 /\
    overall_score score <= confidence score /\
    0.1 <= confidence score <= 1.
Proof.
  destruct (_calculate_detailed_similarity_score (C := example_collaborators)
              example_job plain_resume 0.5) as [score |] eqn:Hrun.
  - exists score. split; [reflexivity |].
    destruct (detailed_score_bounds (C := example_collaborators)
                example_job plain_resume 0.5 score
                ltac:(lra) ltac:(lra) Hrun)
      as (_ & Ho & _ & Hc & Hr & _).
    split; [exact Ho |]. split; [exact Hc | exact Hr].
  - exfalso. unfold _calculate_detailed_similarity_score in Hrun.
    simpl in Hrun. discriminate.
Defined.

(** * Further properties: the similarity search *)

Lemma similarities_below (d v : R) (ds vs : list R) :
  similarity_of_distance d = Some v -> 0 <= d ->
  Forall2 (fun d' v' => similarity_of_distance d' = Some v') ds vs ->
  Forall (Rle d) ds ->
  Forall (Rge v) vs.
Proof.
  intros Hdv Hd. induction 1 as [| d' v' ds vs Hdv' _ IH]; intros Hall.
  - constructor.
  - inversion Hall; subst. constructor; [| now apply IH].
    apply Rle_ge.
    now apply (similarity_of_distance_antitone d d' v v').
Qed.

Lemma similarities_sorted (ds vs : list R) :
  Forall2 (fun d v => similarity_of_distance d = Some v) ds vs ->
  Forall (fun d => 0 <= d) ds ->
  StronglySorted Rle ds ->
  StronglySorted Rge vs.
Proof.
  induction 1 as [| d v ds vs Hdv Hrest IH]; intros Hpos Hsorted.
  - constructor.
  - inversion Hpos as [| ? ? Hd Hpos']; subst.
    apply StronglySorted_inv in Hsorted. destruct Hsorted as [Hs Hall].
    constructor; [now apply IH |].
    now apply (similarities_below d v ds vs).
Qed.

Section SearchFacts.
Context {V : VectorIndex}.

(** X8: a similarity search that returns gives three lists of one
    length, one entry per answer of the index; for non-negative
    distances every score lies in (0,1], and distances in ascending
    order give scores in descending order. A failing query makes the
    search raise, and so does a distance of exactly -1 (division by
    zero). *)
Theorem similarity_search_scores (q : list R) (k : nat) (s : index_state) :
  (forall documents scores metadatas,
     similarity_search q k s = Some (documents, scores, metadatas) ->
     exists hits,
       index_query q k s = Some hits /\
       documents = map hit_document hits /\
       metadatas = map hit_metadata hits /\
       List.length scores = List.length hits /\
       (Forall (fun h => 0 <= hit_distance h) hits ->
        Forall (fun v => 0 < v <= 1) scores /\
        (StronglySorted Rle (map hit_distance hits) ->
         StronglySorted Rge scores))) /\
  (index_query q k s = None -> similarity_search q k s = None) /\
  (forall hits,
     index_query q k s = Some hits ->
     Exists (fun h => hit_distance h = -1) hits ->
     similarity_search q k s = None).
Proof.
  unfold similarity_search. split; [| split].
  - intros documents scores metadatas Hrun.
    destruct (index_query q k s) as [hits |]; [| discriminate].
    destruct (Py.traverse similarity_of_distance (map hit_distance hits))
      as [sims |] eqn:Hsims; [| discriminate].
    injection Hrun as <- <- <-.
    apply traverse_Forall2 in Hsims.
    exists hits. repeat split; trivial.
    + apply Forall2_length in Hsims. now rewrite length_map in Hsims.
    + apply Forall_map in H. clear - H Hsims.
      induction Hsims as [| d v ds vs Hdv _ IH]; [constructor |].
      inversion H; subst. constructor; [| now apply IH].
      unfold similarity_of_distance in Hdv.
      destruct (Req_dec_T (1 + d) 0); [discriminate |].
      injection Hdv as <-. split.
      * apply Rdiv_lt_0_compat; lra.
      * apply Rmult_le_reg_r with (1 + d); [lra |].
        unfold Rdiv. rewrite Rmult_assoc, Rinv_l by lra. lra.
    + intros Hsorted. apply similarities_sorted with (ds := map hit_distance hits);
        trivial. now apply Forall_map.
  - now intros ->.
  - intros hits -> Hex.
    destruct (Py.traverse similarity_of_distance (map hit_distance hits))
      as [sims |] eqn:Hsims; [| reflexivity].
    exfalso. apply traverse_Forall2 in Hsims.
    apply Exists_exists in Hex. destruct Hex as (h & Hh & Hd).
    apply (in_map hit_distance) in Hh.
    clear - Hsims Hh Hd.
    induction Hsims as [| d v ds vs Hdv _ IH]; [destruct Hh |].
    destruct Hh as [Heq | Hin]; [| now apply IH].
    unfold similarity_of_distance in Hdv.
    destruct (Req_dec_T (1 + d) 0); [discriminate | lra].
Qed.

End SearchFacts.

Lemma similarity_search_scores_witness :
  similarity_search (V := example_index) [1; 0] 0 [] = None.
Proof.
  apply (similarity_search_scores (V := example_index) [1; 0] 0
           (@nil IndexEntry : @index_state example_index)).
  reflexivity.
Defined.

(** * Further properties: the summary of a batch *)

Lemma sum_bounds (lo hi : R) (l : list R) :
  Forall (fun s => lo <= s <= hi) l ->
  INR (List.length l) * lo <= Py.sum l <= INR (List.length l) * hi.
Proof.
  induction 1 as [| x l [Hx1 Hx2] _ IH].
  - simpl. lra.
  - cbn [List.length]. rewrite S_INR. unfold Py.sum in *. simpl. lra.
Qed.

Lemma mean_bounds (lo hi : R) (l : list R) :
  l <> [] -> Forall (fun s => lo <= s <= hi) l ->
  lo <= Py.np_mean l <= hi.
Proof.
  intros Hne Hall. unfold Py.np_mean.
  assert (Hn : 0 < INR (List.length l)).
  { apply lt_0_INR. destruct l; [congruence | simpl; lia]. }
  destruct (sum_bounds lo hi l Hall) as [H1 H2].
  split.
  - apply Rmult_le_reg_l with (INR (List.length l)); [exact Hn |].
    unfold Rdiv. rewrite <- Rmult_assoc, Rinv_r_simpl_m by lra. exact H1.
  - apply Rmult_le_reg_l with (INR (List.length l)); [exact Hn |].
    unfold Rdiv. rewrite <- Rmult_assoc, Rinv_r_simpl_m by lra. exact H2.
Qed.

Lemma insert_sorted_spec (x : R) (l : list R) :
  List.length (Py.insert_sorted x l) = S (List.length l) /\
  forall y, In y (Py.insert_sorted x l) -> y = x \/ In y l.
Proof.
  induction l as [| z l [IHlen IHin]]; simpl.
  - split; [reflexivity | intros y [<- | []]; now left].
  - destruct (Rle_dec x z); simpl.
    + split; [reflexivity | intros y [<- | H]; [now left | now right]].
    + split; [now rewrite IHlen |].
      intros y [<- | H]; [right; now left |].
      destruct (IHin y H) as [-> | Hy]; [now left | right; now right].
Qed.

Lemma sorted_spec (l : list R) :
  List.length (Py.sorted l) = List.length l /\
  forall y, In y (Py.sorted l) -> In y l.
Proof.
  induction l as [| x l [IHlen IHin]]; simpl.
  - split; [reflexivity | trivial].
  - destruct (insert_sorted_spec x (Py.sorted l)) as [Hlen Hin].
    split; [now rewrite Hlen, IHlen |].
    intros y Hy. destruct (Hin y Hy) as [-> | H]; [now left | right; auto].
Qed.

Lemma median_bounds (lo hi : R) (l : list R) :
  l <> [] -> Forall (fun s => lo <= s <= hi) l ->
  lo <= Py.np_median l <= hi.
Proof.
  intros Hne Hall. unfold Py.np_median.
  destruct (sorted_spec l) as [Hlen Hin].
  assert (Hpos : (0 < List.length l)%nat)
    by (destruct l; [congruence | simpl; lia]).
  assert (Hnth : forall i, (i < List.length l)%nat ->
            lo <= nth i (Py.sorted l) 0 <= hi).
  { intros i Hi.
    apply (proj1 (Forall_forall _ _) Hall).
    apply Hin. apply nth_In. now rewrite Hlen. }
  assert (Hhalf : (List.length l / 2 < List.length l)%nat)
    by (apply Nat.div_lt; lia).
  destruct (Nat.even (List.length l)).
  - pose proof (Hnth (List.length l / 2 - 1)%nat ltac:(lia)).
    pose proof (Hnth (List.length l / 2)%nat Hhalf). lra.
  - now apply Hnth.
Qed.

Lemma buckets_partition (scores : list R) :
  (Py.count (fun s => if Rgt_dec s 0.8 then true else false) scores
   + (Py.count (fun s => if Rle_dec 0.65 s
                         then if Rle_dec s 0.8 then true else false
                         else false) scores
      + (Py.count (fun s => if Rle_dec 0.5 s
                            then if Rlt_dec s 0.65 then true else false
                            else false) scores
         + (Py.count (fun s => if Rlt_dec s 0.5 then true else false) scores
            + 0))))%nat
  = List.length scores.
Proof.
  unfold Py.count. induction scores as [| s l IH]; [reflexivity |].
  cbn [filter List.length].
  destruct (Rgt_dec s 0.8); destruct (Rle_dec 0.65 s); destruct (Rle_dec s 0.8);
    destruct (Rle_dec 0.5 s); destruct (Rlt_dec s 0.65);
    destruct (Rlt_dec s 0.5); try lra; cbn [List.length]; lia.
Qed.

(** X9: for a non-empty ranking list the summary counts the rankings,
    its four histogram buckets hold every score exactly once (their
    counts add up to [total_processed]), and mean and median lie
    between the smallest and the largest score, which bound every
    score. *)
Theorem batch_summary_consistent (rankings : list CandidateRanking)
  (total_candidates : nat) :
  rankings <> [] ->
  exists average median highest lowest distribution,
    _generate_batch_summary rankings total_candidates
    = SummaryStats (List.length rankings) total_candidates
        average median highest lowest distribution /\
    Py.keys distribution
    = ["excellent (>0.8)"; "good (0.6-0.8)"; "fair (0.4-0.6)"; "poor (<0.4)"] /\
    bucket_total distribution = List.length rankings /\
    lowest <= average <= highest /\
    lowest <= median <= highest /\
    Forall (fun r => lowest <= overall_score (similarity_score r) <= highest)
           rankings.
Proof.
  intros Hne. destruct rankings as [| first others]; [congruence |].
  unfold _generate_batch_summary.
  set (score_of := fun r => overall_score (similarity_score r)).
  set (scores := map (fun ranking => overall_score (similarity_score ranking))
                     (first :: others)).
  do 5 eexists. split; [reflexivity |]. split; [reflexivity |].
  destruct (minimum_spec (map score_of others) (score_of first))
    as (Hlx & Hlall & _).
  destruct (maximum_spec (map score_of others) (score_of first))
    as (Hhx & Hhall & _).
  assert (Hbounds : Forall (fun s => Py.minimum (score_of first) (map score_of others)
                                     <= s <=
                                     Py.maximum (score_of first) (map score_of others))
                      scores).
  { unfold scores. cbn [map]. constructor; [unfold score_of in *; lra |].
    apply Forall_forall. intros s Hs.
    split; [exact (proj1 (Forall_forall _ _) Hlall s Hs)
           | exact (proj1 (Forall_forall _ _) Hhall s Hs)]. }
  split; [| split; [| split]].
  - unfold bucket_total, Py.values. cbn [map snd fold_right].
    rewrite buckets_partition. unfold scores.
    cbn [map List.length]. now rewrite length_map.
  - apply mean_bounds; [discriminate | exact Hbounds].
  - apply median_bounds; [discriminate | exact Hbounds].
  - unfold scores in Hbounds. now apply Forall_map in Hbounds.
Qed.

Lemma batch_summary_consistent_witness :
  exists average median highest lowest distribution,
    _generate_batch_summary
      [mkCandidateRanking 1 "a" (Some "a") (score_with_overall 0.7) []] 4
    = SummaryStats 1 4 average median highest lowest distribution /\
    bucket_total distribution = 1%nat /\
    lowest <= average <= highest /\
    lowest <= median <= highest.
Proof.
  destruct (batch_summary_consistent
              [mkCandidateRanking 1 "a" (Some "a") (score_with_overall 0.7) []]
              4 ltac:(discriminate))
    as (average & median & highest & lowest & distribution
        & Hsum & _ & Hb & Ha & Hm & _).
  exists average, median, highest, lowest, distribution.
  split; [exact Hsum |]. split; [exact Hb |]. split; [exact Ha | exact Hm].
Defined.

(** * Further properties: strings *)

Lemma lstrip_length (s : string) :
  (String.length (Py.lstrip s) <= String.length s)%nat.
Proof.
  induction s as [| c r IH]; simpl; [lia |].
  destruct (Py.isspace c); simpl; lia.
Qed.

Lemma lstrip_fixed_head (c : ascii) (r : string) :
  Py.lstrip (String c r) = String c r -> Py.isspace c = false.
Proof.
  simpl. destruct (Py.isspace c); [| reflexivity].
  intros H. pose proof (lstrip_length r) as Hlen.
  rewrite H in Hlen. simpl in Hlen. lia.
Qed.

Lemma lstrip_idempotent (s : string) : Py.lstrip (Py.lstrip s) = Py.lstrip s.
Proof.
  induction s as [| c r IH]; simpl; [reflexivity |].
  destruct (Py.isspace c) eqn:Hc; [exact IH |].
  simpl. now rewrite Hc.
Qed.

Lemma rstrip_idempotent (s : string) : Py.rstrip (Py.rstrip s) = Py.rstrip s.
Proof.
  induction s as [| c r IH]; [reflexivity |].
  cbn [Py.rstrip]. destruct (Py.rstrip r) as [| d r'] eqn:Hr.
  - destruct (Py.isspace c) eqn:Hc; [reflexivity |].
    cbn [Py.rstrip]. now rewrite Hc.
  - cbn [Py.rstrip]. cbn [Py.rstrip] in IH.
    destruct (match Py.rstrip r' with
              | EmptyString =>
                  if Py.isspace d then EmptyString else String d EmptyString
              | String a s0 => String d (String a s0)
              end) eqn:Hin; [discriminate IH |].
    now rewrite IH.
Qed.

Lemma rstrip_keeps_head (c : ascii) (r : string) :
  Py.isspace c = false ->
  exists r', Py.rstrip (String c r) = String c r'.
Proof.
  intros Hc. cbn [Py.rstrip].
  destruct (Py.rstrip r); [rewrite Hc |]; eexists; reflexivity.
Qed.

Lemma strip_stripped (s : string) : stripped (Py.strip s).
Proof.
  unfold stripped, Py.strip. split; [| apply rstrip_idempotent].
  pose proof (lstrip_idempotent s) as Hl.
  destruct (Py.lstrip s) as [| c r]; [reflexivity |].
  apply lstrip_fixed_head in Hl.
  destruct (rstrip_keeps_head c r Hl) as [r' ->].
  simpl. now rewrite Hl.
Qed.

Lemma any_char_append (p : ascii -> bool) (a b : string) :
  Py.any_char p (String.append a b) = Py.any_char p a || Py.any_char p b.
Proof.
  induction a as [| c a IH]; simpl; [reflexivity |].
  now rewrite IH, orb_assoc.
Qed.

Lemma any_char_lstrip (p : ascii -> bool) (s : string) :
  Py.any_char p s = false -> Py.any_char p (Py.lstrip s) = false.
Proof.
  induction s as [| c r IH]; simpl; [trivial |].
  intros H. apply orb_false_iff in H. destruct H as [Hc Hr].
  destruct (Py.isspace c); [now apply IH |].
  simpl. now rewrite Hc, Hr.
Qed.

Lemma any_char_rstrip (p : ascii -> bool) (s : string) :
  Py.any_char p s = false -> Py.any_char p (Py.rstrip s) = false.
Proof.
  induction s as [| c r IH]; [trivial |].
  cbn [Py.any_char Py.rstrip]. intros H.
  apply orb_false_iff in H. destruct H as [Hc Hr]. specialize (IH Hr).
  destruct (Py.rstrip r) as [| d r'].
  - destruct (Py.isspace c); [reflexivity |]. simpl. now rewrite Hc.
  - cbn [Py.any_char] in *. now rewrite Hc, IH.
Qed.

Lemma any_char_strip (p : ascii -> bool) (s : string) :
  Py.any_char p s = false -> Py.any_char p (Py.strip s) = false.
Proof. intros H. unfold Py.strip. now apply any_char_rstrip, any_char_lstrip. Qed.

(** * Further properties: section extraction *)

Lemma subsequence_nil_l {A} (l : list A) : subsequence [] l.
Proof. induction l; constructor; assumption. Qed.

Lemma scan_lines_collected (patterns : list string) (content_lines : list string) :
  forall in_section acc,
  exists new,
    scan_lines patterns content_lines in_section acc = acc ++ new /\
    subsequence new content_lines /\
    Forall (fun line => Py.truthy (Py.strip line) = true /\
                        Py.any_in patterns (line_key line) = false) new.
Proof.
  induction content_lines as [| line rest IH]; intros in_section acc.
  - exists []. simpl. rewrite app_nil_r. repeat constructor.
  - cbn [scan_lines]. fold (line_key line).
    destruct (Py.any_in patterns (line_key line)) eqn:Hp.
    + destruct (IH true acc) as (new & -> & Hsub & Hall).
      exists new. repeat split; [now constructor | exact Hall].
    + destruct (in_section && Py.any_in common_sections (line_key line)
                && negb false).
      * exists []. rewrite app_nil_r.
        repeat split; [apply subsequence_nil_l | constructor].
      * destruct (in_section && Py.truthy (Py.strip line)) eqn:Hk.
        -- destruct (IH in_section (acc ++ [line])) as (new & -> & Hsub & Hall).
           exists (line :: new). rewrite <- app_assoc.
           repeat split; [now constructor |].
           constructor; [| exact Hall].
           apply andb_true_iff in Hk. now split.
        -- destruct (IH in_section acc) as (new & -> & Hsub & Hall).
           exists new. repeat split; [now constructor | exact Hall].
Qed.

(** X10: the text of an extracted section is made of lines of the
    input, in their order, each holding text and none holding a keyword
    of the section: heading lines never enter the section. *)
Theorem extracted_section_lines (content : string) (patterns : list string) :
  exists collected,
    _extract_section_by_patterns content patterns
      = Py.strip (Py.join Py.nl collected) /\
    subsequence collected (Py.split Py.newline content) /\
    Forall (fun line => Py.truthy (Py.strip line) = true /\
                        Py.any_in patterns (line_key line) = false)
           collected.
Proof.
  destruct (scan_lines_collected patterns (Py.split Py.newline content) false [])
    as (new & Hrun & Hsub & Hall).
  exists new. unfold _extract_section_by_patterns. now rewrite Hrun.
Qed.

Lemma scan_lines_stops (patterns : list string) (foreign : string)
  (after : list string) :
  Py.any_in patterns (line_key foreign) = false ->
  Py.any_in common_sections (line_key foreign) = true ->
  forall before in_section acc,
  in_section = true \/
  Exists (fun line => Py.any_in patterns (line_key line) = true) before ->
  scan_lines patterns (before ++ foreign :: after) in_section acc
  = scan_lines patterns before in_section acc.
Proof.
  intros Hfp Hfc. induction before as [| line rest IH]; intros in_section acc Hopen.
  - destruct Hopen as [-> | Hex]; [| inversion Hex].
    cbn [app scan_lines]. fold (line_key foreign). now rewrite Hfp, Hfc.
  - cbn [app scan_lines]. fold (line_key line).
    destruct (Py.any_in patterns (line_key line)) eqn:Hp.
    + apply IH. now left.
    + assert (Hopen' : in_section = true \/
                Exists (fun l => Py.any_in patterns (line_key l) = true) rest).
      { destruct Hopen as [-> | Hex]; [now left |].
        inversion Hex; subst; [congruence | now right]. }
      destruct (in_section && Py.any_in common_sections (line_key line)
                && negb false); [reflexivity |].
      destruct (in_section && Py.truthy (Py.strip line)); now apply IH.
Qed.

(** X11: once a section is open, the first line that names another
    section ends it for good: whatever follows that line, even a second
    heading of the section itself, never enters the section. *)
Theorem section_ends_at_foreign_heading (content : string)
  (patterns : list string) (before : list string) (foreign : string)
  (after : list string) :
  Py.split Py.newline content = before ++ foreign :: after ->
  Exists (fun line => Py.any_in patterns (line_key line) = true) before ->
  Py.any_in patterns (line_key foreign) = false ->
  Py.any_in common_sections (line_key foreign) = true ->
  _extract_section_by_patterns content patterns
  = Py.strip (Py.join Py.nl (scan_lines patterns before false [])).
Proof.
  intros Hsplit Hopen Hfp Hfc. unfold _extract_section_by_patterns.
  rewrite Hsplit. rewrite scan_lines_stops; trivial. now right.
Qed.

Lemma section_ends_at_foreign_heading_witness :
  _extract_section_by_patterns
    (String.append "Skills"
       (String.append Py.nl
          (String.append "Python"
             (String.append Py.nl
                (String.append "Projects"
                   (String.append Py.nl
                      (String.append "Skills"
                         (String.append Py.nl "Rocq"))))))))
    skills_patterns
  = Py.strip (Py.join Py.nl
                (scan_lines skills_patterns ["Skills"; "Python"] false [])).
Proof.
  apply (section_ends_at_foreign_heading _ skills_patterns
           ["Skills"; "Python"] "Projects" ["Skills"; "Rocq"]).
  - reflexivity.
  - constructor. reflexivity.
  - reflexivity.
  - reflexivity.
Defined.

(** X12: the skills, experience, education and summary texts of the
    extractor carry no white space at either end. *)
Theorem extracted_sections_stripped (content key text : string) :
  In key ["skills"; "experience"; "education"; "summary"] ->
  Py.get (extract_key_sections content) key = Some text ->
  stripped text.
Proof.
  rewrite extract_key_sections_eq. unfold _extract_section_by_patterns.
  intros Hkey. simpl in Hkey.
  destruct Hkey as [<- | [<- | [<- | [<- | []]]]]; simpl; intros H;
    injection H as <-; try apply strip_stripped.
  split; reflexivity.
Qed.

Lemma extracted_sections_stripped_witness :
  stripped "Python".
Proof.
  apply (extracted_sections_stripped two_heading_resume "skills" "Python").
  - simpl. tauto.
  - reflexivity.
Defined.

(** * Further properties: cleaning of extracted text *)

Lemma split_ws_cons (c : ascii) (r : string) :
  Py.split_ws (String c r) =
  if Py.isspace c then Py.split_ws r
  else match r with
       | EmptyString => [String c EmptyString]
       | String c' _ =>
           if Py.isspace c' then String c EmptyString :: Py.split_ws r
           else match Py.split_ws r with
                | w :: ws => String c w :: ws
                | [] => [String c EmptyString]
                end
       end.
Proof. destruct r; reflexivity. Qed.

(** The words of [split()] hold no white space, and nothing that the
    text did not hold. *)
Lemma split_ws_words (p : ascii -> bool) (s : string) :
  (forall c, Py.isspace c = false -> Py.any_char p (String c EmptyString) = false) ->
  Forall (fun w => Py.any_char Py.isspace w = false /\ Py.any_char p w = false)
         (Py.split_ws s).
Proof.
  intros Hp. induction s as [| c r IH]; [constructor |].
  rewrite split_ws_cons.
  destruct (Py.isspace c) eqn:Hc; [exact IH |].
  assert (Hone : Py.any_char Py.isspace (String c EmptyString) = false
                 /\ Py.any_char p (String c EmptyString) = false).
  { split; [simpl; now rewrite Hc | now apply Hp]. }
  destruct r as [| c' r']; [now constructor |].
  destruct (Py.isspace c'); [now constructor |].
  destruct (Py.split_ws (String c' r')) as [| w ws]; [now constructor |].
  inversion IH as [| ? ? [Hw1 Hw2] Hws]; subst.
  constructor; [| exact Hws].
  destruct Hone as [H1 H2]. simpl in *.
  apply orb_false_iff in H1, H2. destruct H1 as [H1 _]. destruct H2 as [H2 _].
  now rewrite H1, H2, Hw1, Hw2.
Qed.

Lemma any_char_join (p : ascii -> bool) (sep : string) (l : list string) :
  Py.any_char p sep = false ->
  Forall (fun w => Py.any_char p w = false) l ->
  Py.any_char p (Py.join sep l) = false.
Proof.
  intros Hsep. unfold Py.join. induction 1 as [| w l Hw Hl IH]; [reflexivity |].
  cbn [String.concat]. destruct l as [| w' l']; [exact Hw |].
  rewrite !any_char_append, Hw, Hsep. exact IH.
Qed.

Lemma any_char_remove (p : ascii -> bool) (c : ascii) (s : string) :
  Py.any_char p s = false -> Py.any_char p (Py.remove_char c s) = false.
Proof.
  induction s as [| a r IH]; simpl; [trivial |].
  intros H. apply orb_false_iff in H. destruct H as [Ha Hr].
  destruct (Ascii.eqb a c); [now apply IH |].
  simpl. now rewrite Ha, IH.
Qed.

Lemma any_char_removed (c : ascii) (s : string) :
  Py.any_char (fun a => Ascii.eqb a c) (Py.remove_char c s) = false.
Proof.
  induction s as [| a r IH]; simpl; [reflexivity |].
  destruct (Ascii.eqb a c) eqn:Ha; [exact IH |].
  simpl. now rewrite Ha.
Qed.

Lemma any_char_or (p q : ascii -> bool) (s : string) :
  Py.any_char p s = false -> Py.any_char q s = false ->
  Py.any_char (fun c => p c || q c) s = false.
Proof.
  induction s as [| a r IH]; simpl; [trivial |].
  intros Hp Hq. apply orb_false_iff in Hp, Hq.
  destruct Hp as [-> Hp], Hq as [-> Hq]. simpl. now apply IH.
Qed.

(** X13: cleaned text holds no NUL character and no white space other
    than the plain space (line breaks and tabs are gone), and carries no
    white space at either end. *)
Theorem clean_text_clean (text : string) :
  Py.any_char unclean_char (_clean_text text) = false /\
  stripped (_clean_text text).
Proof.
  split; [| apply strip_stripped].
  unfold _clean_text, unclean_char.
  apply any_char_strip, any_char_or.
  - apply any_char_removed.
  - apply any_char_remove, any_char_join; [reflexivity |].
    pose proof (split_ws_words
                  (fun c => Py.isspace c && negb (Ascii.eqb c " "%char)) text)
      as H.
    eapply Forall_impl; [| apply H].
    + intros w [_ Hw]. exact Hw.
    + intros c Hc. simpl. now rewrite Hc.
Qed.

(** * Further properties: requirements of a job description *)

(** X14: without a requirements section (or with an empty one) the
    stored requirement list is returned; otherwise the stored list is
    ignored and every requirement returned is a line of the section,
    free of white space at its ends and longer than ten characters. *)
Theorem extract_requirements_spec (self : JobDescription) :
  (job_get_section_content self "requirements" = EmptyString ->
   extract_requirements self = job_requirements self) /\
  (job_get_section_content self "requirements" <> EmptyString ->
   Forall (fun req =>
             stripped req /\ (10 < String.length req)%nat /\
             exists line,
               In line (Py.split Py.newline
                          (job_get_section_content self "requirements")) /\
               req = Py.strip line)
          (extract_requirements self)).
Proof.
  unfold extract_requirements. split.
  - now intros ->.
  - intros Hne.
    destruct (job_get_section_content self "requirements") as [| c r] eqn:Hs;
      [congruence |].
    cbn [Py.truthy]. apply Forall_forall. intros req Hreq.
    apply filter_In in Hreq. destruct Hreq as [Hin Hlen].
    apply in_map_iff in Hin. destruct Hin as (line & <- & Hline).
    apply filter_In in Hline. destruct Hline as [Hline _].
    split; [apply strip_stripped |]. split.
    + now apply Nat.ltb_lt in Hlen.
    + now exists line.
Qed.

Lemma extract_requirements_spec_witness :
  extract_requirements example_job = [] /\
  Forall (fun req => stripped req /\ (10 < String.length req)%nat)
    (extract_requirements
       (mkJobDescription "job-2" "Plumber" "text"
          [("requirements",
            String.append "  Ten years of plumbing  "
              (String.append Py.nl "Tidy"))] ["stored"])).
Proof.
  split.
  - apply (extract_requirements_spec example_job). reflexivity.
  - eapply Forall_impl;
      [| apply (extract_requirements_spec
                  (mkJobDescription "job-2" "Plumber" "text"
                     [("requirements",
                       String.append "  Ten years of plumbing  "
                         (String.append Py.nl "Tidy"))] ["stored"]));
         discriminate].
    intros req (Hs & Hl & _). now split.
Defined.

(** * Further properties: the name of a candidate *)

(** X15: a candidate name, when one is found, is one of the first five
    lines without the white space at its ends; it has two or three
    words and no digit. *)
Theorem extract_candidate_name_spec (content name : string) :
  _extract_candidate_name content = Some name ->
  (exists line, In line (firstn 5 (Py.split Py.newline content)) /\
                name = Py.strip line) /\
  stripped name /\
  (2 <= List.length (Py.split_ws name) <= 3)%nat /\
  Py.any_char Py.isdigit name = false.
Proof.
  unfold _extract_candidate_name. intros H.
  apply find_some in H. destruct H as [Hin Hlike].
  apply in_map_iff in Hin. destruct Hin as (line & <- & Hline).
  unfold name_like in Hlike.
  apply andb_true_iff in Hlike. destruct Hlike as [Habc Hde].
  apply andb_true_iff in Hde. destruct Hde as [Hd He].
  apply andb_true_iff in Habc. destruct Habc as [_ Hc].
  split; [now exists line |]. split; [apply strip_stripped |].
  split.
  - split; [now apply Nat.leb_le | now apply Nat.leb_le].
  - now apply negb_true_iff.
Qed.

Lemma extract_candidate_name_spec_witness :
  _extract_candidate_name
    (String.append "Curriculum Vitae 2024"
       (String.append Py.nl "  Jane Doe ")) = Some "Jane Doe" /\
  (2 <= List.length (Py.split_ws "Jane Doe") <= 3)%nat.
Proof.
  split; [reflexivity |].
  apply (extract_candidate_name_spec
           (String.append "Curriculum Vitae 2024"
              (String.append Py.nl "  Jane Doe ")) "Jane Doe").
  reflexivity.
Defined.

(** * Further properties: the display name of a file *)

Lemma split_none (sep : ascii) (s : string) :
  Py.any_char (fun c => Ascii.eqb c sep) s = false -> Py.split sep s = [s].
Proof.
  induction s as [| c r IH]; simpl; [reflexivity |].
  intros H. apply orb_false_iff in H. destruct H as [Hc Hr].
  rewrite Hc, (IH Hr). reflexivity.
Qed.

Lemma split_after (sep : ascii) (a b : string) :
  exists pre, pre <> [] /\
    Py.split sep (String.append a (String sep b)) = pre ++ Py.split sep b.
Proof.
  induction a as [| c a (pre & Hpre & IH)]; simpl.
  - rewrite Ascii.eqb_refl. exists [EmptyString]. split; [discriminate | reflexivity].
  - destruct (Ascii.eqb c sep).
    + exists (EmptyString :: pre). split; [discriminate |]. now rewrite IH.
    + rewrite IH. destruct pre as [| h t]; [congruence |].
      exists (String c h :: t). split; [discriminate | reflexivity].
Qed.

Lemma split_nonempty (sep : ascii) (s : string) : Py.split sep s <> [].
Proof.
  destruct s as [| c r]; simpl; [discriminate |].
  destruct (Ascii.eqb c sep); [discriminate |].
  destruct (Py.split sep r); discriminate.
Qed.

Lemma last_app_nonempty {A} (l1 l2 : list A) (d : A) :
  l2 <> [] -> last (l1 ++ l2) d = last l2 d.
Proof.
  intros Hne. induction l1 as [| x l1 IH]; [reflexivity |].
  simpl. destruct (l1 ++ l2) eqn:Happ; [| exact IH].
  apply app_eq_nil in Happ. destruct Happ. contradiction.
Qed.

Lemma basename_after_slash (dir name : string) :
  Py.any_char is_slash name = false ->
  Py.basename (String.append dir (String "/"%char name)) = name /\
  Py.basename name = name.
Proof.
  intros Hname. unfold Py.basename. split.
  - destruct (split_after "/"%char dir name) as (pre & _ & ->).
    rewrite last_app_nonempty by apply split_nonempty.
    now rewrite split_none.
  - now rewrite split_none.
Qed.

Lemma before_last_dot_none (s : string) :
  Py.any_char is_dot s = false -> Py.before_last_dot s = None.
Proof.
  induction s as [| c r IH]; simpl; [reflexivity |].
  intros H. apply orb_false_iff in H. destruct H as [Hc Hr].
  rewrite (IH Hr). unfold is_dot in Hc. now rewrite Hc.
Qed.

Lemma before_last_dot_ext (stem ext : string) :
  Py.any_char is_dot ext = false ->
  Py.before_last_dot (String.append stem (String "."%char ext)) = Some stem.
Proof.
  intros Hext. induction stem as [| c r IH]; simpl.
  - now rewrite before_last_dot_none.
  - now rewrite IH.
Qed.

(** X16: the display name of a file is its name without the directory
    and without the last extension; a name that is only dots before its
    last dot (a hidden file such as [.profile]) is kept whole, and so is
    a name without any dot. *)
Theorem exact_filename_spec (dir stem ext : string) :
  Py.any_char is_slash stem = false ->
  Py.any_char is_slash ext = false ->
  Py.any_char is_dot ext = false ->
  let name := String.append stem (String "."%char ext) in
  (Py.all_dots stem = false ->
   _get_exact_filename (String.append dir (String "/"%char name)) = stem /\
   _get_exact_filename name = stem) /\
  (Py.all_dots stem = true ->
   _get_exact_filename (String.append dir (String "/"%char name)) = name) /\
  _get_exact_filename (String.append dir (String "/"%char ext)) = ext.
Proof.
  intros Hstem Hext Hdot. cbv zeta.
  assert (Hname : Py.any_char is_slash (String.append stem (String "."%char ext))
                  = false).
  { rewrite any_char_append, Hstem. simpl. exact Hext. }
  destruct (basename_after_slash dir _ Hname) as [Hb1 Hb2].
  destruct (basename_after_slash dir ext Hext) as [Hb3 _].
  unfold _get_exact_filename. rewrite Hb1, Hb2, Hb3.
  unfold Py.splitext_root.
  rewrite before_last_dot_ext by exact Hdot.
  rewrite before_last_dot_none by exact Hdot.
  split; [| split].
  - intros ->. split; reflexivity.
  - intros ->. reflexivity.
  - reflexivity.
Qed.

Lemma exact_filename_spec_witness :
  _get_exact_filename "/tmp/uploads/jane.doe.pdf" = "jane.doe" /\
  _get_exact_filename "jane.doe.pdf" = "jane.doe" /\
  _get_exact_filename "/home/jane/.profile" = ".profile" /\
  _get_exact_filename "/tmp/uploads/resume" = "resume".
Proof.
  destruct (exact_filename_spec "/tmp/uploads" "jane.doe" "pdf"
              eq_refl eq_refl eq_refl) as (H1 & _ & _).
  destruct (exact_filename_spec "/home/jane" EmptyString "profile"
              eq_refl eq_refl eq_refl) as (_ & H2 & _).
  destruct (exact_filename_spec "/tmp/uploads" EmptyString "resume"
              eq_refl eq_refl eq_refl) as (_ & _ & H3).
  destruct (H1 eq_refl) as [Ha Hb].
  split; [exact Ha |]. split; [exact Hb |]. split; [exact (H2 eq_refl) | exact H3].
Defined.

(** * Further properties: matches, gaps and recommendations *)

Lemma filter_none {A} (f : A -> bool) (l : list A) :
  (forall x, In x l -> f x = false) -> filter f l = [].
Proof.
  induction l as [| x l IH]; simpl; [reflexivity |].
  intros H. rewrite (H x (or_introl eq_refl)). apply IH. auto.
Qed.

Lemma vocabulary_filter_spec {B} (g : string -> B) (f : string -> bool)
  (vocabulary : list string) (n : nat) :
  Forall (fun m => exists t, In t vocabulary /\ m = g t /\ f t = true)
         (firstn n (map g (filter f vocabulary))).
Proof.
  apply Forall_forall. intros m Hm.
  apply In_firstn_inv in Hm. apply in_map_iff in Hm.
  destruct Hm as (t & Heq & Ht). apply filter_In in Ht.
  exists t. split; [apply Ht |]. split; [now symmetry | apply Ht].
Qed.

Lemma vocabulary_filter_none {B} (g : string -> B) (f : string -> bool)
  (vocabulary : list string) (n : nat) :
  (forall t, f t = false) -> firstn n (map g (filter f vocabulary)) = [].
Proof.
  intros H. rewrite filter_none by auto. now destruct n.
Qed.

Lemma key_matches_length (resume_doc : ResumeDocument) (job_desc : JobDescription) :
  (List.length (_identify_key_matches resume_doc job_desc) <= 5)%nat.
Proof. unfold _identify_key_matches. apply firstn_le_length. Qed.

Lemma missing_skills_length (resume_doc : ResumeDocument) (job_desc : JobDescription) :
  (List.length (_identify_missing_skills resume_doc job_desc) <= 5)%nat.
Proof. unfold _identify_missing_skills. apply firstn_le_length. Qed.

(** X17: at most five key matches are reported; each names a term of
    the fixed vocabulary that occurs, whatever its case, in the job text
    and in the resume text; and exchanging the two texts gives the same
    matches. *)
Theorem key_matches_spec (resume_doc : ResumeDocument) (job_desc : JobDescription) :
  (List.length (_identify_key_matches resume_doc job_desc) <= 5)%nat /\
  Forall (fun m =>
            exists term,
              In term common_terms /\
              m = String.append "Relevant experience with " term /\
              Py.contains term (Py.lower (job_content job_desc)) = true /\
              Py.contains term (Py.lower (content resume_doc)) = true)
         (_identify_key_matches resume_doc job_desc) /\
  (forall resume_doc' job_desc',
     content resume_doc' = job_content job_desc ->
     job_content job_desc' = content resume_doc ->
     _identify_key_matches resume_doc' job_desc'
     = _identify_key_matches resume_doc job_desc).
Proof.
  split; [apply key_matches_length |]. split.
  - eapply Forall_impl;
      [| exact (vocabulary_filter_spec
                  (fun term => String.append "Relevant experience with " term)
                  (fun term =>
                     Py.contains term (Py.lower (job_content job_desc))
                     && Py.contains term (Py.lower (content resume_doc)))
                  common_terms 5)].
    intros m (term & Hin & Heq & Hboth). apply andb_true_iff in Hboth.
    destruct Hboth as [Hj Hr].
    exists term. split; [exact Hin |]. split; [exact Heq |].
    split; [exact Hj | exact Hr].
  - intros resume_doc' job_desc' H1 H2. unfold _identify_key_matches.
    rewrite H1, H2. do 2 f_equal. apply filter_ext.
    intros term. apply andb_comm.
Qed.

(** X18: at most five missing skills are reported; each is the
    title-cased form of a term of the skill vocabulary that occurs in
    the job text and not in the resume text; a resume whose text equals
    the job text, up to case, has none. *)
Theorem missing_skills_spec (resume_doc : ResumeDocument) (job_desc : JobDescription) :
  (List.length (_identify_missing_skills resume_doc job_desc) <= 5)%nat /\
  Forall (fun m =>
            exists skill,
              In skill potential_skills /\
              m = Py.title skill /\
              Py.contains skill (Py.lower (job_content job_desc)) = true /\
              Py.contains skill (Py.lower (content resume_doc)) = false)
         (_identify_missing_skills resume_doc job_desc) /\
  (Py.lower (content resume_doc) = Py.lower (job_content job_desc) ->
   _identify_missing_skills resume_doc job_desc = []).
Proof.
  split; [apply missing_skills_length |]. split.
  - eapply Forall_impl;
      [| exact (vocabulary_filter_spec Py.title
                  (fun skill =>
                     Py.contains skill (Py.lower (job_content job_desc))
                     && negb (Py.contains skill (Py.lower (content resume_doc))))
                  potential_skills 5)].
    intros m (skill & Hin & Heq & Hboth). apply andb_true_iff in Hboth.
    destruct Hboth as [Hj Hr]. apply negb_true_iff in Hr.
    exists skill. split; [exact Hin |]. split; [exact Heq |].
    split; [exact Hj | exact Hr].
  - intros Hsame.
    change (_identify_missing_skills resume_doc job_desc)
      with (firstn 5 (map Py.title
              (filter (fun skill =>
                         Py.contains skill (Py.lower (job_content job_desc))
                         && negb (Py.contains skill (Py.lower (content resume_doc))))
                      potential_skills))).
    apply vocabulary_filter_none. intros skill. rewrite Hsame.
    apply andb_negb_r.
Qed.

Lemma missing_skills_spec_witness :
  _identify_missing_skills
    (mkResumeDocument "r1" "a.pdf" "PYTHON and Docker" [] [] None)
    (mkJobDescription "j1" "Dev" "Python and docker" [] [])
  = [].
Proof.
  apply (proj2 (proj2 (missing_skills_spec
           (mkResumeDocument "r1" "a.pdf" "PYTHON and Docker" [] [] None)
           (mkJobDescription "j1" "Dev" "Python and docker" [] [])))).
  reflexivity.
Defined.

Lemma key_matches_spec_witness :
  _identify_key_matches
    (mkResumeDocument "r1" "a.pdf" "Python and docker" [] [] None)
    (mkJobDescription "j1" "Dev" "PYTHON, SQL" [] [])
  = _identify_key_matches
      (mkResumeDocument "r2" "b.pdf" "PYTHON, SQL" [] [] None)
      (mkJobDescription "j2" "Dev" "Python and docker" [] []).
Proof.
  apply (proj2 (proj2 (key_matches_spec
           (mkResumeDocument "r2" "b.pdf" "PYTHON, SQL" [] [] None)
           (mkJobDescription "j2" "Dev" "Python and docker" [] []))));
    reflexivity.
Defined.

Lemma length_grows {A} (b : bool) (l : list A) (x : A) :
  (List.length l <= List.length (if b then l ++ [x] else l))%nat.
Proof. destruct b; [rewrite length_app; simpl; lia | lia]. Qed.

Lemma recommendations_length (similarity_score : SimilarityScore)
  (missing_skills : list string) :
  (1 <= List.length (_generate_recommendations similarity_score missing_skills)
   <= 3)%nat.
Proof.
  unfold _generate_recommendations. cbv zeta.
  split; [| apply firstn_le_length].
  rewrite length_firstn.
  match goal with
  | |- (1 <= Nat.min 3 (List.length ?l))%nat =>
      enough (1 <= List.length l)%nat by lia
  end.
  set (r0 := if Rlt_dec (overall_score similarity_score) 0.6
             then ["Consider gaining more relevant experience in the required domain."]
             else []).
  set (r1 := if Py.nonempty missing_skills then r0 ++ _ else r0).
  set (r2 := if section_below _ "skills" 0.5 then r1 ++ _ else r1).
  set (r3 := if section_below _ "experience" 0.5 then r2 ++ _ else r2).
  assert (H01 : (List.length r0 <= List.length r1)%nat) by apply length_grows.
  assert (H12 : (List.length r1 <= List.length r2)%nat) by apply length_grows.
  assert (H23 : (List.length r2 <= List.length r3)%nat) by apply length_grows.
  assert (H0 : overall_score similarity_score < 0.6 -> (1 <= List.length r0)%nat).
  { intros Hlow. unfold r0.
    destruct (Rlt_dec (overall_score similarity_score) 0.6); [simpl; lia | lra]. }
  clearbody r0 r1 r2 r3.
  destruct (Rge_dec (overall_score similarity_score) 0.8).
  - rewrite length_app. simpl. lia.
  - destruct (Rge_dec (overall_score similarity_score) 0.6).
    + rewrite length_app. simpl. lia.
    + assert (overall_score similarity_score < 0.6) by lra.
      specialize (H0 H). lia.
Qed.

(** X19: every analysis carries at least one and at most three
    recommendations; below an overall score of 0.6 the first one is the
    advice to gain experience. *)
Theorem recommendations_spec (similarity_score : SimilarityScore)
  (missing_skills : list string) :
  (1 <= List.length (_generate_recommendations similarity_score missing_skills)
   <= 3)%nat /\
  (overall_score similarity_score < 0.6 ->
   hd_error (_generate_recommendations similarity_score missing_skills)
   = Some "Consider gaining more relevant experience in the required domain.").
Proof.
  split; [apply recommendations_length |].
  intros Hlow. unfold _generate_recommendations. cbv zeta.
  destruct (Rlt_dec (overall_score similarity_score) 0.6); [| lra].
  destruct (Rge_dec (overall_score similarity_score) 0.8); [lra |].
  destruct (Rge_dec (overall_score similarity_score) 0.6); [lra |].
  destruct (Py.nonempty missing_skills);
    destruct (section_below (section_scores similarity_score) "skills" 0.5);
    destruct (section_below (section_scores similarity_score) "experience" 0.5);
    reflexivity.
Qed.

Lemma recommendations_spec_witness :
  hd_error (_generate_recommendations (score_with_overall 0.3) ["Docker"])
  = Some "Consider gaining more relevant experience in the required domain.".
Proof.
  apply (recommendations_spec (score_with_overall 0.3) ["Docker"]).
  simpl. lra.
Defined.

Ltac pick_subsequence :=
  repeat first [ apply subsequence_nil
               | apply subsequence_keep
               | apply subsequence_skip ].

(** X20: a candidate gets at most three highlights, taken in the fixed
    order experience, education, skills, long resume; when the first
    three all apply, the bonus for a long resume is never shown. *)
Theorem candidate_highlights_spec (resume_doc : ResumeDocument)
  (job_desc : JobDescription) :
  let highlights := _generate_candidate_highlights resume_doc job_desc in
  (List.length highlights <= 3)%nat /\
  subsequence highlights
    ["Demonstrated work experience"; "Relevant educational background";
     "Technical skills listed";
     "Comprehensive resume with detailed experience"] /\
  (Py.contains "year" (Py.lower (content resume_doc)) = true ->
   has_section resume_doc "education" = true ->
   has_section resume_doc "skills" = true ->
   highlights
   = ["Demonstrated work experience"; "Relevant educational background";
      "Technical skills listed"]).
Proof.
  cbv zeta. unfold _generate_candidate_highlights.
  split; [apply firstn_le_length |].
  destruct (Py.contains "year" (Py.lower (content resume_doc)));
    destruct (has_section resume_doc "education");
    destruct (has_section resume_doc "skills");
    destruct (2000 <? String.length (content resume_doc))%nat;
    cbn [app firstn];
    (split; [pick_subsequence |]);
    intros; try discriminate; reflexivity.
Qed.

Lemma candidate_highlights_spec_witness :
  _generate_candidate_highlights
    (mkResumeDocument "r1" "a.pdf" "Ten years"
       [("skills", "Python"); ("education", "BSc")] [] None)
    example_job
  = ["Demonstrated work experience"; "Relevant educational background";
     "Technical skills listed"].
Proof.
  apply (proj2 (proj2 (candidate_highlights_spec
           (mkResumeDocument "r1" "a.pdf" "Ten years"
              [("skills", "Python"); ("education", "BSc")] [] None)
           example_job))); reflexivity.
Defined.

(** * Further properties: the analysis of one resume *)

Lemma confidence_in_range (section_scores : Py.dict R)
  (resume_doc : ResumeDocument) :
  0.1 <= _calculate_confidence section_scores resume_doc <= 1.
Proof.
  unfold _calculate_confidence. cbv zeta.
  unfold Rmin, Rmax. repeat break_if; lra.
Qed.

Section SingleRunFacts.
Context {C : Collaborators}.

Lemma weighted_score_unit (q : list R) (embs : Py.dict (list R))
  (weights : option (Py.dict R)) :
  0 <= fst (weighted_similarity_score q embs weights) <= 1.
Proof.
  unfold weighted_similarity_score.
  set (w := match weights with None => _ | Some w0 => w0 end).
  destruct (fold_left (weighted_step q w) embs (0.0, [])) as [total scores].
  unfold apply_final_score_boost, math_sqrt.
  destruct (Rlt_dec total 0); [simpl; lra |].
  cbn [fst]. pose proof (sqrt_pos total).
  unfold Rmin. repeat break_if; lra.
Qed.

Lemma weighted_score_weight_keys (q : list R) (embs : Py.dict (list R))
  (weights : Py.dict R) (k : string) :
  In k (Py.keys (snd (weighted_similarity_score q embs (Some weights)))) ->
  In k (Py.keys weights).
Proof.
  unfold weighted_similarity_score. intros Hk.
  pose proof (weighted_fold_weight_keys q weights embs (0.0, []) k) as H.
  destruct (fold_left (weighted_step q weights) embs (0.0, []))
    as [total scores].
  destruct (apply_final_score_boost total); simpl in Hk; [| destruct Hk].
  destruct (H Hk) as [[] | Hw]. exact Hw.
Qed.

Lemma embed_sections_total {RE : ReliableEmbedding C} (items : Py.dict string) :
  forall acc, exists embs, embed_sections items acc = Some embs.
Proof.
  induction items as [| [name text] items IH]; intros acc; simpl.
  - now eexists.
  - destruct (Py.truthy (Py.strip text)); [| apply IH].
    destruct (embedding_total text) as (e & -> & _). apply IH.
Qed.

(** X21: the analysis of one resume aborts when the file cannot be read
    or the job text cannot be embedded; a result, when there is one,
    has an overall score in [0,1], a confidence in [0.1,1], section
    scores for skills, experience, full_content and education only, at
    most five matches, at most five missing skills and one to three
    recommendations; with a working embedding model every readable file
    gets a result. *)
Theorem analyze_single_resume_spec (resume_path : string)
  (job_description : JobDescription) :
  (load_pdf resume_path = None ->
   analyze_single_resume resume_path job_description = None) /\
  (generate_single_embedding (job_content job_description) = None ->
   analyze_single_resume resume_path job_description = None) /\
  (forall result,
     analyze_single_resume resume_path job_description = Some result ->
     let score := single_similarity_score result in
     0 <= overall_score score <= 1 /\
     0.1 <= confidence score <= 1 /\
     (forall k, In k (Py.keys (section_scores score)) ->
        In k ["skills"; "experience"; "full_content"; "education"]) /\
     (List.length (key_matches result) <= 5)%nat /\
     (List.length (missing_skills result) <= 5)%nat /\
     (1 <= List.length (recommendations result) <= 3)%nat /\
     single_job_description_id result = job_id job_description) /\
  (ReliableEmbedding C -> load_pdf resume_path <> None ->
   exists result,
     analyze_single_resume resume_path job_description = Some result).
Proof.
  unfold analyze_single_resume, analyze_single_resume_score,
    _process_resume_file, _calculate_comprehensive_similarity.
  split; [| split; [| split]].
  - now intros ->.
  - intros Hjob. destruct (load_pdf resume_path); [| reflexivity].
    destruct (_generate_section_embeddings _); [| reflexivity].
    now rewrite Hjob.
  - intros result Hrun.
    destruct (load_pdf resume_path) as [pages |]; [| discriminate].
    destruct (_generate_section_embeddings _) as [embs |]; [| discriminate].
    destruct (generate_single_embedding (job_content job_description))
      as [q |]; [| discriminate].
    pose proof (weighted_score_unit q embs (Some comprehensive_section_weights))
      as Hunit.
    pose proof (weighted_score_weight_keys q embs comprehensive_section_weights)
      as Hkeys.
    destruct (weighted_similarity_score q embs _) as [overall scores].
    injection Hrun as <-. cbv zeta.
    cbn [single_similarity_score overall_score confidence section_scores
         key_matches missing_skills recommendations single_job_description_id].
    split; [exact Hunit |]. split; [apply confidence_in_range |].
    split; [exact Hkeys |]. split; [apply key_matches_length |].
    split; [apply missing_skills_length |].
    split; [apply recommendations_length | reflexivity].
  - intros RE Hload.
    destruct (load_pdf resume_path) as [pages |]; [| contradiction].
    unfold _generate_section_embeddings. cbn [sections].
    destruct (embed_sections_total
                (extract_key_sections (Py.join Py.nl pages)) [])
      as [embs ->].
    destruct (embedding_total (job_content job_description)) as (q & -> & _).
    destruct (weighted_similarity_score q embs _) as [overall scores].
    eexists. reflexivity.
Qed.

End SingleRunFacts.

Lemma analyze_single_resume_spec_witness :
  analyze_single_resume (C := example_collaborators) "missing.pdf" example_job
    = None /\
  exists result,
    analyze_single_resume (C := example_collaborators) "a.pdf" example_job
      = Some result /\
    0 <= overall_score (single_similarity_score result) <= 1 /\
    (1 <= List.length (recommendations result) <= 3)%nat.
Proof.
  split.
  - apply (proj1 (analyze_single_resume_spec (C := example_collaborators)
                    "missing.pdf" example_job)). reflexivity.
  - destruct (analyze_single_resume_spec (C := example_collaborators)
                "a.pdf" example_job) as (_ & _ & Hres & Htotal).
    destruct (Htotal example_embedding_reliable ltac:(discriminate))
      as [result Hrun].
    exists result. split; [exact Hrun |].
    destruct (Hres result Hrun) as (Ho & _ & _ & _ & _ & Hr & _).
    split; [exact Ho | exact Hr].
Defined.

(** * Further properties: the collection and the ranking list *)

Lemma find_snoc {A} (f : A -> bool) (l : list A) (x : A) :
  find f (l ++ [x]) =
  match find f l with
  | Some y => Some y
  | None => if f x then Some x else None
  end.
Proof.
  induction l as [| y l IH]; simpl; [reflexivity |].
  destruct (f y); [reflexivity | exact IH].
Qed.

(** X22: a resume found by identifier has that identifier and belongs
    to the collection; adding a resume raises the count by one, leaves
    every identifier already present bound to the earlier resume (an
    added duplicate is never found), and makes a new identifier
    resolve to the added resume; the identifier [None] finds nothing. *)
Theorem collection_lookup (self : ResumeCollection) (resume : ResumeDocument)
  (i : string) :
  get_resume_count (add_resume self resume) = S (get_resume_count self) /\
  get_resume_by_id (add_resume self resume) (Some i)
  = match get_resume_by_id self (Some i) with
    | Some found => Some found
    | None => if String.eqb (id resume) i then Some resume else None
    end /\
  (forall found,
     get_resume_by_id self (Some i) = Some found ->
     id found = i /\ In found (resumes self)) /\
  get_resume_by_id self None = None.
Proof.
  split; [| split; [| split]].
  - unfold get_resume_count, add_resume. cbn [resumes].
    rewrite length_app. simpl. lia.
  - unfold get_resume_by_id, add_resume. cbn [resumes].
    exact (find_snoc (fun r => String.eqb (id r) i) (resumes self) resume).
  - intros found H. unfold get_resume_by_id in H.
    apply find_some in H. destruct H as [Hin Heq].
    split; [now apply String.eqb_eq | exact Hin].
  - reflexivity.
Qed.

(** X23: the top candidates of a result are a leading part of its
    ranking list: the first [n] rankings for [n >= 0], the whole list
    when [n] is at least its length, and for a negative [n] the list
    without its last [-n] rankings; ranks that run 1, 2, ... in the
    list still do so in the part. *)
Theorem top_candidates_spec (self : BatchAnalysisResult) (n : Z) :
  let top := get_top_candidates self n in
  let len := List.length (rankings self) in
  (exists m, top = firstn m (rankings self)) /\
  ((0 <= n)%Z -> List.length top = Nat.min (Z.to_nat n) len) /\
  ((Z.of_nat len <= n)%Z -> top = rankings self) /\
  ((n < 0)%Z -> List.length top = (len - Z.to_nat (- n))%nat) /\
  (map rank (rankings self) = seq 1 len ->
   map rank top = seq 1 (List.length top)).
Proof.
  cbv zeta. unfold get_top_candidates.
  set (rs := rankings self).
  destruct (slice_to_prefix rs (Z.min n (Z.of_nat (List.length rs))))
    as (m & Hm & Hpos).
  split; [now exists m |]. split; [| split; [| split]].
  - intros Hn. rewrite Hm, length_firstn, Hpos by lia. lia.
  - intros Hn. rewrite Hm, Hpos by lia.
    apply firstn_all2. lia.
  - intros Hn. unfold Py.slice_to.
    destruct (Z.leb_spec 0 (Z.min n (Z.of_nat (List.length rs)))); [lia |].
    rewrite length_firstn. rewrite Z.min_l by lia. lia.
  - intros Hranks. rewrite Hm, <- firstn_map, Hranks, firstn_seq_prefix.
    now rewrite length_firstn.
Qed.

(** * Further properties: rebuilding the index *)

Lemma entries_of_lists (ids docs : list string) (embs : list (list R))
  (metas : list (Py.dict string)) :
  List.length docs = List.length ids ->
  List.length embs = List.length ids ->
  List.length metas = List.length ids ->
  let entries :=
    map (fun x => let '(i, (d, (e, m))) := x in mkIndexEntry i d e m)
        (combine ids (combine docs (combine embs metas))) in
  map entry_id entries = ids /\
  map entry_document entries = docs /\
  map entry_metadata entries = metas.
Proof.
  revert docs embs metas.
  induction ids as [| i ids IH]; intros [| d docs] [| e embs] [| m metas];
    simpl; intros H1 H2 H3; try discriminate; [repeat split |].
  destruct (IH docs embs metas) as (Hi & Hd & Hm); try congruence.
  cbv zeta in *. now rewrite Hi, Hd, Hm.
Qed.

Lemma str_prefix_length (n : nat) (s : string) :
  (String.length (Py.str_prefix n s) <= n)%nat.
Proof.
  unfold Py.str_prefix. revert s.
  induction n as [| n IH]; intros [| c s]; simpl; try lia.
  specialize (IH s). lia.
Qed.

Section ReindexFacts.
Context {C : Collaborators} {V : VectorIndex} {VL : VectorIndexLaws V}.

(** X24: whatever the index held before, after a successful indexing
    it holds exactly the resumes of this collection that carry an
    embedding, in their order, each with its text and its metadata;
    when anything was stored, every resume of the collection carried an
    embedding; and the section texts kept in the metadata are cut to
    500 characters. *)
Theorem reindex_replaces (rc : ResumeCollection) (s s' : index_state) :
  _index_resumes_in_vector_store rc s = Some s' ->
  map entry_metadata (index_entries s')
    = map index_metadata (filter has_embedding (resumes rc)) /\
  map entry_document (index_entries s')
    = map content (filter has_embedding (resumes rc)) /\
  (index_entries s' <> [] ->
   map entry_id (index_entries s') = map id (resumes rc) /\
   Forall (fun r => has_embedding r = true) (resumes rc)) /\
  Forall (fun m =>
            Py.get m "resume_id" <> None /\
            forall key,
              In key ["skills"; "experience"; "education"; "summary"] ->
              exists text, Py.get m key = Some text /\
                           (String.length text <= 500)%nat)
         (map entry_metadata (index_entries s')).
Proof.
  unfold _index_resumes_in_vector_store, clear_collection, add_documents.
  destruct (index_clear s) as [s1 |] eqn:Hclear; [| discriminate].
  apply index_clear_spec in Hclear.
  assert (Hmeta : Forall (fun m =>
            Py.get m "resume_id" <> None /\
            forall key,
              In key ["skills"; "experience"; "education"; "summary"] ->
              exists text, Py.get m key = Some text /\
                           (String.length text <= 500)%nat)
            (map index_metadata (filter has_embedding (resumes rc)))).
  { apply Forall_map. apply Forall_forall. intros r _.
    split; [discriminate |]. intros key Hkey. simpl in Hkey.
    destruct Hkey as [<- | [<- | [<- | [<- | []]]]];
      eexists; (split; [reflexivity | apply str_prefix_length]). }
  destruct (Py.nonempty (index_documents rc)) eqn:Hdocs.
  - destruct (index_add _ _ _ _ s1) as [s2 |] eqn:Hadd; [| discriminate].
    intros H. injection H as <-.
    apply index_add_spec in Hadd.
    destruct Hadd as (H1 & H2 & H3 & Hentries).
    destruct (entries_of_lists _ _ _ _ H1 H2 H3) as (Hi & Hd & Hm).
    cbv zeta in Hi, Hd, Hm.
    rewrite Hentries, Hclear. cbn [app]. rewrite Hi, Hd, Hm.
    split; [reflexivity |]. split; [reflexivity |].
    split; [| exact Hmeta].
    intros _. split; [reflexivity |].
    unfold index_documents, index_ids in H1. rewrite !length_map in H1.
    apply filter_length_forallb in H1.
    apply Forall_forall. now apply forallb_forall.
  - intros H. injection H as <-. rewrite Hclear.
    unfold index_documents in Hdocs.
    destruct (filter has_embedding (resumes rc)); [| discriminate].
    split; [reflexivity |]. split; [reflexivity |].
    split; [intros Hne; congruence | constructor].
Qed.

End ReindexFacts.

Lemma reindex_replaces_witness :
  map entry_document (index_entries (VectorIndex := example_index) stale_index)
    = ["old text"; "t"] /\
  exists s',
    _index_resumes_in_vector_store (V := example_index)
      (mkResumeCollection [embedded_resume] 1 1) stale_index = Some s' /\
    map entry_document (index_entries (VectorIndex := example_index) s')
      = ["Ten years of plumbing"] /\
    map entry_id (index_entries (VectorIndex := example_index) s') = ["r1"].
Proof.
  split; [reflexivity |].
  destruct (_index_resumes_in_vector_store (V := example_index)
              (mkResumeCollection [embedded_resume] 1 1) stale_index)
    as [s' |] eqn:Hrun; [| discriminate Hrun].
  exists s'. split; [reflexivity |].
  destruct (reindex_replaces (VL := example_index_laws)
              (mkResumeCollection [embedded_resume] 1 1) stale_index s' Hrun)
    as (_ & Hdocs & Hids & _).
  split; [exact Hdocs |].
  apply Hids. intros Hempty. rewrite Hempty in Hdocs. discriminate Hdocs.
Defined.

(** * Further properties: what makes a batch fail *)

Section BatchFailureFacts.
Context {C : Collaborators} {V : VectorIndex}.

(** X25: a batch run raises exactly when the rebuilding of the index
    raises (for one, when the index cannot be cleared); a job text that
    cannot be embedded does not abort the run: it returns without
    rankings and with the error summary; every returned result carries
    the identifier of the job, the requested [top_n] and the number of
    input paths. *)
Theorem batch_failure_modes (resume_paths : list string)
  (job_description : JobDescription) (top_n : Z) (s : index_state) :
  (process_batch_resumes resume_paths job_description top_n s = None <->
   _index_resumes_in_vector_store (_process_resume_batch resume_paths) s
   = None) /\
  (index_clear s = None ->
   process_batch_resumes resume_paths job_description top_n s = None) /\
  (forall result s',
     process_batch_resumes resume_paths job_description top_n s
       = Some (result, s') ->
     job_description_id result = job_id job_description /\
     top_n_requested result = top_n /\
     total_candidates result = List.length resume_paths /\
     (generate_single_embedding (job_content job_description) = None ->
      rankings result = [] /\
      analysis_summary result = SummaryError "No rankings generated")).
Proof.
  unfold process_batch_resumes. split; [| split].
  - destruct (_index_resumes_in_vector_store _ s); split;
      intros H; try discriminate; reflexivity.
  - intros Hclear. unfold _index_resumes_in_vector_store, clear_collection.
    now rewrite Hclear.
  - intros result s' Hrun.
    destruct (_index_resumes_in_vector_store _ s) as [s1 |]; [| discriminate].
    injection Hrun as <- <-.
    cbn [job_description_id top_n_requested total_candidates rankings
         analysis_summary].
    repeat split.
    + unfold _rank_candidates, rank_candidates_body. now rewrite H.
    + unfold _rank_candidates, rank_candidates_body. now rewrite H.
Qed.

End BatchFailureFacts.

Lemma batch_failure_modes_witness :
  exists result s',
    process_batch_resumes (C := refusing_collaborators) (V := example_index)
      ten_paths example_job 3 [] = Some (result, s') /\
    rankings result = [] /\ total_candidates result = 10%nat.
Proof.
  destruct (process_batch_resumes (C := refusing_collaborators)
              (V := example_index) ten_paths example_job 3 [])
    as [[result s'] |] eqn:Hrun.
  - exists result, s'. split; [reflexivity |].
    destruct (batch_failure_modes (C := refusing_collaborators)
                (V := example_index) ten_paths example_job 3
                (@nil IndexEntry : @index_state example_index))
      as (_ & _ & H).
    destruct (H result s' Hrun) as (_ & _ & Hn & Hjob).
    split; [apply Hjob; reflexivity | exact Hn].
  - exfalso.
    apply (proj1 (batch_failure_modes (C := refusing_collaborators)
                    (V := example_index) ten_paths example_job 3
                    (@nil IndexEntry : @index_state example_index))) in Hrun.
    discriminate Hrun.
Defined.

(** * Further properties: the collection of a batch *)

Lemma collect_In (l : list (string * option ResumeDocument)) (r : ResumeDocument) :
  In r (collect l) -> exists p, In (p, Some r) l.
Proof.
  induction l as [| [p [d |]] l IH]; simpl; [tauto | |].
  - intros [<- | H]; [exists p; now left |].
    destruct (IH H) as [p' Hp]. exists p'. now right.
  - intros H. destruct (IH H) as [p' Hp]. exists p'. now right.
Qed.

Section CollectionFacts.
Context {C : Collaborators} {CL : CollaboratorLaws C}.

Lemma submit_all_In (paths : list string) :
  forall k p o,
  In (p, o) (submit_all k paths) ->
  In p paths /\ exists k', o = _process_single_resume k' p.
Proof.
  induction paths as [| path paths IH]; intros k p o; simpl; [tauto |].
  intros [H | H].
  - injection H as <- <-. split; [now left | now exists k].
  - destruct (IH _ _ _ H) as [Hin Hk]. split; [now right | exact Hk].
Qed.

(** X26: the collection of a batch records the number of input paths
    and the number of documents made, never more documents than paths;
    every document comes from one of the input paths, whose pages,
    joined by line breaks, are its text; it carries an embedding, the
    sections the extractor finds in its text (the whole text under
    [full_content]) and its path as source. *)
Theorem collected_resumes_invariant (resume_paths : list string) :
  let rc := _process_resume_batch resume_paths in
  batch_size rc = List.length resume_paths /\
  processed_count rc = List.length (resumes rc) /\
  (processed_count rc <= batch_size rc)%nat /\
  Forall (fun r =>
            In (file_path r) resume_paths /\
            (exists pages, load_pdf (file_path r) = Some pages /\
                           content r = Py.join Py.nl pages) /\
            generate_single_embedding (content r) = embedding r /\
            embedding r <> None /\
            sections r = extract_key_sections (content r) /\
            Py.get (sections r) "full_content" = Some (content r) /\
            Py.get (metadata r) "source" = Some (file_path r))
         (resumes rc).
Proof.
  cbv zeta. split; [reflexivity |]. split; [reflexivity |]. split.
  - pose proof (processed_count_succeeded resume_paths) as H1.
    pose proof (succeeded_le resume_paths) as H2.
    unfold _process_resume_batch in *.
    cbn [processed_count batch_size resumes] in *. lia.
  - apply Forall_forall. intros r Hr.
    unfold _process_resume_batch in Hr. cbn [resumes] in Hr.
    apply collect_In in Hr. destruct Hr as [p Hp].
    apply (Permutation_in _ (as_completed_perm _ (submit_all 0 resume_paths)))
      in Hp.
    apply submit_all_In in Hp. destruct Hp as [Hin [k Hk]].
    unfold _process_single_resume in Hk.
    destruct (load_pdf p) as [pages |] eqn:Hload; [| discriminate].
    destruct (generate_single_embedding (Py.join Py.nl pages)) as [e |] eqn:He;
      [| discriminate].
    injection Hk as ->. cbn [file_path content embedding sections metadata].
    split; [exact Hin |]. split; [now exists pages |].
    split; [exact He |]. split; [discriminate |].
    split; [reflexivity |]. split; reflexivity.
Qed.

End CollectionFacts.

(** * Further properties: the rankings of a batch *)

Section RankingShape.
Context {C : Collaborators} {V : VectorIndex}.
Variables (rc : ResumeCollection) (job : JobDescription).

Lemma batch_score_positive (x : R) :
  0 < x -> x <= 1 -> 0 < _enhance_batch_score x <= 1.
Proof.
  intros H0 H1. unfold _enhance_batch_score. repeat break_if; lra.
Qed.

Lemma rank_loop_wellformed (hits : list (string * (R * Py.dict string))) :
  forall i acc out,
  Forall (fun t => 0 < fst (snd t) <= 1) hits ->
  Forall (wellformed_ranking rc) acc ->
  rank_loop rc job i hits acc = Some out ->
  Forall (wellformed_ranking rc) out.
Proof.
  induction hits as [| [doc [score meta]] hits IH]; intros i acc out Hs Hacc Hrun.
  - simpl in Hrun. now injection Hrun as <-.
  - inversion Hs as [| ? ? [Hs0 Hs1] Hrest]; subst. cbn [fst snd] in *.
    cbn [rank_loop] in Hrun.
    destruct (get_resume_by_id rc (Py.get meta "resume_id"))
      as [resume_doc |] eqn:Hdoc; [| now apply (IH _ _ _ Hrest Hacc Hrun)].
    destruct (_calculate_detailed_similarity_score job resume_doc score)
      as [detailed |] eqn:Hdet; [| discriminate].
    apply (IH _ _ _ Hrest) in Hrun; [exact Hrun |].
    apply Forall_app. split; [exact Hacc |]. constructor; [| constructor].
    unfold _calculate_detailed_similarity_score in Hdet.
    destruct (generate_single_embedding (job_content job)); [| discriminate].
    destruct (batch_section_scores _ _ _); [| discriminate].
    injection Hdet as <-.
    destruct (batch_score_positive score Hs0 Hs1) as [Hp0 Hp1].
    unfold wellformed_ranking.
    cbn [candidate_name resume_id key_highlights similarity_score
         overall_score confidence].
    split; [reflexivity |].
    split; [unfold _generate_candidate_highlights; apply firstn_le_length |].
    split; [split; [exact Hp0 | exact Hp1] |].
    split; [unfold Rmin; break_if; lra |].
    split; [unfold Rmin; break_if; lra |].
    exists resume_doc. split; [| reflexivity].
    unfold get_resume_by_id in Hdoc.
    destruct (Py.get meta "resume_id"); [| discriminate].
    now apply find_some in Hdoc.
Qed.

(** X27: when the index reports distances that are not negative, every
    ranking that [_rank_candidates] returns names a resume of the
    collection by its file name (as identifier and as candidate name),
    has at most three highlights, an overall score in (0,1] and a
    confidence between that score and 1. *)
Theorem rankings_wellformed (top_n : Z) (s : index_state) :
  (forall q k hits, index_query q k s = Some hits ->
     Forall (fun h => 0 <= hit_distance h) hits) ->
  Forall (wellformed_ranking rc) (_rank_candidates rc job top_n s).
Proof.
  intros Hdist.
  unfold _rank_candidates, rank_candidates_body, similarity_search.
  destruct (generate_single_embedding (job_content job)) as [q |];
    [| constructor].
  destruct (index_query q (List.length (resumes rc)) s) as [hits |] eqn:Hquery;
    [| constructor].
  destruct (Py.traverse similarity_of_distance (map hit_distance hits))
    as [sims |] eqn:Hsims; [| constructor].
  destruct (rank_loop rc job 0 _ []) as [out |] eqn:Hloop; [| constructor].
  apply rank_loop_wellformed in Hloop; [| | constructor].
  - destruct (slice_to_prefix out top_n) as (m & -> & _).
    apply Forall_forall. intros r Hr. apply In_firstn_inv in Hr.
    now apply (proj1 (Forall_forall _ _) Hloop).
  - specialize (Hdist _ _ _ Hquery).
    apply traverse_Forall2 in Hsims.
    assert (Hunit : Forall (fun v => 0 < v <= 1) sims).
    { apply Forall_map in Hdist. clear - Hdist Hsims.
      induction Hsims as [| d v ds vs Hdv _ IH]; [constructor |].
      inversion Hdist; subst. constructor; [| now apply IH].
      unfold similarity_of_distance in Hdv.
      destruct (Req_dec_T (1 + d) 0); [discriminate |].
      injection Hdv as <-. split.
      - apply Rdiv_lt_0_compat; lra.
      - apply Rmult_le_reg_r with (1 + d); [lra |].
        unfold Rdiv. rewrite Rmult_assoc, Rinv_l by lra. lra. }
    apply Forall_forall. intros [doc [score meta]] Ht. cbn [fst snd].
    apply in_combine_r in Ht. apply in_combine_l in Ht.
    now apply (proj1 (Forall_forall _ _) Hunit).
Qed.

End RankingShape.

Lemma example_distances (q : list R) (k : nat) (s : list IndexEntry)
  (hits : list QueryHit) :
  index_query (VectorIndex := example_index) q k s = Some hits ->
  Forall (fun h => 0 <= hit_distance h) hits.
Proof.
  simpl. destruct (k =? 0)%nat; [discriminate |]. intros H. injection H as <-.
  apply Forall_forall. intros h Hh. apply In_firstn_inv in Hh.
  apply in_map_iff in Hh. destruct Hh as ([i e] & <- & _). simpl. apply pos_INR.
Qed.

Lemma rankings_wellformed_witness :
  Forall (wellformed_ranking (mkResumeCollection [embedded_resume] 1 1))
    (_rank_candidates (C := example_collaborators) (V := example_index)
       (mkResumeCollection [embedded_resume] 1 1) example_job 5
       [mkIndexEntry "r1" "Ten years of plumbing" [1; 0]
          (index_metadata embedded_resume)]).
Proof.
  apply (rankings_wellformed (C := example_collaborators) (V := example_index)).
  intros q k hits. apply example_distances.
Defined.

Lemma collected_resumes_invariant_witness :
  (processed_count (_process_resume_batch (C := example_collaborators)
                      (ten_paths ++ missing_paths))
   <= batch_size (_process_resume_batch (C := example_collaborators)
                    (ten_paths ++ missing_paths)))%nat /\
  batch_size (_process_resume_batch (C := example_collaborators)
                (ten_paths ++ missing_paths)) = 12%nat /\
  Forall (fun r => In (file_path r) (ten_paths ++ missing_paths) /\
                   embedding r <> None /\
                   Py.get (sections r) "full_content" = Some (content r))
    (resumes (_process_resume_batch (C := example_collaborators)
                (ten_paths ++ missing_paths))).
Proof.
  destruct (collected_resumes_invariant (C := example_collaborators)
              (CL := example_collaborator_laws) (ten_paths ++ missing_paths))
    as (Hsize & _ & Hle & Hall).
  split; [exact Hle |]. split; [exact Hsize |].
  eapply Forall_impl; [| exact Hall].
  intros r (Hin & _ & _ & He & _ & Hfull & _).
  split; [exact Hin |]. split; [exact He | exact Hfull].
Defined.
